(** * AI Operations Assistant: planner, executor and verifier

    A shallow embedding of the three agents of [ai_ops_assistant]
    ([agents/planner.py], [agents/executor.py], [agents/verifier.py]), of the
    JSON helper of [llm/client.py] and of the forecast stub of
    [tools/weather_tool.py], followed by the properties of the pipeline.

    Python values are the JSON-shaped values the pipeline handles; a Python
    [dict] is an association list in insertion order, because the verifier
    iterates over [items()].  Exceptions are explicit, and everything that
    talks to the network (the three HTTP-backed tool methods, the LLM
    completion call) is a state-passing function over an abstract [World]. *)

From Stdlib Require Import List String Ascii ZArith QArith Lia Bool.
From Stdlib Require Import DecimalString DecimalNat.
Import ListNotations.
Local Open Scope string_scope.
Local Open Scope list_scope.
Local Open Scope Z_scope.

Set Warnings "-register-all,-notation-for-abbreviation".

(** ** Python values *)

Inductive value : Type :=
| VNone
| VBool (b : bool)
| VInt (n : Z)
| VFloat (x : Q)
| VStr (s : string)
| VList (xs : list value)
| VDict (kvs : list (string * value)).

(** A [dict] with string keys, in insertion order. *)
Definition dict : Type := list (string * value).

(** [bool(v)]. *)
Definition truthy (v : value) : bool :=
  match v with
  | VNone => false
  | VBool b => b
  | VInt n => negb (n =? 0)
  | VFloat x => negb (Qnum x =? 0)
  | VStr s => negb (s =? "")%string
  | VList xs => match xs with [] => false | _ :: _ => true end
  | VDict kvs => match kvs with [] => false | _ :: _ => true end
  end.

(** [type(v).__name__]. *)
Definition type_name (v : value) : string :=
  match v with
  | VNone => "NoneType"
  | VBool _ => "bool"
  | VInt _ => "int"
  | VFloat _ => "float"
  | VStr _ => "str"
  | VList _ => "list"
  | VDict _ => "dict"
  end.

Definition is_dict (v : value) : bool :=
  match v with VDict _ => true | _ => false end.

(** [v == s] for a string [s]: only the string [s] itself is equal to it. *)
Definition eq_str (s : string) (v : value) : bool :=
  match v with VStr s' => (s' =? s)%string | _ => false end.

(** ** Dictionaries *)

(** [d.get(k)] as an option. *)
Fixpoint dict_get (k : string) (d : dict) : option value :=
  match d with
  | [] => None
  | (k', v) :: rest => if (k' =? k)%string then Some v else dict_get k rest
  end.

(** [d.get(k, default)]. *)
Definition dict_get_or (k : string) (d : dict) (default : value) : value :=
  match dict_get k d with Some v => v | None => default end.

(** [k in d]. *)
Definition dict_mem (k : string) (d : dict) : bool :=
  match dict_get k d with Some _ => true | None => false end.

(** [d[k] = v]: an existing key keeps its position, a new key goes last. *)
Fixpoint dict_set (k : string) (v : value) (d : dict) : dict :=
  match d with
  | [] => [(k, v)]
  | (k', v') :: rest =>
      if (k' =? k)%string then (k, v) :: rest else (k', v') :: dict_set k v rest
  end.

Definition keys (d : dict) : list string := map fst d.

(** ** Strings *)

(** [str(n)] for a non-negative index and for an integer. *)
Definition str_nat (n : nat) : string := NilEmpty.string_of_uint (Nat.to_uint n).
Definition str_Z (n : Z) : string := NilZero.string_of_int (Z.to_int n).

(** [s.startswith(p)]. *)
Definition startswith (p s : string) : bool := String.prefix p s.

(** [s[n:]]. *)
Fixpoint drop (n : nat) (s : string) : string :=
  match n, s with
  | O, _ => s
  | S n', String _ t => drop n' t
  | S _, EmptyString => EmptyString
  end.

Definition string_rev (s : string) : string :=
  string_of_list_ascii (rev (list_ascii_of_string s)).

(** [s.endswith(p)]. *)
Definition endswith (p s : string) : bool :=
  String.prefix (string_rev p) (string_rev s).

(** [s[:-n]] for [n > 0]. *)
Definition drop_last (n : nat) (s : string) : string :=
  string_rev (drop n (string_rev s)).

(** A string holds the UTF-8 encoding of the text.  The characters for which
    [str.isspace()] holds, which are the ones [str.strip()] removes, take
    one, two or three bytes.  One byte: U+0009 to U+000D, U+001C to U+0020. *)
Definition isspace (c : ascii) : bool :=
  let n := nat_of_ascii c in
  ((9 <=? n)%nat && (n <=? 13)%nat) || ((28 <=? n)%nat && (n <=? 32)%nat).

(** Two bytes: U+0085 and U+00A0, encoded [C2 85] and [C2 A0]. *)
Definition isspace2 (c1 c2 : ascii) : bool :=
  let n2 := nat_of_ascii c2 in
  (nat_of_ascii c1 =? 194)%nat && ((n2 =? 133)%nat || (n2 =? 160)%nat).

(** Three bytes: U+1680 ([E1 9A 80]); U+2000 to U+200A, U+2028, U+2029 and
    U+202F ([E2 80 80] to [E2 80 8A], [E2 80 A8], [E2 80 A9], [E2 80 AF]);
    U+205F ([E2 81 9F]); U+3000 ([E3 80 80]). *)
Definition isspace3 (c1 c2 c3 : ascii) : bool :=
  let n1 := nat_of_ascii c1 in
  let n2 := nat_of_ascii c2 in
  let n3 := nat_of_ascii c3 in
  ((n1 =? 225)%nat && (n2 =? 154)%nat && (n3 =? 128)%nat)
  || ((n1 =? 226)%nat && (n2 =? 128)%nat
      && (((128 <=? n3)%nat && (n3 <=? 138)%nat)
          || (n3 =? 168)%nat || (n3 =? 169)%nat || (n3 =? 175)%nat))
  || ((n1 =? 226)%nat && (n2 =? 129)%nat && (n3 =? 159)%nat)
  || ((n1 =? 227)%nat && (n2 =? 128)%nat && (n3 =? 128)%nat).

(** [s.lstrip()]. *)
Fixpoint lstrip (s : string) : string :=
  match s with
  | String c1 t1 =>
      if isspace c1 then lstrip t1
      else
        match t1 with
        | String c2 t2 =>
            if isspace2 c1 c2 then lstrip t2
            else
              match t2 with
              | String c3 t3 => if isspace3 c1 c2 c3 then lstrip t3 else s
              | EmptyString => s
              end
        | EmptyString => s
        end
  | EmptyString => EmptyString
  end.

(** [lstrip] on the reversed text, where the bytes of a character come last
    byte first. *)
Fixpoint lstrip_reversed (s : string) : string :=
  match s with
  | String c1 t1 =>
      if isspace c1 then lstrip_reversed t1
      else
        match t1 with
        | String c2 t2 =>
            if isspace2 c2 c1 then lstrip_reversed t2
            else
              match t2 with
              | String c3 t3 => if isspace3 c3 c2 c1 then lstrip_reversed t3 else s
              | EmptyString => s
              end
        | EmptyString => s
        end
  | EmptyString => EmptyString
  end.

(** [s.rstrip()]. *)
Definition rstrip (s : string) : string :=
  string_rev (lstrip_reversed (string_rev s)).

(** [s.strip()]. *)
Definition strip (s : string) : string := rstrip (lstrip s).

(** [needle in hay] on strings. *)
Fixpoint contains (needle hay : string) : bool :=
  String.prefix needle hay ||
  match hay with
  | EmptyString => false
  | String _ t => contains needle t
  end.

(** ** Exceptions and the state-and-exception monad *)

Inductive exn : Type :=
| ValueError (msg : string)
| TypeError (msg : string)
| AttributeError (msg : string)
| KeyError (msg : string)
| OtherError (msg : string).

(** [str(e)]. *)
Definition str_exn (e : exn) : string :=
  match e with
  | ValueError m | TypeError m | AttributeError m | KeyError m | OtherError m => m
  end.

Inductive exc (A : Type) : Type :=
| Ok (a : A)
| Raise (e : exn).
Arguments Ok {A} a.
Arguments Raise {A} e.

(** A computation over a mutable state [S] that may raise.  The state that
    comes back with [Raise] is the state at the point of the raise: what was
    mutated before an exception stays mutated. *)
Definition M (S A : Type) : Type := S -> exc A * S.

Definition ret {S A : Type} (a : A) : M S A := fun s => (Ok a, s).

Definition raise {S A : Type} (e : exn) : M S A := fun s => (Raise e, s).

Definition bind {S A B : Type} (m : M S A) (k : A -> M S B) : M S B :=
  fun s =>
    match m s with
    | (Ok a, s') => k a s'
    | (Raise e, s') => (Raise e, s')
    end.

(** [try: body / except Exception as e: handler e]. *)
Definition try_except {S A : Type} (body : M S A) (handler : exn -> M S A) : M S A :=
  fun s =>
    match body s with
    | (Ok a, s') => (Ok a, s')
    | (Raise e, s') => handler e s'
    end.

Definition lift_exc {S A : Type} (x : exc A) : M S A := fun s => (x, s).

Definition modify {S : Type} (f : S -> S) : M S unit := fun s => (Ok tt, f s).

Definition gets {S A : Type} (f : S -> A) : M S A := fun s => (Ok (f s), s).

Declare Scope py_scope.
Delimit Scope py_scope with py.
Notation "x <- m ;; k" := (bind m (fun x => k))
  (at level 61, m at next level, right associativity) : py_scope.
Notation "m ;;; k" := (bind m (fun _ => k))
  (at level 61, right associativity) : py_scope.

(** [d[k]], raising [KeyError]. *)
Definition dict_getitem (k : string) (d : dict) : exc value :=
  match dict_get k d with
  | Some v => Ok v
  | None => Raise (KeyError ("'" ++ k ++ "'"))
  end.

(** [len(v)] followed by iteration over [v]: a list yields its elements, a
    string its characters, a dict its keys; anything else is a [TypeError]. *)
Definition py_iter (v : value) : exc (list value) :=
  match v with
  | VList xs => Ok xs
  | VStr s => Ok (map (fun c => VStr (String c EmptyString)) (list_ascii_of_string s))
  | VDict kvs => Ok (map (fun kv => VStr (fst kv)) kvs)
  | _ => Raise (TypeError ("object of type '" ++ type_name v ++ "' has no len()"))
  end.

(** [k in m] for a dict [m] with string keys: unhashable values raise. *)
Definition key_in {A : Type} (k : value) (m : list (string * A)) : exc bool :=
  match k with
  | VStr s => Ok (existsb (fun e => (fst e =? s)%string) m)
  | VList _ | VDict _ => Raise (TypeError ("unhashable type: '" ++ type_name k ++ "'"))
  | _ => Ok false
  end.

(** [m[k]] once [k in m] holds. *)
Fixpoint assoc {A : Type} (s : string) (m : list (string * A)) : option A :=
  match m with
  | [] => None
  | (k, a) :: rest => if (k =? s)%string then Some a else assoc s rest
  end.

(** ** The execution report and the validation verdict *)

Record Report : Type := mkReport {
  steps_executed : Z;
  steps_failed : Z;
  results : dict
}.

Record Verdict : Type := mkVerdict {
  status : string;
  missing_fields : list string;
  errors : list string
}.

Definition empty_report : Report := mkReport 0 0 [].

Definition set_result (k : string) (v : value) (r : Report) : Report :=
  mkReport (steps_executed r) (steps_failed r) (dict_set k v (results r)).

Definition incr_executed (r : Report) : Report :=
  mkReport (steps_executed r + 1) (steps_failed r) (results r).

Definition incr_failed (r : Report) : Report :=
  mkReport (steps_executed r) (steps_failed r + 1) (results r).

(** The report as the Python dict it is, for interpolation into a prompt. *)
Definition report_value (r : Report) : value :=
  VDict [("steps_executed", VInt (steps_executed r));
         ("steps_failed", VInt (steps_failed r));
         ("results", VDict (results r))].

(** The tool contract of the pipeline: an action returns a mapping or a
    sequence of mappings (the return annotations of [tools/github_tool.py]
    and [tools/weather_tool.py]). *)
Definition outcome_shape (v : value) : bool :=
  match v with
  | VDict _ => true
  | VList xs => forallb is_dict xs
  | _ => false
  end.

(** ** HTTP

    What [requests.get] can do: answer with a response, time out
    ([requests.exceptions.Timeout]), or raise something else.  A response
    carries its status code, its text and what [response.json()] gives. *)

Record Response : Type := mkResponse {
  status_code : Z;
  text : string;
  json : exc value
}.

Inductive http_outcome : Type :=
| Responded (response : Response)
| TimedOut (msg : string)
| RequestFailed (e : exn).

(** Sequencing of computations that only raise. *)
Definition exc_bind {A B : Type} (x : exc A) (k : A -> exc B) : exc B :=
  match x with
  | Ok a => k a
  | Raise e => Raise e
  end.

Notation "x <~ m ;; k" := (exc_bind m (fun x => k))
  (at level 61, m at next level, right associativity) : py_scope.

(** [v.get(key, default)] on a value that may not be a mapping. *)
Definition attr_get (v : value) (key : string) (default : value) : exc value :=
  match v with
  | VDict d => Ok (dict_get_or key d default)
  | _ => Raise (AttributeError ("'" ++ type_name v ++ "' object has no attribute 'get'"))
  end.

(** [v[0]]. *)
Definition item0 (v : value) : exc value :=
  match v with
  | VList (x :: _) => Ok x
  | VList [] => Raise (OtherError "list index out of range")
  | VStr (String c _) => Ok (VStr (String c EmptyString))
  | VStr EmptyString => Raise (OtherError "string index out of range")
  | VDict _ => Raise (KeyError "0")
  | _ => Raise (TypeError ("'" ++ type_name v ++ "' object is not subscriptable"))
  end.

(** [operator.index(v)], as [range] and slices apply it. *)
Definition py_index (v : value) : exc Z :=
  match v with
  | VInt n => Ok n
  | VBool b => Ok (if b then 1 else 0)
  | _ => Raise (TypeError
                  ("'" ++ type_name v ++ "' object cannot be interpreted as an integer"))
  end.

(** [min(v, 100)]: the test is [100 < v], and [v] stays unless it holds. *)
Definition min_100 (v : value) : exc value :=
  match v with
  | VInt n => Ok (if 100 <? n then VInt 100 else v)
  | VBool _ => Ok v
  | VFloat x => Ok (if Qle_bool x (inject_Z 100) then v else VInt 100)
  | _ => Raise (TypeError ("'<' not supported between instances of 'int' and '"
                             ++ type_name v ++ "'"))
  end.

(** [xs[:stop]] on a list, for an integer [stop]. *)
Definition take {A : Type} (stop : Z) (xs : list A) : list A :=
  if stop <? 0
  then firstn (Z.to_nat (Z.of_nat (List.length xs) + stop)) xs
  else firstn (Z.to_nat stop) xs.

(** [v[:stop]] followed by iteration over the slice. *)
Definition slice_items (v stop : value) : exc (list value) :=
  match v with
  | VList xs =>
      match stop with
      | VNone => Ok xs
      | VInt _ | VBool _ => (n <~ py_index stop ;; Ok (take n xs))%py
      | _ => Raise (TypeError
                      "slice indices must be integers or None or have an __index__ method")
      end
  | VStr s =>
      let chars := map (fun c => VStr (String c EmptyString)) (list_ascii_of_string s) in
      match stop with
      | VNone => Ok chars
      | VInt _ | VBool _ => (n <~ py_index stop ;; Ok (take n chars))%py
      | _ => Raise (TypeError
                      "slice indices must be integers or None or have an __index__ method")
      end
  | VDict _ => Raise (TypeError "unhashable type: 'slice'")
  | _ => Raise (TypeError ("'" ++ type_name v ++ "' object is not subscriptable"))
  end.

(** [[f(x) for x in xs]] where [f] may raise. *)
Fixpoint map_exc {A B : Type} (f : A -> exc B) (xs : list A) : exc (list B) :=
  match xs with
  | [] => Ok []
  | x :: rest => (y <~ f x ;; ys <~ map_exc f rest ;; Ok (y :: ys))%py
  end.

(** The names in the text of a missing-argument [TypeError]. *)
Fixpoint quoted_names_tail (names : list string) : string :=
  match names with
  | [] => ""
  | [a] => "and '" ++ a ++ "'"
  | a :: rest => "'" ++ a ++ "', " ++ quoted_names_tail rest
  end.

Definition quoted_names (names : list string) : string :=
  match names with
  | [] => ""
  | [a] => "'" ++ a ++ "'"
  | [a; b] => "'" ++ a ++ "' and '" ++ b ++ "'"
  | a :: rest => "'" ++ a ++ "', " ++ quoted_names_tail rest
  end.

(** Binding of [method( **params )] for a method [fname(self, required...,
    optional=default...)]: the bound arguments by name, or the [TypeError] of
    the call (texts of CPython 3.10 to 3.12). *)
Definition bind_arguments (fname : string) (required : list string)
    (optional : list (string * value)) (params : value) : exc dict :=
  match params with
  | VDict kw =>
      let allowed := (required ++ map fst optional)%list in
      match find (fun k => (k =? "self")%string || negb (existsb (String.eqb k) allowed))
                 (keys kw) with
      | Some k =>
          if (k =? "self")%string
          then Raise (TypeError (fname ++ "() got multiple values for argument 'self'"))
          else Raise (TypeError (fname ++ "() got an unexpected keyword argument '"
                                   ++ k ++ "'"))
      | None =>
          match filter (fun name => negb (dict_mem name kw)) required with
          | [] =>
              Ok (map (fun name => (name, dict_get_or name kw VNone)) required
                  ++ map (fun od => (fst od, dict_get_or (fst od) kw (snd od))) optional)%list
          | missing =>
              Raise (TypeError
                (fname ++ "() missing " ++ str_nat (List.length missing)
                   ++ " required positional argument"
                   ++ (match missing with [_] => "" | _ => "s" end)
                   ++ ": " ++ quoted_names missing))
          end
      end
  | _ => Raise (TypeError (fname ++ "() argument after ** must be a mapping, not "
                             ++ type_name params))
  end.

(** ** Concrete collaborators

    A small world for running the pipeline: the state counts the network
    calls made so far. *)

Definition demo_world : Type := nat.

Definition demo_str (v : value) : string := "<" ++ type_name v ++ ">".

Definition demo_repo (name : string) (stars : Z) : value :=
  VDict [("name", VStr name); ("stars", VInt stars);
         ("description", VStr "No description"); ("url", VStr name)].

(** A search that finds three repositories. *)
Definition demo_search_repos : value -> M demo_world value :=
  fun _ w =>
    (Ok (VList [demo_repo "psf/requests" 50000;
                demo_repo "pallets/flask" 60000;
                demo_repo "django/django" 70000]), S w).

(** A repository lookup answered with HTTP 404. *)
Definition demo_get_repo_info : value -> M demo_world value :=
  fun _ w => (Ok (VDict [("error", VStr "API error: 404")]), S w).

(** A weather lookup that needs its [city] argument. *)
Definition demo_get_weather : value -> M demo_world value :=
  fun params w =>
    match params with
    | VDict kw =>
        match dict_get "city" kw with
        | Some city =>
            (Ok (VDict [("city", city); ("temperature", VInt 21);
                        ("condition", VStr "Clear")]), S w)
        | None =>
            (Raise (TypeError
               "WeatherTool.get_weather() missing 1 required positional argument: 'city'"), w)
        end
    | _ => (Raise (TypeError "get_weather() argument after ** must be a mapping"), w)
    end.

(** A search that breaks the tool contract: a sequence of numbers. *)
Definition demo_search_numbers : value -> M demo_world value :=
  fun _ w => (Ok (VList [VInt 1; VInt 2]), S w).

Definition dquote : string := String (ascii_of_nat 34) EmptyString.

Definition quoted (s : string) : string := dquote ++ s ++ dquote.

(** The text of a verdict that reports success, inside a code fence. *)
Definition demo_verdict_json : string :=
  "{" ++ quoted "status" ++ ": " ++ quoted "success" ++ ", "
      ++ quoted "results" ++ ": {}}".

Definition demo_verdict_text : string :=
  "```json
" ++ demo_verdict_json ++ "
```
".

(** The text of a plan whose [steps] field is not a list. *)
Definition demo_bad_plan_json : string :=
  "{" ++ quoted "steps" ++ ": " ++ quoted "none" ++ "}".

(** [json.loads] on the texts above. *)
Definition demo_json_loads (text : string) : value + string :=
  if (text =? demo_verdict_json)%string then
    inl (VDict [("status", VStr "success"); ("results", VDict [])])
  else if (text =? demo_bad_plan_json)%string then
    inl (VDict [("steps", VStr "none")])
  else inr "Expecting value: line 1 column 1 (char 0)".

(** Three LLM providers: one answers with the verdict, one with the bad
    plan, one is unreachable. *)
Definition demo_generate_verdict : string -> string -> M demo_world string :=
  fun _ _ w => (Ok demo_verdict_text, S w).

Definition demo_generate_bad_plan : string -> string -> M demo_world string :=
  fun _ _ w => (Ok demo_bad_plan_json, S w).

Definition demo_generate_down : string -> string -> M demo_world string :=
  fun _ _ w => (Raise (OtherError "Connection error."), w).

Definition demo_system_prompt : string := "Output ONLY valid JSON.".

Definition demo_step (tool action : string) (params : dict) : dict :=
  [("tool", VStr tool); ("action", VStr action); ("params", VDict params)].

(** A plan with a search, a step for a tool nobody registered, and two
    forecasts, and another plan made of its first step alone. *)
Definition demo_search_step : dict :=
  demo_step "github" "search_repos" [("query", VStr "python"); ("limit", VInt 3)].

Definition demo_unknown_step : dict := demo_step "translate" "detect" [].

Definition demo_forecast_step (city : string) : dict :=
  demo_step "weather" "get_forecast" [("city", VStr city)].

Definition demo_bad_params_step : dict :=
  demo_step "weather" "get_forecast" [("town", VStr "Paris")].

Definition demo_plan_steps : list dict :=
  [demo_search_step; demo_forecast_step "Paris"; demo_unknown_step;
   demo_forecast_step "Rome"].

Definition demo_plan : dict := [("steps", VList (map VDict demo_plan_steps))].

Definition demo_forecast (city : string) : value :=
  VDict [("city", VStr city); ("forecast", VList []);
         ("error", VStr "Forecast not implemented")].

(** The report of a search that exhausted its retries. *)
Definition demo_failed_search_report : Report :=
  mkReport 1 1
    [("github_search_repos",
      VList [VDict [("name", VStr "Error"); ("stars", VInt 0);
                    ("description", VStr "Failed to fetch data: Request timeout");
                    ("url", VStr ""); ("error", VBool true)]])].

(** The report of a search that found its three repositories. *)
Definition demo_search_report : Report :=
  mkReport 1 0
    [("github_search_repos",
      VList [demo_repo "psf/requests" 50000;
             demo_repo "pallets/flask" 60000;
             demo_repo "django/django" 70000])].

(** The report of the four-step plan on the collaborators above. *)
Definition demo_plan_result : Report :=
  mkReport 3 3
    [("github_search_repos",
      VList [demo_repo "psf/requests" 50000;
             demo_repo "pallets/flask" 60000;
             demo_repo "django/django" 70000]);
     ("weather_get_forecast", demo_forecast "Paris");
     ("error_step_2",
      VDict [("error", VBool true);
             ("message", VStr "Unknown tool: translate");
             ("step", VDict demo_unknown_step)]);
     ("weather_get_forecast_3", demo_forecast "Rome")].

(** A plan that passes validation. *)
Definition demo_valid_plan : dict :=
  [("steps", VList [VDict demo_search_step; VDict (demo_forecast_step "Paris")])].

(** The text of a verdict that carries a summary and nothing else, the
    [json.loads] that reads it, and the LLM that answers with it. *)
Definition demo_summary_json : string :=
  "{" ++ quoted "summary" ++ ": " ++ quoted "done" ++ "}".

Definition demo_json_loads_summary (text : string) : value + string :=
  if (text =? demo_summary_json)%string then inl (VDict [("summary", VStr "done")])
  else demo_json_loads text.

Definition demo_generate_summary : string -> string -> M demo_world string :=
  fun _ _ w => (Ok demo_summary_json, S w).

(** The JSON bodies of a weather answer and of a search answer. *)
Definition demo_weather_body : value :=
  VDict [("name", VStr "Paris");
         ("sys", VDict [("country", VStr "FR")]);
         ("main", VDict [("temp", VInt 21); ("feels_like", VInt 20);
                         ("humidity", VInt 40); ("pressure", VInt 1015)]);
         ("weather", VList [VDict [("main", VStr "Clear");
                                   ("description", VStr "clear sky")]]);
         ("wind", VDict [("speed", VInt 3)])].

Definition demo_search_body : value :=
  VDict [("total_count", VInt 3);
         ("items",
          VList [VDict [("full_name", VStr "psf/requests");
                        ("stargazers_count", VInt 50000);
                        ("html_url", VStr "https://github.com/psf/requests")];
                 VDict [("full_name", VStr "pallets/flask");
                        ("stargazers_count", VInt 60000);
                        ("html_url", VStr "https://github.com/pallets/flask")];
                 VDict [("full_name", VStr "django/django");
                        ("stargazers_count", VInt 70000);
                        ("html_url", VStr "https://github.com/django/django")]])].

(** A network that times out on the first two requests and answers from
    the third on: the weather endpoint and the search endpoint with the
    bodies above, any other address with 404. *)
Definition demo_requests_get (url : string) (headers params : dict) (w : demo_world)
  : http_outcome * demo_world :=
  if (w <? 2)%nat then (TimedOut "Read timed out.", S w)
  else if (url =? "https://api.openweathermap.org/data/2.5/weather")%string
  then (Responded (mkResponse 200 "" (Ok demo_weather_body)), S w)
  else if (url =? "https://api.github.com/search/repositories")%string
  then (Responded (mkResponse 200 "" (Ok demo_search_body)), S w)
  else (Responded (mkResponse 404 "Not Found" (Ok (VDict [("message", VStr "Not Found")]))),
        S w).

Definition demo_sleep (seconds : Z) (w : demo_world) : demo_world := w.

(** A step for an action the GitHub tool does not have. *)
Definition demo_unregistered_action_step : dict :=
  demo_step "github" "star_repo" [("repo", VStr "psf/requests")].

(** U+00A0, the no-break space, and U+2003, the em space, in UTF-8. *)
Definition demo_nbsp : string :=
  String (ascii_of_nat 194) (String (ascii_of_nat 160) "").

Definition demo_em_space : string :=
  String (ascii_of_nat 226) (String (ascii_of_nat 128) (String (ascii_of_nat 131) "")).

(** The four-step report without its [error_step_2] entry. *)
Definition demo_plan_result_categories : Report :=
  mkReport 3 3
    [("github_search_repos",
      VList [demo_repo "psf/requests" 50000;
             demo_repo "pallets/flask" 60000;
             demo_repo "django/django" 70000]);
     ("weather_get_forecast", demo_forecast "Paris");
     ("weather_get_forecast_3", demo_forecast "Rome")].

Section Pipeline.

Local Open Scope py_scope.

(** The outside world: the remote APIs behind the tools and the LLM provider. *)
Variable World : Type.

(** [str(v)] for a value that is not already a string (f-string
    interpolation of numbers, lists, dicts); a string interpolates as itself. *)
Variable str_nonstring : value -> string.

Definition py_str (v : value) : string :=
  match v with
  | VStr s => s
  | _ => str_nonstring v
  end.

(** A bound tool method called as [method( **params )]: it receives the value
    of [params], and raises [TypeError] when the named arguments do not fit. *)
Definition method : Type := value -> M World value.

(** [GitHubTool.search_repos], [GitHubTool.get_repo_info] and
    [WeatherTool.get_weather] perform HTTP requests. *)
Variable search_repos : method.
Variable get_repo_info : method.
Variable get_weather : method.

(** [LLMClient.generate] with the temperature the agents always pass, and
    [json.loads] ([inr] carries the text of the [JSONDecodeError]). *)
Variable generate : string -> string -> M World string.
Variable json_loads : string -> value + string.

(** The two system prompts of [llm/prompts.py]. *)
Variable PLANNER_SYSTEM_PROMPT : string.
Variable VERIFIER_SYSTEM_PROMPT : string.

(** *** tools/weather_tool.py *)

(** [WeatherTool.get_weather_forecast(self, city, days=5)]: a stub. *)
Definition get_weather_forecast : method :=
  fun params =>
    match params with
    | VDict kw =>
        match find (fun k => negb ((k =? "city") || (k =? "days"))%string) (keys kw) with
        | Some k =>
            raise (TypeError
              ("WeatherTool.get_weather_forecast() got an unexpected keyword argument '"
                 ++ k ++ "'"))
        | None =>
            match dict_get "city" kw with
            | None =>
                raise (TypeError
                  "WeatherTool.get_weather_forecast() missing 1 required positional argument: 'city'")
            | Some city =>
                ret (VDict [("city", city);
                            ("forecast", VList []);
                            ("error", VStr "Forecast not implemented")])
            end
        end
    | _ =>
        raise (TypeError
          ("get_weather_forecast() argument after ** must be a mapping, not "
             ++ type_name params))
    end.

(** *** agents/executor.py *)

(** [self.action_map], built in [ExecutorAgent.__init__]. *)
Definition action_map : list (string * list (string * method)) :=
  [("github", [("search_repos", search_repos);
               ("get_repo_info", get_repo_info)]);
   ("weather", [("get_weather", get_weather);
                ("get_forecast", get_weather_forecast)])].

(** [self.action_map[tool_name]] and [self.action_map[tool_name][action_name]]
    after the membership tests have passed. *)
Definition actions_of (tool_name : value) : list (string * method) :=
  match tool_name with
  | VStr t => match assoc t action_map with Some acts => acts | None => [] end
  | _ => []
  end.

Definition method_of (tool_name action_name : value) : method :=
  match action_name with
  | VStr a =>
      match assoc a (actions_of tool_name) with
      | Some m => m
      | None => fun _ => raise (KeyError ("'" ++ a ++ "'"))
      end
  | _ => fun _ => raise (KeyError (py_str action_name))
  end.

(** [ExecutorAgent._execute_step]. *)
Definition _execute_step (step : dict) : M World value :=
  let tool_name := dict_get_or "tool" step VNone in
  let action_name := dict_get_or "action" step VNone in
  let params := dict_get_or "params" step (VDict []) in
  known_tool <- lift_exc (key_in tool_name action_map) ;;
  if negb known_tool then
    raise (ValueError ("Unknown tool: " ++ py_str tool_name))
  else
    known_action <- lift_exc (key_in action_name (actions_of tool_name)) ;;
    if negb known_action then
      raise (ValueError ("Unknown action '" ++ py_str action_name
                           ++ "' for tool '" ++ py_str tool_name ++ "'"))
    else
      let method := method_of tool_name action_name in
      try_except (method params)
        (fun e =>
           match e with
           | TypeError msg =>
               ret (VDict [("error", VBool true);
                           ("message", VStr ("Invalid parameters: " ++ msg))])
           | _ => raise e
           end).

(** [ExecutorAgent.execute_single_step]. *)
Definition execute_single_step (tool action : value) (params : value) : M World value :=
  _execute_step [("tool", tool); ("action", action); ("params", params)].

(** The test after a step has been stored (lines 82-89):
    [isinstance(result, dict) and result.get("error")], else
    [isinstance(result, list) and result and result[0].get("error")].
    The second test calls [.get] on the first element whatever it is. *)
Definition outcome_failed (result : value) : exc bool :=
  match result with
  | VDict d => Ok (truthy (dict_get_or "error" d VNone))
  | VList (first :: _) =>
      match first with
      | VDict d0 => Ok (truthy (dict_get_or "error" d0 VNone))
      | _ => Raise (AttributeError
                      ("'" ++ type_name first ++ "' object has no attribute 'get'"))
      end
  | _ => Ok false
  end.

(** The loop of [execute_plan] runs over the report being built and the world. *)
Definition on_world {A : Type} (m : M World A) : M (Report * World) A :=
  fun s =>
    let '(x, w') := m (snd s) in (x, (fst s, w')).

Definition update_report (f : Report -> Report) : M (Report * World) unit :=
  modify (fun s => (f (fst s), snd s)).

(** The synthetic record stored by the [except] branch. *)
Definition error_record (e : exn) (step : dict) : value :=
  VDict [("error", VBool true); ("message", VStr (str_exn e)); ("step", VDict step)].

(** The body of the [for] loop of [execute_plan] for step [i]: the [try]
    block and its [except Exception] handler. *)
Definition step_body (i : nat) (step : dict) : M (Report * World) unit :=
  try_except
    (result <- on_world (_execute_step step) ;;
     tool <- lift_exc (dict_getitem "tool" step) ;;
     action <- lift_exc (dict_getitem "action" step) ;;
     let result_key := (py_str tool ++ "_" ++ py_str action)%string in
     used <- gets (fun s => dict_mem result_key (results (fst s))) ;;
     let result_key :=
       if used then (result_key ++ "_" ++ str_nat i)%string else result_key in
     update_report (set_result result_key result) ;;;
     update_report incr_executed ;;;
     failed <- lift_exc (outcome_failed result) ;;
     if failed then update_report incr_failed else ret tt)
    (fun e =>
       update_report (set_result ("error_step_" ++ str_nat i) (error_record e step)) ;;;
       update_report incr_failed).

(** The [for i, step in enumerate(...)] loop from index [i] on.  The log line
    at the top of the loop calls [step.get] outside the [try]. *)
Fixpoint run_steps (i : nat) (steps : list value) : M (Report * World) unit :=
  match steps with
  | [] => ret tt
  | step :: rest =>
      match step with
      | VDict s => step_body i s ;;; run_steps (S i) rest
      | _ => raise (AttributeError
                      ("'" ++ type_name step ++ "' object has no attribute 'get'"))
      end
  end.

(** [ExecutorAgent.execute_plan]. *)
Definition execute_plan (plan : dict) : M World Report :=
  fun w =>
    match py_iter (dict_get_or "steps" plan (VList [])) with
    | Raise e => (Raise e, w)
    | Ok steps =>
        match run_steps 0 steps (empty_report, w) with
        | (Ok _, (r, w')) => (Ok r, w')
        | (Raise e, (_, w')) => (Raise e, w')
        end
    end.

(** *** llm/client.py *)

(** [LLMClient.generate_json]: strip the text, remove a leading code fence
    and a trailing one, strip again, parse. *)
Definition clean_response (response : string) : string :=
  let response := strip response in
  let response :=
    if startswith "```json" response then drop 7 response
    else if startswith "```" response then drop 3 response
    else response in
  let response :=
    if endswith "```" response then drop_last 3 response else response in
  strip response.

Definition generate_json (prompt system_prompt : string) : M World value :=
  response <- generate prompt system_prompt ;;
  match json_loads (clean_response response) with
  | inl v => ret v
  | inr msg => raise (ValueError ("LLM did not return valid JSON: " ++ msg))
  end.

(** *** agents/verifier.py *)

(** One more detected error: [success] degrades to [partial], the message is
    appended. *)
Definition flag (msg : string) (v : Verdict) : Verdict :=
  mkVerdict (if (status v =? "success")%string then "partial" else status v)
            (missing_fields v)
            (errors v ++ [msg]).

(** The body of the loop over [results.items()] in [_basic_validation]. *)
Definition check_entry (v : Verdict) (entry : string * value) : Verdict :=
  let '(key, val) := entry in
  match val with
  | VDict d =>
      if truthy (dict_get_or "error" d VNone) then
        flag (key ++ ": " ++ py_str (dict_get_or "message" d (VStr "Unknown error"))) v
      else v
  | VList (VDict d0 :: _) =>
      if truthy (dict_get_or "error" d0 VNone) then
        flag (key ++ ": " ++ py_str (dict_get_or "description" d0 (VStr "Unknown error"))) v
      else v
  | _ => v
  end.

(** [VerifierAgent._basic_validation]. *)
Definition _basic_validation (r : Report) : Verdict :=
  let validation := mkVerdict "success" [] [] in
  let validation :=
    if steps_failed r >? 0 then
      mkVerdict "partial" (missing_fields validation)
                (errors validation ++ [(str_Z (steps_failed r) ++ " step(s) failed")%string])
    else validation in
  let validation :=
    if steps_executed r =? 0 then
      mkVerdict "failed" (missing_fields validation)
                (errors validation ++ ["No steps executed successfully"])
    else validation in
  fold_left check_entry (results r) validation.

(** The body of the grouping loop of [_format_results], over
    [(github_repos, weather_data)]. *)
Definition group_entry (acc : list value * dict) (entry : string * value)
  : list value * dict :=
  let '(github_repos, weather_data) := acc in
  let '(key, val) := entry in
  if contains "github" key then
    match val with
    | VList xs => (github_repos ++ xs, weather_data)
    | VDict _ => (github_repos ++ [val], weather_data)
    | _ => acc
    end
  else if contains "weather" key then
    match val with
    | VDict d => (github_repos, d)
    | _ => acc
    end
  else acc.

(** [VerifierAgent._format_results]. *)
Definition _format_results (r : Report) (validation : Verdict) : value :=
  let '(github_repos, weather_data) := fold_left group_entry (results r) ([], []) in
  let formatted_results : dict := [] in
  let formatted_results :=
    if truthy (VList github_repos)
    then dict_set "github_repos" (VList github_repos) formatted_results
    else formatted_results in
  let formatted_results :=
    if truthy (VDict weather_data)
    then dict_set "weather" (VDict weather_data) formatted_results
    else formatted_results in
  VDict [("status", VStr (status validation));
         ("results", VDict formatted_results);
         ("missing_fields", VList (map VStr (missing_fields validation)));
         ("errors", VList (map VStr (errors validation)))].

(** [if key not in verified_output: verified_output[key] = default] on
    whatever [json.loads] returned. *)
Definition ensure_field (key : string) (default : value) (v : value) : exc value :=
  match v with
  | VDict d => Ok (if dict_mem key d then v else VDict (dict_set key default d))
  | VList xs =>
      if existsb (eq_str key) xs then Ok v
      else Raise (TypeError "list indices must be integers or slices, not str")
  | VStr s =>
      if contains key s then Ok v
      else Raise (TypeError "'str' object does not support item assignment")
  | _ => Raise (TypeError ("argument of type '" ++ type_name v ++ "' is not iterable"))
  end.

Definition verification_prompt (r : Report) (original_request : string) : string :=
  ("
        Original user request: " ++ original_request ++ "
        
        Execution results:
        " ++ py_str (report_value r) ++ "
        
        Analyze these results and provide:
        1. Status (success/partial/failed)
        2. Clean, formatted results organized by category
        3. List of any missing fields or incomplete data
        4. List of any errors encountered
        
        Format the output as valid JSON following the schema in the system prompt.
        ")%string.

(** [VerifierAgent._llm_verification]; its handler logs and re-raises. *)
Definition _llm_verification (r : Report) (original_request : string) : M World value :=
  try_except
    (verified_output <-
       generate_json (verification_prompt r original_request) VERIFIER_SYSTEM_PROMPT ;;
     verified_output <- lift_exc (ensure_field "status" (VStr "partial") verified_output) ;;
     verified_output <- lift_exc (ensure_field "results" (VDict []) verified_output) ;;
     ret verified_output)
    (fun e => raise e).

(** [VerifierAgent.verify_and_format]. *)
Definition verify_and_format (r : Report) (original_request : string) : M World value :=
  let basic_validation := _basic_validation r in
  if (status basic_validation =? "success")%string then
    ret (_format_results r basic_validation)
  else
    try_except (_llm_verification r original_request)
      (fun _ => ret (_format_results r basic_validation)).

(** *** agents/planner.py *)

(** The checks of [_validate_plan] on one step. *)
Definition validate_step (step : value) : bool :=
  match step with
  | VDict s =>
      forallb (fun key => dict_mem key s) ["tool"; "action"; "params"]
      && existsb (fun t => eq_str t (dict_get_or "tool" s VNone)) ["github"; "weather"]
  | _ => false
  end.

(** [PlannerAgent._validate_plan]: the first failing check returns [False]. *)
Definition _validate_plan (plan : value) : bool :=
  match plan with
  | VDict p =>
      match dict_get "steps" p with
      | None => false
      | Some (VList steps) => forallb validate_step steps
      | Some _ => false
      end
  | _ => false
  end.

Definition refinement_prompt (plan : value) (feedback : string) : string :=
  ("
        Original plan:
        " ++ py_str plan ++ "
        
        Execution feedback:
        " ++ feedback ++ "
        
        Generate an improved plan that addresses the issues.
        ")%string.

(** [PlannerAgent.refine_plan]. *)
Definition refine_plan (plan : value) (feedback : string) : M World value :=
  try_except
    (refined_plan <- generate_json (refinement_prompt plan feedback) PLANNER_SYSTEM_PROMPT ;;
     if _validate_plan refined_plan then ret refined_plan else ret plan)
    (fun _ => ret plan).

(** [len(plan.get('steps', []))], the argument of the last log line of
    [create_plan]. *)
Definition steps_count (plan : value) : exc nat :=
  match plan with
  | VDict p =>
      match py_iter (dict_get_or "steps" p (VList [])) with
      | Ok xs => Ok (List.length xs)
      | Raise e => Raise e
      end
  | _ => Raise (AttributeError ("'" ++ type_name plan ++ "' object has no attribute 'get'"))
  end.

(** [PlannerAgent.create_plan]; its handler logs and re-raises. *)
Definition create_plan (user_input : string) : M World value :=
  try_except
    (plan <- generate_json ("User request: " ++ user_input) PLANNER_SYSTEM_PROMPT ;;
     if negb (_validate_plan plan) then
       raise (ValueError "Invalid plan structure generated")
     else
       lift_exc (steps_count plan) ;;;
       ret plan)
    (fun e => raise e).

(** *** main.py *)

(** [v[key]] for a string [key]. *)
Definition getitem (key : string) (v : value) : exc value :=
  match v with
  | VDict d => dict_getitem key d
  | VList _ => Raise (TypeError "list indices must be integers or slices, not str")
  | VStr _ => Raise (TypeError "string indices must be integers, not 'str'")
  | _ => Raise (TypeError ("'" ++ type_name v ++ "' object is not subscriptable"))
  end.

(** [self.executor.execute_plan(plan)] on whatever the planner returned:
    [execute_plan] starts with [plan.get]. *)
Definition execute_plan_value (plan : value) : M World Report :=
  match plan with
  | VDict p => execute_plan p
  | _ => raise (AttributeError ("'" ++ type_name plan ++ "' object has no attribute 'get'"))
  end.

(** The result [process_request] returns from its [except] branch. *)
Definition failure_result (e : exn) : value :=
  VDict [("status", VStr "failed");
         ("results", VDict []);
         ("errors", VList [VStr (str_exn e)]);
         ("missing_fields", VList [])].

(** [AIOperationsAssistant.process_request].  Of its log lines, the one after
    verification reads [final_output['status']]; [json.dumps(plan)] and
    [execution_results['steps_executed']] cannot fail on the values they get. *)
Definition process_request (user_input : string) : M World value :=
  try_except
    (plan <- create_plan user_input ;;
     execution_results <- execute_plan_value plan ;;
     final_output <- verify_and_format execution_results user_input ;;
     lift_exc (getitem "status" final_output) ;;;
     ret final_output)
    (fun e => ret (failure_result e)).

(** [VerifierAgent.retry_failed_steps]: the retry itself is a placeholder,
    and the [executor] argument is never used. *)
Definition retry_failed_steps (verification_result : value) : M World value :=
  status <- lift_exc (getitem "status" verification_result) ;;
  if eq_str "success" status then ret verification_result
  else ret verification_result.

(** *** tools/weather_tool.py and tools/github_tool.py, the HTTP-backed methods

    [requests.get(url, headers=..., params=..., timeout=10)] and [sleep] act
    on the world; [self.api_key] and [self.token] are fixed when the tools
    are built. *)
Variable requests_get : string -> dict -> dict -> World -> http_outcome * World.
Variable sleep : Z -> World -> World.
Variable weather_api_key : option string.
Variable github_token : option string.

(** [bool(key)] for an optional string. *)
Definition configured (key : option string) : bool :=
  match key with
  | Some k => negb (k =? "")%string
  | None => false
  end.

Definition WEATHER_BASE_URL : string := "https://api.openweathermap.org/data/2.5/weather".
Definition GITHUB_BASE_URL : string := "https://api.github.com".

(** [WeatherTool._fallback_response]. *)
Definition WeatherTool_fallback_response (error_msg : string) : value :=
  VDict [("city", VStr "Unknown");
         ("temperature", VNone);
         ("condition", VStr "Error");
         ("description", VStr error_msg);
         ("humidity", VNone);
         ("error", VBool true)].

(** The [weather_data] mapping [get_weather] builds from the JSON body. *)
Definition weather_data_of (data units : value) : exc value :=
  (name <~ attr_get data "name" VNone ;;
   sys <~ attr_get data "sys" (VDict []) ;;
   country <~ attr_get sys "country" VNone ;;
   main <~ attr_get data "main" (VDict []) ;;
   temp <~ attr_get main "temp" VNone ;;
   main <~ attr_get data "main" (VDict []) ;;
   feels_like <~ attr_get main "feels_like" VNone ;;
   weather <~ attr_get data "weather" (VList [VDict []]) ;;
   first <~ item0 weather ;;
   condition <~ attr_get first "main" (VStr "Unknown") ;;
   weather <~ attr_get data "weather" (VList [VDict []]) ;;
   first <~ item0 weather ;;
   description <~ attr_get first "description" (VStr "") ;;
   main <~ attr_get data "main" (VDict []) ;;
   humidity <~ attr_get main "humidity" VNone ;;
   main <~ attr_get data "main" (VDict []) ;;
   pressure <~ attr_get main "pressure" VNone ;;
   wind <~ attr_get data "wind" (VDict []) ;;
   wind_speed <~ attr_get wind "speed" VNone ;;
   Ok (VDict [("city", name);
              ("country", country);
              ("temperature", temp);
              ("feels_like", feels_like);
              ("condition", condition);
              ("description", description);
              ("humidity", humidity);
              ("pressure", pressure);
              ("wind_speed", wind_speed);
              ("units", VStr (if eq_str "metric" units then "°C" else "°F"))]))%py.

(** The [for attempt in range(retry_count)] loop of [get_weather], with
    [remaining] iterations left.  An iteration that neither returns nor is
    the last sleeps a second and goes on. *)
Fixpoint weather_attempts (remaining : nat) (attempt retry_count : Z)
    (city units : value) (key : string) : M World value :=
  match remaining with
  | O => ret (WeatherTool_fallback_response "Max retries exceeded")
  | S remaining' =>
      let again (error_msg : string) : M World value :=
        if attempt <? retry_count - 1
        then fun w =>
               weather_attempts remaining' (attempt + 1) retry_count city units key
                 (sleep 1 w)
        else ret (WeatherTool_fallback_response error_msg) in
      fun w =>
        match requests_get WEATHER_BASE_URL []
                [("q", city); ("appid", VStr key); ("units", units)] w with
        | (Responded response, w1) =>
            if status_code response =? 200 then
              match (data <~ json response ;; weather_data_of data units)%py with
              | Ok weather_data => (Ok weather_data, w1)
              | Raise e => again (str_exn e) w1
              end
            else if status_code response =? 404 then
              (Ok (WeatherTool_fallback_response
                     ("City '" ++ py_str city ++ "' not found")), w1)
            else if status_code response =? 401 then
              (Ok (WeatherTool_fallback_response "Invalid API key"), w1)
            else again ("API error: " ++ str_Z (status_code response))%string w1
        | (TimedOut _, w1) => again "Request timeout" w1
        | (RequestFailed e, w1) => again (str_exn e) w1
        end
  end.

(** [WeatherTool.get_weather(self, city, units="metric", retry_count=3)]. *)
Definition WeatherTool_get_weather : method :=
  fun params =>
    args <- lift_exc (bind_arguments "WeatherTool.get_weather" ["city"]
                        [("units", VStr "metric"); ("retry_count", VInt 3)] params) ;;
    let city := dict_get_or "city" args VNone in
    let units := dict_get_or "units" args VNone in
    let retry_count := dict_get_or "retry_count" args VNone in
    match weather_api_key with
    | Some key =>
        if configured weather_api_key then
          n <- lift_exc (py_index retry_count) ;;
          weather_attempts (Z.to_nat n) 0 n city units key
        else ret (WeatherTool_fallback_response "API key not configured")
    | None => ret (WeatherTool_fallback_response "API key not configured")
    end.

(** [self.headers], built in [GitHubTool.__init__]. *)
Definition github_headers : dict :=
  match github_token with
  | Some token =>
      if configured github_token
      then [("Accept", VStr "application/vnd.github.v3+json");
            ("Authorization", VStr ("token " ++ token))]
      else [("Accept", VStr "application/vnd.github.v3+json")]
  | None => [("Accept", VStr "application/vnd.github.v3+json")]
  end.

(** [GitHubTool._fallback_response]. *)
Definition GitHubTool_fallback_response (error_msg : string) : value :=
  VList [VDict [("name", VStr "Error");
                ("stars", VInt 0);
                ("description", VStr ("Failed to fetch data: " ++ error_msg));
                ("url", VStr "");
                ("error", VBool true)]].

(** The [repo] mapping [search_repos] builds from one item. *)
Definition repo_of_item (item : value) : exc value :=
  (name <~ attr_get item "full_name" VNone ;;
   stars <~ attr_get item "stargazers_count" (VInt 0) ;;
   description <~ attr_get item "description" (VStr "No description") ;;
   url <~ attr_get item "html_url" VNone ;;
   language <~ attr_get item "language" (VStr "Unknown") ;;
   forks <~ attr_get item "forks_count" (VInt 0) ;;
   Ok (VDict [("name", name);
              ("stars", stars);
              ("description", description);
              ("url", url);
              ("language", language);
              ("forks", forks)]))%py.

(** The [repos] list [search_repos] builds from the JSON body. *)
Definition repos_of_data (data limit : value) : exc value :=
  (items <~ attr_get data "items" (VList []) ;;
   sliced <~ slice_items items limit ;;
   repos <~ map_exc repo_of_item sliced ;;
   Ok (VList repos))%py.

(** The retry loop of [search_repos]; a rate-limited attempt backs off
    [2 ** attempt] seconds, any other failed attempt one second. *)
Fixpoint search_attempts (remaining : nat) (attempt retry_count : Z)
    (limit : value) (params : dict) : M World value :=
  match remaining with
  | O => ret (GitHubTool_fallback_response "Max retries exceeded")
  | S remaining' =>
      let again (pause : Z) (error_msg : string) : M World value :=
        if attempt <? retry_count - 1
        then fun w =>
               search_attempts remaining' (attempt + 1) retry_count limit params
                 (sleep pause w)
        else ret (GitHubTool_fallback_response error_msg) in
      fun w =>
        match requests_get (GITHUB_BASE_URL ++ "/search/repositories")
                github_headers params w with
        | (Responded response, w1) =>
            if status_code response =? 200 then
              match (data <~ json response ;; repos_of_data data limit)%py with
              | Ok repos => (Ok repos, w1)
              | Raise e => again 1 (str_exn e) w1
              end
            else if status_code response =? 403 then
              again (2 ^ attempt) ("Rate limit exceeded: " ++ text response)%string w1
            else again 1 ("API error: " ++ str_Z (status_code response))%string w1
        | (TimedOut _, w1) => again 1 "Request timeout" w1
        | (RequestFailed e, w1) => again 1 (str_exn e) w1
        end
  end.

(** [GitHubTool.search_repos(self, query, limit=5, sort="stars",
    order="desc", retry_count=3)]. *)
Definition GitHubTool_search_repos : method :=
  fun params =>
    args <- lift_exc (bind_arguments "GitHubTool.search_repos" ["query"]
                        [("limit", VInt 5); ("sort", VStr "stars");
                         ("order", VStr "desc"); ("retry_count", VInt 3)] params) ;;
    let query := dict_get_or "query" args VNone in
    let limit := dict_get_or "limit" args VNone in
    let sort := dict_get_or "sort" args VNone in
    let order := dict_get_or "order" args VNone in
    let retry_count := dict_get_or "retry_count" args VNone in
    per_page <- lift_exc (min_100 limit) ;;
    n <- lift_exc (py_index retry_count) ;;
    search_attempts (Z.to_nat n) 0 n limit
      [("q", query); ("sort", sort); ("order", order); ("per_page", per_page)].

(** The mapping [get_repo_info] builds from the JSON body. *)
Definition repo_info_of (data : value) : exc value :=
  (name <~ attr_get data "full_name" VNone ;;
   stars <~ attr_get data "stargazers_count" (VInt 0) ;;
   description <~ attr_get data "description" (VStr "No description") ;;
   url <~ attr_get data "html_url" VNone ;;
   language <~ attr_get data "language" (VStr "Unknown") ;;
   forks <~ attr_get data "forks_count" (VInt 0) ;;
   open_issues <~ attr_get data "open_issues_count" (VInt 0) ;;
   created_at <~ attr_get data "created_at" VNone ;;
   updated_at <~ attr_get data "updated_at" VNone ;;
   Ok (VDict [("name", name);
              ("stars", stars);
              ("description", description);
              ("url", url);
              ("language", language);
              ("forks", forks);
              ("open_issues", open_issues);
              ("created_at", created_at);
              ("updated_at", updated_at)]))%py.

(** [GitHubTool.get_repo_info(self, owner, repo)]. *)
Definition GitHubTool_get_repo_info : method :=
  fun params =>
    args <- lift_exc (bind_arguments "GitHubTool.get_repo_info" ["owner"; "repo"] []
                        params) ;;
    let owner := dict_get_or "owner" args VNone in
    let repo := dict_get_or "repo" args VNone in
    let url := (GITHUB_BASE_URL ++ "/repos/" ++ py_str owner ++ "/" ++ py_str repo)%string in
    fun w =>
      match requests_get url github_headers [] w with
      | (Responded response, w1) =>
          if status_code response =? 200 then
            match (data <~ json response ;; repo_info_of data)%py with
            | Ok info => (Ok info, w1)
            | Raise e => (Ok (VDict [("error", VStr (str_exn e))]), w1)
            end
          else
            (Ok (VDict [("error", VStr ("API error: " ++ str_Z (status_code response)))]),
             w1)
      | (TimedOut msg, w1) => (Ok (VDict [("error", VStr msg)]), w1)
      | (RequestFailed e, w1) => (Ok (VDict [("error", VStr (str_exn e))]), w1)
      end.

(** What [get_weather] can return: a fallback response, which carries
    [error: True], or the ten-field weather mapping, which has no [error]
    field. *)
Definition weather_result (v : value) : Prop :=
  (exists msg, v = WeatherTool_fallback_response msg)
  \/ (exists d,
        v = VDict d
        /\ keys d = ["city"; "country"; "temperature"; "feels_like"; "condition";
                     "description"; "humidity"; "pressure"; "wind_speed"; "units"]).

(** What [search_repos] can return for a given [limit]: the fallback
    response, or a list of six-field repository mappings, no longer than a
    non-negative integer [limit]. *)
Definition search_result (limit : value) (v : value) : Prop :=
  (exists msg, v = GitHubTool_fallback_response msg)
  \/ (exists repos,
        v = VList repos
        /\ Forall (fun repo =>
                     exists d,
                       repo = VDict d
                       /\ keys d = ["name"; "stars"; "description"; "url";
                                    "language"; "forks"]) repos
        /\ forall n, limit = VInt n -> 0 <= n -> Z.of_nat (List.length repos) <= n).

(** No registered action raises anything but a [TypeError]. *)
Definition tools_raise_type_errors_only : Prop :=
  forall (t a : string) (acts : list (string * method)) (m : method),
    assoc t action_map = Some acts ->
    assoc a acts = Some m ->
    forall params w e w', m params w = (Raise e, w') -> exists msg, e = TypeError msg.

(** The world after [k] requests to one endpoint, with sleeps in between. *)
Inductive after_requests (url : string) (headers params : dict)
  : nat -> World -> World -> Prop :=
| no_request (w : World) : after_requests url headers params 0 w w
| first_request (w w1 : World) (o : http_outcome) :
    requests_get url headers params w = (o, w1) ->
    after_requests url headers params 1 w w1
| next_request (k : nat) (w w1 w2 : World) (pause : Z) (o : http_outcome) :
    requests_get url headers params w = (o, w1) ->
    after_requests url headers params (S k) (sleep pause w1) w2 ->
    after_requests url headers params (S (S k)) w w2.

(** ** Derived notions used in the statements *)

(** The two membership tests of [_execute_step] taken together. *)
Definition in_registry (tool_name action_name : value) : bool :=
  match key_in tool_name action_map with
  | Ok true =>
      match key_in action_name (actions_of tool_name) with
      | Ok true => true
      | _ => false
      end
  | _ => false
  end.

Definition step_in_registry (step : dict) : bool :=
  in_registry (dict_get_or "tool" step VNone) (dict_get_or "action" step VNone).

(** The short result key of a step, ["<tool>_<action>"]. *)
Definition short_key (step : dict) : string :=
  (py_str (dict_get_or "tool" step VNone) ++ "_"
     ++ py_str (dict_get_or "action" step VNone))%string.

(** The short keys the registry can give rise to. *)
Definition registry_keys : list string :=
  flat_map (fun ta => map (fun am => (fst ta ++ "_" ++ fst am)%string) (snd ta)) action_map.

(** The key under which step [i] is stored when its dispatch returns. *)
Definition result_key_for (i : nat) (step : dict) (used : dict) : string :=
  if dict_mem (short_key step) used
  then (short_key step ++ "_" ++ str_nat i)%string
  else short_key step.

Definition error_key (i : nat) : string := ("error_step_" ++ str_nat i)%string.

(** What the [except] branch of the loop does to the report. *)
Definition record_error (i : nat) (e : exn) (step : dict) (r : Report) : Report :=
  incr_failed (set_result (error_key i) (error_record e step) r).

(** The whole loop body as a function of what [_execute_step] did. *)
Definition absorb (i : nat) (step : dict) (o : exc value) (r : Report) : Report :=
  match o with
  | Raise e => record_error i e step r
  | Ok v =>
      let r1 := incr_executed (set_result (result_key_for i step (results r)) v r) in
      match outcome_failed v with
      | Ok true => incr_failed r1
      | Ok false => r1
      | Raise e => record_error i e step r1
      end
  end.

(** The dispatch outcomes of the steps of a plan, in order. *)
Fixpoint dispatch_all (steps : list dict) (w : World) : list (exc value) * World :=
  match steps with
  | [] => ([], w)
  | step :: rest =>
      let '(o, w1) := _execute_step step w in
      let '(os, w2) := dispatch_all rest w1 in
      (o :: os, w2)
  end.

Fixpoint absorb_all (i : nat) (steps : list dict) (os : list (exc value)) (r : Report)
  : Report :=
  match steps, os with
  | step :: steps', o :: os' => absorb_all (S i) steps' os' (absorb i step o r)
  | _, _ => r
  end.

(** The steps of a plan are the dicts [steps]. *)
Definition plan_steps (plan : dict) (steps : list dict) : Prop :=
  py_iter (dict_get_or "steps" plan (VList [])) = Ok (map VDict steps).

(** Every registered action honours the tool contract. *)
Definition tools_honour_contract : Prop :=
  forall (t a : string) (acts : list (string * method)) (m : method),
    assoc t action_map = Some acts ->
    assoc a acts = Some m ->
    forall params w v w', m params w = (Ok v, w') -> outcome_shape v = true.

(** The number of synthetic [error_step_*] entries of a results mapping. *)
Definition count_error_entries (d : dict) : nat :=
  List.length (filter (fun kv => startswith "error_step_" (fst kv)) d).

(** The collision rule for the key of step [i], given the keys already used. *)
Definition keyed_by_rule (i : nat) (step : dict) (used : list string) (k : string) : Prop :=
  k = error_key i
  \/ (k = short_key step /\ ~ In (short_key step) used)
  \/ (k = (short_key step ++ "_" ++ str_nat i)%string /\ In (short_key step) used).

(** The entry of step [i], given its dispatch outcome and the keys already used. *)
Definition entry_of_step (i : nat) (step : dict) (o : exc value) (used : list string)
    (entry : string * value) : Prop :=
  keyed_by_rule i step used (fst entry)
  /\ match o with
     | Ok v => fst entry <> error_key i /\ snd entry = v
     | Raise e => entry = (error_key i, error_record e step)
     end.

(** The (tool, action) pairs of the registry. *)
Definition registry_pairs : list (string * string) :=
  flat_map (fun ta => map (fun am => (fst ta, fst am)) (snd ta)) action_map.

(** A dispatch outcome that can belong to the step: [_execute_step] returns
    a value only for a step of the registry. *)
Definition dispatched (step : dict) (o : exc value) : Prop :=
  forall v, o = Ok v -> step_in_registry step = true.

(** Moreover the returned value passes the failure test without raising. *)
Definition well_shaped (step : dict) (o : exc value) : Prop :=
  match o with
  | Ok v => step_in_registry step = true /\ exists b, outcome_failed v = Ok b
  | Raise _ => True
  end.

(** Two reports that differ by one failed step recorded under key [E]. *)
Definition agree_except (E : string) (r r2 : Report) : Prop :=
  steps_executed r = steps_executed r2
  /\ steps_failed r = steps_failed r2 + 1
  /\ forall k, k <> E -> dict_get k (results r) = dict_get k (results r2).

(** The keys a report can hold before step [i] runs: short keys (here those
    satisfying [P]), suffixed keys and error keys of earlier steps. *)
Definition keys_from (P : string -> Prop) (i : nat) (k : string) : Prop :=
  (In k registry_keys /\ P k)
  \/ (exists K n, In K registry_keys /\ (n < i)%nat /\ k = (K ++ "_" ++ str_nat n)%string)
  \/ (exists n, (n < i)%nat /\ k = error_key n).

Definition keys_ok (i : nat) (d : dict) : Prop :=
  NoDup (keys d) /\ forall k, In k (keys d) -> keys_from (fun _ => True) i k.

(** A key that no step from index [i] on will write. *)
Definition settled (i : nat) (d : dict) (k : string) : Prop :=
  (In k registry_keys /\ In k (keys d))
  \/ (exists K n, In K registry_keys /\ (n < i)%nat /\ k = (K ++ "_" ++ str_nat n)%string)
  \/ (exists n, (n < i)%nat /\ k = error_key n).

(** The entries of the steps from index [i] on, one per step and in order. *)
Inductive entries_of : nat -> list dict -> list (exc value) -> list string -> dict -> Prop :=
| entries_nil (i : nat) (used : list string) : entries_of i [] [] used []
| entries_cons (i : nat) (step : dict) (steps : list dict) (o : exc value)
    (os : list (exc value)) (used : list string) (entry : string * value) (rest : dict) :
    entry_of_step i step o used entry ->
    entries_of (S i) steps os (used ++ [fst entry])%list rest ->
    entries_of i (step :: steps) (o :: os) used (entry :: rest).

(** The LLM verification path fails: it raises, for whatever reason; in
    particular the completion call raises, or its text does not parse. *)
Definition llm_path_fails (r : Report) (original_request : string) (w : World) : Prop :=
  (exists e, fst (_llm_verification r original_request w) = Raise e)
  \/ (exists e,
        fst (generate (verification_prompt r original_request) VERIFIER_SYSTEM_PROMPT w)
        = Raise e)
  \/ (exists text msg,
        fst (generate (verification_prompt r original_request) VERIFIER_SYSTEM_PROMPT w)
        = Ok text
        /\ json_loads (clean_response text) = inr msg).

(** The corrected plan is unusable: the call raises, the text does not parse,
    or the parsed value fails [_validate_plan]. *)
Definition refinement_rejected (plan : value) (feedback : string) (w : World) : Prop :=
  let call := generate (refinement_prompt plan feedback) PLANNER_SYSTEM_PROMPT w in
  (exists e, fst call = Raise e)
  \/ (exists text msg, fst call = Ok text /\ json_loads (clean_response text) = inr msg)
  \/ (exists text v,
        fst call = Ok text /\ json_loads (clean_response text) = inl v
        /\ _validate_plan v = false).

(** The grouping of the deterministic formatter, said directly: what goes
    into [github_repos], and the candidates for [weather] in order. *)
Definition spec_github_repos (entries : dict) : list value :=
  flat_map (fun kv =>
              if contains "github" (fst kv) then
                match snd kv with
                | VList xs => xs
                | VDict _ => [snd kv]
                | _ => []
                end
              else []) entries.

Definition spec_weather_candidates (entries : dict) : list dict :=
  flat_map (fun kv =>
              if negb (contains "github" (fst kv)) && contains "weather" (fst kv) then
                match snd kv with
                | VDict d => [d]
                | _ => []
                end
              else []) entries.

Definition spec_results (entries : dict) : dict :=
  ((match spec_github_repos entries with
    | [] => []
    | repos => [("github_repos", VList repos)]
    end)
   ++
   (match last (spec_weather_candidates entries) [] with
    | [] => []
    | weather => [("weather", VDict weather)]
    end))%list.

(** The test [_basic_validation] makes on one result value. *)
Definition entry_flagged (val : value) : bool :=
  match val with
  | VDict d => truthy (dict_get_or "error" d VNone)
  | VList (VDict d0 :: _) => truthy (dict_get_or "error" d0 VNone)
  | _ => false
  end.

(** The counters are non-negative, and while no step has failed no stored
    value looks like a failure to the verifier. *)
Definition coherent (r : Report) : Prop :=
  0 <= steps_executed r /\ 0 <= steps_failed r
  /\ (steps_failed r = 0 -> Forall (fun kv => entry_flagged (snd kv) = false) (results r)).

(** The keys [_format_results] looks at: those that contain ["github"] or
    ["weather"]. *)
Definition category_key (key : string) : bool :=
  contains "github" key || contains "weather" key.

(** The number of dispatches that returned. *)
Definition count_returned (os : list (exc value)) : nat :=
  List.length (filter (fun o => match o with Ok _ => true | Raise _ => false end) os).

(** A string of whitespace characters only: [lstrip] leaves nothing. *)
Definition all_space (s : string) : bool := (lstrip s =? "")%string.

(** A verdict that is still [success] has recorded no error. *)
Definition clean (v : Verdict) : Prop :=
  status v = "success" -> errors v = [].

(** ** Properties *)

(** *** The JSON helper *)

Lemma generate_json_raise (prompt sp : string) (w : World) (e : exn) :
  fst (generate prompt sp w) = Raise e ->
  fst (generate_json prompt sp w) = Raise e.
Proof.
  unfold generate_json, bind.
  destruct (generate prompt sp w) as [[text | e'] w']; simpl; intros H.
  - discriminate H.
  - injection H as ->. reflexivity.
Qed.

Lemma generate_json_unparsable (prompt sp : string) (w : World) (text msg : string) :
  fst (generate prompt sp w) = Ok text ->
  json_loads (clean_response text) = inr msg ->
  fst (generate_json prompt sp w)
  = Raise (ValueError ("LLM did not return valid JSON: " ++ msg)).
Proof.
  unfold generate_json, bind.
  destruct (generate prompt sp w) as [[text' | e'] w']; simpl; intros H Hparse.
  - injection H as ->. rewrite Hparse. reflexivity.
  - discriminate H.
Qed.

Lemma generate_json_parsed (prompt sp : string) (w : World) (text : string) (v : value) :
  fst (generate prompt sp w) = Ok text ->
  json_loads (clean_response text) = inl v ->
  fst (generate_json prompt sp w) = Ok v.
Proof.
  unfold generate_json, bind.
  destruct (generate prompt sp w) as [[text' | e'] w']; simpl; intros H Hparse.
  - injection H as ->. rewrite Hparse. reflexivity.
  - discriminate H.
Qed.

(** *** The verifier *)

Lemma llm_verification_raise (r : Report) (req : string) (w : World) (e : exn) :
  fst (generate_json (verification_prompt r req) VERIFIER_SYSTEM_PROMPT w) = Raise e ->
  fst (_llm_verification r req w) = Raise e.
Proof.
  unfold _llm_verification, try_except, bind, raise.
  destruct (generate_json _ _ w) as [[v | e'] w']; simpl; intros H.
  - discriminate H.
  - exact H.
Qed.

Lemma llm_path_fails_raises (r : Report) (req : string) (w : World) :
  llm_path_fails r req w ->
  exists e, fst (_llm_verification r req w) = Raise e.
Proof.
  intros [H | [[e H] | (text & msg & H & Hparse)]].
  - exact H.
  - exists e. apply llm_verification_raise, generate_json_raise, H.
  - eexists. apply llm_verification_raise.
    eapply generate_json_unparsable; eassumption.
Qed.

Lemma verify_and_format_on_raise (r : Report) (req : string) (w : World) (e : exn) :
  fst (_llm_verification r req w) = Raise e ->
  fst (verify_and_format r req w) = Ok (_format_results r (_basic_validation r)).
Proof.
  intros H. unfold verify_and_format.
  destruct (status (_basic_validation r) =? "success")%string; [reflexivity |].
  unfold try_except.
  destruct (_llm_verification r req w) as [[v | e'] w']; simpl in *.
  - discriminate H.
  - reflexivity.
Qed.

Lemma verify_and_format_on_success (r : Report) (req : string) (w : World) :
  status (_basic_validation r) = "success" ->
  verify_and_format r req w = (Ok (_format_results r (_basic_validation r)), w).
Proof.
  intros H. unfold verify_and_format. rewrite H. reflexivity.
Qed.

Lemma verify_and_format_on_llm_verdict (r : Report) (req : string) (w : World) (v : value) :
  status (_basic_validation r) <> "success" ->
  fst (_llm_verification r req w) = Ok v ->
  fst (verify_and_format r req w) = Ok v.
Proof.
  intros Hs H. unfold verify_and_format.
  destruct (status (_basic_validation r) =? "success")%string eqn:E.
  - apply String.eqb_eq in E. contradiction.
  - unfold try_except.
    destruct (_llm_verification r req w) as [[v' | e'] w']; simpl in *.
    + exact H.
    + discriminate H.
Qed.

(** C2. If the LLM verification path raises (the completion call raises, its
    text is not parsable JSON, or anything else in [_llm_verification]
    raises), [verify_and_format] does not raise: it returns exactly what the
    deterministic formatter makes of the basic-validation verdict. *)
Theorem verify_and_format_fallback (r : Report) (req : string) (w : World) :
  llm_path_fails r req w ->
  fst (verify_and_format r req w) = Ok (_format_results r (_basic_validation r)).
Proof.
  intros H. apply llm_path_fails_raises in H as [e H].
  eapply verify_and_format_on_raise, H.
Qed.

Lemma check_entry_missing_fields (v : Verdict) (entry : string * value) :
  missing_fields (check_entry v entry) = missing_fields v.
Proof.
  destruct entry as [key val]. unfold check_entry.
  destruct val as [| | | | | [| [] ?] |]; try reflexivity;
    match goal with |- context [if ?c then _ else _] => destruct c end; reflexivity.
Qed.

Lemma fold_check_entry_missing_fields (l : dict) (v : Verdict) :
  missing_fields (fold_left check_entry l v) = missing_fields v.
Proof.
  revert v. induction l as [| entry l IH]; intros v; simpl.
  - reflexivity.
  - rewrite IH. apply check_entry_missing_fields.
Qed.

Lemma basic_validation_missing_fields (r : Report) :
  missing_fields (_basic_validation r) = [].
Proof.
  unfold _basic_validation. rewrite fold_check_entry_missing_fields.
  destruct (steps_executed r =? 0); destruct (steps_failed r >? 0); reflexivity.
Qed.

Lemma format_results_fields (r : Report) (v : Verdict) :
  exists formatted_results,
    _format_results r v
    = VDict [("status", VStr (status v));
             ("results", VDict formatted_results);
             ("missing_fields", VList (map VStr (missing_fields v)));
             ("errors", VList (map VStr (errors v)))].
Proof.
  unfold _format_results.
  destruct (fold_left group_entry (results r) ([], [])) as [github_repos weather_data].
  eexists. reflexivity.
Qed.

(** C10. Basic validation never populates [missing_fields], the deterministic
    formatter copies the verdict's [missing_fields] into its output, and so
    every result of [verify_and_format] that does not come from a successful
    LLM verification has an empty [missing_fields]. *)
Theorem deterministic_result_missing_fields_empty (r : Report) :
  missing_fields (_basic_validation r) = []
  /\ (forall v fr, _format_results r v = VDict fr ->
        dict_get "missing_fields" fr = Some (VList (map VStr (missing_fields v))))
  /\ (forall req w,
        status (_basic_validation r) = "success"
        \/ (exists e, fst (_llm_verification r req w) = Raise e) ->
        exists fr,
          fst (verify_and_format r req w) = Ok (VDict fr)
          /\ dict_get "missing_fields" fr = Some (VList [])).
Proof.
  split; [apply basic_validation_missing_fields |].
  split.
  - intros v fr H. destruct (format_results_fields r v) as [res Hres].
    rewrite Hres in H. injection H as <-. reflexivity.
  - intros req w H.
    destruct (format_results_fields r (_basic_validation r)) as [res Hres].
    rewrite basic_validation_missing_fields in Hres.
    eexists. split.
    + destruct H as [H | [e H]].
      * rewrite (verify_and_format_on_success _ _ _ H). simpl. rewrite Hres. reflexivity.
      * rewrite (verify_and_format_on_raise _ _ _ _ H), Hres. reflexivity.
    + reflexivity.
Qed.

Lemma flag_not_success (msg : string) (v : Verdict) :
  status (flag msg v) <> "success".
Proof.
  unfold flag; simpl.
  destruct (status v =? "success")%string eqn:E.
  - discriminate.
  - apply String.eqb_neq, E.
Qed.

Lemma check_entry_cases (v : Verdict) (entry : string * value) :
  check_entry v entry = v \/ exists msg, check_entry v entry = flag msg v.
Proof.
  destruct entry as [key val]. unfold check_entry.
  destruct val as [| | | | | [| [] ?] |]; try (left; reflexivity);
    match goal with |- context [if ?c then _ else _] => destruct c end;
    (left; reflexivity) || (right; eexists; reflexivity).
Qed.

Lemma check_entry_status (v : Verdict) (entry : string * value) :
  status v <> "success" -> status (check_entry v entry) <> "success".
Proof.
  intros H. destruct (check_entry_cases v entry) as [-> | [msg ->]].
  - exact H.
  - apply flag_not_success.
Qed.

Lemma check_entry_errors (v : Verdict) (entry : string * value) (m : string) :
  In m (errors v) -> In m (errors (check_entry v entry)).
Proof.
  intros H. destruct (check_entry_cases v entry) as [-> | [msg ->]].
  - exact H.
  - simpl. apply in_or_app. left. exact H.
Qed.

Lemma fold_check_entry_keeps (l : dict) (v : Verdict) (m : string) :
  status v <> "success" -> In m (errors v) ->
  status (fold_left check_entry l v) <> "success"
  /\ In m (errors (fold_left check_entry l v)).
Proof.
  revert v. induction l as [| entry l IH]; intros v Hs Hm; simpl.
  - split; assumption.
  - apply IH; [apply check_entry_status | apply check_entry_errors]; assumption.
Qed.

Lemma fold_check_entry_flags (l : dict) (v : Verdict) (key : string) (d : dict) :
  In (key, VDict d) l ->
  truthy (dict_get_or "error" d VNone) = true ->
  let msg := (key ++ ": " ++ py_str (dict_get_or "message" d (VStr "Unknown error")))%string in
  status (fold_left check_entry l v) <> "success"
  /\ In msg (errors (fold_left check_entry l v)).
Proof.
  intros Hin Htruthy msg. revert v.
  induction l as [| entry l IH]; intros v; simpl.
  - destruct Hin.
  - destruct Hin as [-> | Hin].
    + apply fold_check_entry_keeps.
      * simpl. rewrite Htruthy. apply flag_not_success.
      * simpl. rewrite Htruthy. simpl. apply in_or_app. right. left. reflexivity.
    + apply IH, Hin.
Qed.

(** C3, as the code has it.  A result entry that is a mapping whose [error]
    field is truthy is classified as a failure by basic validation whatever
    the type of the field (a non-empty string such as the forecast stub's
    included): the status is not [success], and the entry contributes the
    string ["<key>: <message or Unknown error>"] to [errors]. *)
Theorem truthy_error_entry_is_flagged (r : Report) (key : string) (d : dict) (e : value) :
  In (key, VDict d) (results r) ->
  dict_get "error" d = Some e ->
  truthy e = true ->
  status (_basic_validation r) <> "success"
  /\ In (key ++ ": " ++ py_str (dict_get_or "message" d (VStr "Unknown error")))%string
        (errors (_basic_validation r)).
Proof.
  intros Hin Hget Htruthy. unfold _basic_validation.
  apply fold_check_entry_flags; [exact Hin |].
  unfold dict_get_or. rewrite Hget. exact Htruthy.
Qed.

Lemma check_entry_clean (v : Verdict) (entry : string * value) :
  clean v -> clean (check_entry v entry).
Proof.
  intros H. destruct (check_entry_cases v entry) as [-> | [msg ->]].
  - exact H.
  - intros Hs. exfalso. exact (flag_not_success msg v Hs).
Qed.

Lemma fold_check_entry_clean (l : dict) (v : Verdict) :
  clean v -> clean (fold_left check_entry l v).
Proof.
  revert v. induction l as [| entry l IH]; intros v H; simpl.
  - exact H.
  - apply IH, check_entry_clean, H.
Qed.

Lemma basic_validation_clean (r : Report) : clean (_basic_validation r).
Proof.
  unfold _basic_validation. apply fold_check_entry_clean.
  destruct (steps_executed r =? 0); destruct (steps_failed r >? 0);
    intros H; simpl in *; try discriminate H; reflexivity.
Qed.

Lemma last_cons_default {A : Type} (l : list A) (a d : A) :
  last (a :: l) d = last l a.
Proof.
  revert a d. induction l as [| b l IH]; intros a d.
  - reflexivity.
  - transitivity (last l b).
    + change (last (a :: b :: l) d) with (last (b :: l) d). apply IH.
    + symmetry. apply IH.
Qed.

Lemma fold_group_entry (l : dict) (github_repos : list value) (weather_data : dict) :
  fold_left group_entry l (github_repos, weather_data)
  = ((github_repos ++ spec_github_repos l)%list,
     last (spec_weather_candidates l) weather_data).
Proof.
  revert github_repos weather_data.
  induction l as [| [key val] l IH]; intros github_repos weather_data.
  - simpl. rewrite app_nil_r. reflexivity.
  - change (fold_left group_entry ((key, val) :: l) (github_repos, weather_data))
      with (fold_left group_entry l (group_entry (github_repos, weather_data) (key, val))).
    unfold spec_github_repos, spec_weather_candidates. simpl flat_map.
    fold (spec_github_repos l). fold (spec_weather_candidates l).
    unfold group_entry.
    destruct (contains "github" key); simpl negb; simpl andb.
    + destruct val; rewrite IH; simpl; rewrite ?app_nil_r, <- ?app_assoc; reflexivity.
    + destruct (contains "weather" key).
      * destruct val; rewrite IH; simpl app; try reflexivity.
        rewrite last_cons_default. reflexivity.
      * rewrite IH. reflexivity.
Qed.

Lemma format_results_spec (r : Report) (v : Verdict) :
  _format_results r v
  = VDict [("status", VStr (status v));
           ("results", VDict (spec_results (results r)));
           ("missing_fields", VList (map VStr (missing_fields v)));
           ("errors", VList (map VStr (errors v)))].
Proof.
  unfold _format_results. rewrite fold_group_entry. simpl app.
  unfold spec_results.
  destruct (spec_github_repos (results r)) as [| repo repos];
    destruct (last (spec_weather_candidates (results r)) []) as [| kv weather];
    reflexivity.
Qed.

(** C8, as the code has it.  When basic validation yields [success],
    [verify_and_format] returns the deterministic format at once, whatever
    the LLM capability is and without touching the world (no LLM call).
    The entries whose key contains ["github"] are accumulated in order into
    [github_repos] (lists flattened in, dicts appended); among the entries
    whose key contains ["weather"] and not ["github"], the last dict-valued
    one becomes [weather]; either category is present only when non-empty. *)
Theorem verify_and_format_happy_path (r : Report) (req : string) (w : World) :
  status (_basic_validation r) = "success" ->
  verify_and_format r req w
  = (Ok (VDict [("status", VStr "success");
                ("results", VDict (spec_results (results r)));
                ("missing_fields", VList []);
                ("errors", VList [])]),
     w).
Proof.
  intros H. rewrite (verify_and_format_on_success _ _ _ H), format_results_spec.
  rewrite basic_validation_missing_fields, (basic_validation_clean r H), H.
  reflexivity.
Qed.

Lemma execute_plan_no_steps (plan : dict) (w : World) :
  py_iter (dict_get_or "steps" plan (VList [])) = Ok [] ->
  execute_plan plan w = (Ok empty_report, w).
Proof.
  intros H. unfold execute_plan. rewrite H. reflexivity.
Qed.

(** C4, as the code has it.  A plan with no steps executes to the empty
    report, on which basic validation says [failed].  That verdict is not
    [success], so [verify_and_format] escalates: it returns the verdict of
    the LLM verification when that succeeds, and the deterministic result
    with status [failed] when the LLM path fails. *)
Theorem empty_plan_report_and_verdict (plan : dict) (w : World) :
  py_iter (dict_get_or "steps" plan (VList [])) = Ok [] ->
  execute_plan plan w = (Ok (mkReport 0 0 []), w)
  /\ _basic_validation (mkReport 0 0 [])
     = mkVerdict "failed" [] ["No steps executed successfully"]
  /\ forall req w',
       (forall v, fst (_llm_verification (mkReport 0 0 []) req w') = Ok v ->
                  fst (verify_and_format (mkReport 0 0 []) req w') = Ok v)
       /\ (llm_path_fails (mkReport 0 0 []) req w' ->
           fst (verify_and_format (mkReport 0 0 []) req w')
           = Ok (VDict [("status", VStr "failed");
                        ("results", VDict []);
                        ("missing_fields", VList []);
                        ("errors", VList [VStr "No steps executed successfully"])])).
Proof.
  intros H. split; [apply execute_plan_no_steps, H |].
  split; [reflexivity |].
  intros req w'. split.
  - intros v Hv. apply verify_and_format_on_llm_verdict; [discriminate | exact Hv].
  - intros Hfail. destruct (llm_path_fails_raises _ _ _ Hfail) as [e He].
    rewrite (verify_and_format_on_raise _ _ _ _ He). reflexivity.
Qed.

(** *** The planner *)

Lemma refine_plan_cases (plan : value) (feedback : string) (w : World) :
  fst (refine_plan plan feedback w)
  = match fst (generate_json (refinement_prompt plan feedback) PLANNER_SYSTEM_PROMPT w) with
    | Ok refined => Ok (if _validate_plan refined then refined else plan)
    | Raise _ => Ok plan
    end.
Proof.
  unfold refine_plan, try_except, bind.
  destruct (generate_json _ _ w) as [[refined | e] w']; simpl.
  - destruct (_validate_plan refined); reflexivity.
  - reflexivity.
Qed.

(** C9. If the corrected plan is unusable (the LLM call raises, its text does
    not parse, or it parses to a value that fails structural validation),
    [refine_plan] does not raise and returns the original plan. *)
Theorem refine_plan_keeps_original (plan : value) (feedback : string) (w : World) :
  refinement_rejected plan feedback w ->
  fst (refine_plan plan feedback w) = Ok plan.
Proof.
  intros H. rewrite refine_plan_cases.
  destruct H as [[e H] | [(text & msg & H & Hp) | (text & v & H & Hp & Hv)]].
  - rewrite (generate_json_raise _ _ _ _ H). reflexivity.
  - rewrite (generate_json_unparsable _ _ _ _ _ H Hp). reflexivity.
  - rewrite (generate_json_parsed _ _ _ _ _ H Hp), Hv. reflexivity.
Qed.

(** *** Keys of the report *)

Lemma str_nat_inj (i j : nat) : str_nat i = str_nat j -> i = j.
Proof.
  unfold str_nat. intros H. apply Unsigned.to_uint_inj.
  assert (E : Some (Nat.to_uint i) = Some (Nat.to_uint j)).
  { rewrite <- (NilEmpty.usu (Nat.to_uint i)), <- (NilEmpty.usu (Nat.to_uint j)), H.
    reflexivity. }
  injection E as E. exact E.
Qed.

Lemma registry_keys_eq :
  registry_keys
  = ["github_search_repos"; "github_get_repo_info";
     "weather_get_weather"; "weather_get_forecast"].
Proof. reflexivity. Qed.

Ltac registry_cases H :=
  rewrite registry_keys_eq in H; simpl in H;
  destruct H as [<- | [<- | [<- | [<- | []]]]].

Lemma short_not_error (K d : string) :
  In K registry_keys -> K <> ("error_step_" ++ d)%string.
Proof. intros H. registry_cases H; simpl; discriminate. Qed.

Lemma suffixed_not_error (K d d' : string) :
  In K registry_keys -> (K ++ "_" ++ d)%string <> ("error_step_" ++ d')%string.
Proof. intros H. registry_cases H; simpl; discriminate. Qed.

Lemma suffixed_not_short (K K' d : string) :
  In K registry_keys -> In K' registry_keys -> (K ++ "_" ++ d)%string <> K'.
Proof. intros H H'. registry_cases H; registry_cases H'; simpl; discriminate. Qed.

Lemma suffixed_inj (K K' d d' : string) :
  In K registry_keys -> In K' registry_keys ->
  (K ++ "_" ++ d)%string = (K' ++ "_" ++ d')%string -> K = K' /\ d = d'.
Proof.
  intros H H'. registry_cases H; registry_cases H'; simpl; intros E;
    try discriminate E; injection E as E; (split; [reflexivity | exact E]).
Qed.

Lemma error_key_inj (i j : nat) : error_key i = error_key j -> i = j.
Proof.
  unfold error_key. intros H. apply str_nat_inj.
  generalize dependent (str_nat j). generalize (str_nat i).
  intros d d' H. simpl in H. injection H as H. exact H.
Qed.

Lemma error_key_prefix (i : nat) : startswith "error_step_" (error_key i) = true.
Proof.
  unfold error_key. generalize (str_nat i). intros d.
  unfold startswith. simpl. destruct d; reflexivity.
Qed.

Lemma short_key_prefix (K : string) :
  In K registry_keys -> startswith "error_step_" K = false.
Proof. intros H. registry_cases H; reflexivity. Qed.

Lemma suffixed_key_prefix (K d : string) :
  In K registry_keys -> startswith "error_step_" (K ++ "_" ++ d) = false.
Proof. intros H. registry_cases H; reflexivity. Qed.

(** *** Dictionaries *)

Lemma dict_get_set (k k' : string) (v : value) (d : dict) :
  dict_get k' (dict_set k v d) = if (k =? k')%string then Some v else dict_get k' d.
Proof.
  induction d as [| [k0 v0] d IH]; simpl.
  - destruct (k =? k')%string; reflexivity.
  - destruct (k0 =? k)%string eqn:E; simpl.
    + apply String.eqb_eq in E. subst k0.
      destruct (k =? k')%string; reflexivity.
    + rewrite IH.
      destruct (k0 =? k')%string eqn:E2; destruct (k =? k')%string eqn:E3; try reflexivity.
      apply String.eqb_eq in E2, E3. subst. rewrite String.eqb_refl in E. discriminate E.
Qed.

Lemma dict_get_set_same (k : string) (v : value) (d : dict) :
  dict_get k (dict_set k v d) = Some v.
Proof. rewrite dict_get_set, String.eqb_refl. reflexivity. Qed.

Lemma dict_get_set_other (k k' : string) (v : value) (d : dict) :
  k' <> k -> dict_get k' (dict_set k v d) = dict_get k' d.
Proof.
  intros H. rewrite dict_get_set.
  destruct (k =? k')%string eqn:E; [| reflexivity].
  apply String.eqb_eq in E. congruence.
Qed.

Lemma dict_get_none (k : string) (d : dict) :
  dict_get k d = None <-> ~ In k (keys d).
Proof.
  induction d as [| [k0 v0] d IH]; simpl.
  - split; [intros _ [] | reflexivity].
  - destruct (k0 =? k)%string eqn:E.
    + apply String.eqb_eq in E. split; [discriminate | intros H; exfalso; apply H; left; exact E].
    + apply String.eqb_neq in E. rewrite IH. split.
      * intros H [H' | H']; [exact (E H') | exact (H H')].
      * intros H H'. apply H. right. exact H'.
Qed.

Lemma dict_mem_true (k : string) (d : dict) :
  dict_mem k d = true <-> In k (keys d).
Proof.
  unfold dict_mem. destruct (dict_get k d) eqn:E.
  - split; [intros _ | reflexivity].
    destruct (in_dec string_dec k (keys d)) as [H | H]; [exact H |].
    apply dict_get_none in H. congruence.
  - split; [discriminate |]. intros H. apply dict_get_none in E. contradiction.
Qed.

Lemma dict_mem_false (k : string) (d : dict) :
  dict_mem k d = false <-> ~ In k (keys d).
Proof.
  rewrite <- dict_mem_true. destruct (dict_mem k d); split; congruence.
Qed.

Lemma dict_set_new (k : string) (v : value) (d : dict) :
  ~ In k (keys d) -> dict_set k v d = (d ++ [(k, v)])%list.
Proof.
  induction d as [| [k0 v0] d IH]; simpl; intros H.
  - reflexivity.
  - destruct (k0 =? k)%string eqn:E.
    + apply String.eqb_eq in E. exfalso. apply H. left. exact E.
    + rewrite IH; [reflexivity |]. intros H'. apply H. right. exact H'.
Qed.

(** *** Dispatch of one step *)

Lemma execute_step_unfold (step : dict) (w : World) :
  _execute_step step w
  = let tool_name := dict_get_or "tool" step VNone in
    let action_name := dict_get_or "action" step VNone in
    if step_in_registry step then
      try_except (method_of tool_name action_name (dict_get_or "params" step (VDict [])))
        (fun e =>
           match e with
           | TypeError msg =>
               ret (VDict [("error", VBool true);
                           ("message", VStr ("Invalid parameters: " ++ msg))])
           | _ => raise e
           end) w
    else
      match key_in tool_name action_map with
      | Raise e => (Raise e, w)
      | Ok false => (Raise (ValueError ("Unknown tool: " ++ py_str tool_name)), w)
      | Ok true =>
          match key_in action_name (actions_of tool_name) with
          | Raise e => (Raise e, w)
          | _ => (Raise (ValueError ("Unknown action '" ++ py_str action_name
                                       ++ "' for tool '" ++ py_str tool_name ++ "'")), w)
          end
      end.
Proof.
  unfold _execute_step, step_in_registry, in_registry, bind, lift_exc.
  cbv zeta.
  destruct (key_in (dict_get_or "tool" step VNone) action_map) as [[|] | e]; try reflexivity.
  destruct (key_in (dict_get_or "action" step VNone)
              (actions_of (dict_get_or "tool" step VNone))) as [[|] | e]; reflexivity.
Qed.

Lemma execute_step_unknown (step : dict) :
  step_in_registry step = false ->
  exists e, forall w, _execute_step step w = (Raise e, w).
Proof.
  intros H.
  destruct (key_in (dict_get_or "tool" step VNone) action_map) as [[|] | e] eqn:E1.
  - destruct (key_in (dict_get_or "action" step VNone)
                (actions_of (dict_get_or "tool" step VNone))) as [b | e] eqn:E2.
    + eexists. intros w. rewrite execute_step_unfold. cbv zeta. rewrite H, E1, E2.
      reflexivity.
    + exists e. intros w. rewrite execute_step_unfold. cbv zeta. rewrite H, E1, E2.
      reflexivity.
  - eexists. intros w. rewrite execute_step_unfold. cbv zeta. rewrite H, E1. reflexivity.
  - exists e. intros w. rewrite execute_step_unfold. cbv zeta. rewrite H, E1. reflexivity.
Qed.

Lemma execute_step_ok (step : dict) (w w' : World) (v : value) :
  _execute_step step w = (Ok v, w') -> step_in_registry step = true.
Proof.
  intros H. destruct (step_in_registry step) eqn:E; [reflexivity |].
  destruct (execute_step_unknown step E) as [e He]. rewrite He in H. discriminate H.
Qed.

Lemma in_registry_strings (tool_name action_name : value) :
  in_registry tool_name action_name = true ->
  exists t a acts m,
    tool_name = VStr t /\ action_name = VStr a
    /\ assoc t action_map = Some acts /\ assoc a acts = Some m
    /\ In (t ++ "_" ++ a)%string registry_keys
    /\ In (t, a) registry_pairs.
Proof.
  unfold in_registry.
  destruct tool_name as [| | | | t | |]; cbn -[String.eqb]; try discriminate.
  destruct (String.eqb_spec "github" t) as [<- | _]; cbn -[String.eqb].
  - destruct action_name as [| | | | a | |]; cbn -[String.eqb]; try discriminate.
    destruct (String.eqb_spec "search_repos" a) as [<- | _]; cbn -[String.eqb].
    + intros _. do 4 eexists. repeat split; simpl; auto.
    + destruct (String.eqb_spec "get_repo_info" a) as [<- | _]; cbn -[String.eqb];
        [| discriminate].
      intros _. do 4 eexists. repeat split; simpl; auto.
  - destruct (String.eqb_spec "weather" t) as [<- | _]; cbn -[String.eqb];
      [| discriminate].
    destruct action_name as [| | | | a | |]; cbn -[String.eqb]; try discriminate.
    destruct (String.eqb_spec "get_weather" a) as [<- | _]; cbn -[String.eqb].
    + intros _. do 4 eexists. repeat split; simpl; auto.
    + destruct (String.eqb_spec "get_forecast" a) as [<- | _]; cbn -[String.eqb];
        [| discriminate].
      intros _. do 4 eexists. repeat split; simpl; auto 6.
Qed.

Lemma registry_pairs_inj (t a t' a' : string) :
  In (t, a) registry_pairs -> In (t', a') registry_pairs ->
  (t ++ "_" ++ a)%string = (t' ++ "_" ++ a')%string -> t = t' /\ a = a'.
Proof.
  intros H H'. simpl in H, H'.
  destruct H as [H | [H | [H | [H | []]]]]; injection H as <- <-;
    destruct H' as [H' | [H' | [H' | [H' | []]]]]; injection H' as <- <-;
    simpl; intros E; try discriminate E; split; reflexivity.
Qed.

Lemma step_in_registry_facts (step : dict) :
  step_in_registry step = true ->
  exists t a,
    dict_get "tool" step = Some (VStr t) /\ dict_get "action" step = Some (VStr a)
    /\ short_key step = (t ++ "_" ++ a)%string
    /\ In (short_key step) registry_keys.
Proof.
  unfold step_in_registry, short_key. intros H.
  apply in_registry_strings in H as (t & a & acts & m & Ht & Ha & _ & _ & Hin & _).
  rewrite Ht, Ha. exists t, a.
  unfold dict_get_or in Ht, Ha.
  destruct (dict_get "tool" step); [subst | discriminate].
  destruct (dict_get "action" step); [subst | discriminate].
  repeat split; auto.
Qed.

(** *** The loop of [execute_plan] *)

Lemma step_body_absorb (i : nat) (step : dict) (r : Report) (w : World) :
  step_body i step (r, w)
  = (Ok tt, (absorb i step (fst (_execute_step step w)) r, snd (_execute_step step w))).
Proof.
  unfold step_body, try_except, bind, on_world. cbn [fst snd].
  destruct (_execute_step step w) as [[v | e] w'] eqn:E; cbn [fst snd].
  - destruct (step_in_registry_facts step (execute_step_ok _ _ _ _ E))
      as (t & a & Ht & Ha & _ & _).
    unfold dict_getitem, lift_exc, gets, update_report, modify, absorb,
      result_key_for, short_key, dict_get_or, record_error.
    rewrite Ht, Ha. cbn [fst snd py_str results].
    destruct (outcome_failed v) as [[|] | e']; reflexivity.
  - reflexivity.
Qed.

Lemma run_steps_absorb_all (steps : list dict) (i : nat) (r : Report) (w : World) :
  run_steps i (map VDict steps) (r, w)
  = (Ok tt, (absorb_all i steps (fst (dispatch_all steps w)) r,
             snd (dispatch_all steps w))).
Proof.
  revert i r w. induction steps as [| step steps IH]; intros i r w.
  - reflexivity.
  - cbn [map run_steps dispatch_all]. unfold bind. rewrite step_body_absorb.
    rewrite IH.
    destruct (_execute_step step w) as [o w1]. cbn [fst snd].
    destruct (dispatch_all steps w1) as [os w2]. reflexivity.
Qed.

Lemma execute_plan_absorb_all (plan : dict) (steps : list dict) (w : World) :
  plan_steps plan steps ->
  execute_plan plan w
  = (Ok (absorb_all 0 steps (fst (dispatch_all steps w)) empty_report),
     snd (dispatch_all steps w)).
Proof.
  unfold plan_steps, execute_plan. intros ->.
  rewrite run_steps_absorb_all. reflexivity.
Qed.

Lemma dispatch_all_length (steps : list dict) (w : World) :
  List.length (fst (dispatch_all steps w)) = List.length steps.
Proof.
  revert w. induction steps as [| step steps IH]; intros w; cbn [dispatch_all].
  - reflexivity.
  - destruct (_execute_step step w) as [o w1]. specialize (IH w1).
    destruct (dispatch_all steps w1) as [os w2]. simpl in *. rewrite IH. reflexivity.
Qed.

Lemma dispatch_all_app (l1 l2 : list dict) (w : World) :
  dispatch_all (l1 ++ l2) w
  = ((fst (dispatch_all l1 w) ++ fst (dispatch_all l2 (snd (dispatch_all l1 w))))%list,
     snd (dispatch_all l2 (snd (dispatch_all l1 w)))).
Proof.
  revert w. induction l1 as [| step l1 IH]; intros w.
  - cbn [app dispatch_all fst snd]. destruct (dispatch_all l2 w). reflexivity.
  - cbn [app dispatch_all]. destruct (_execute_step step w) as [o w1].
    rewrite IH. destruct (dispatch_all l1 w1) as [os w2]. reflexivity.
Qed.

Lemma absorb_all_app (l1 l2 : list dict) (os1 os2 : list (exc value)) (i : nat) (r : Report) :
  List.length os1 = List.length l1 ->
  absorb_all i (l1 ++ l2) (os1 ++ os2) r
  = absorb_all (i + List.length l1) l2 os2 (absorb_all i l1 os1 r).
Proof.
  revert os1 i r. induction l1 as [| step l1 IH]; intros [| o os1] i r H;
    try discriminate H.
  - cbn [app absorb_all List.length]. rewrite Nat.add_0_r. reflexivity.
  - cbn [app absorb_all List.length]. rewrite IH by (cbn [List.length] in H; lia).
    rewrite Nat.add_succ_comm. reflexivity.
Qed.

Lemma dispatch_all_dispatched (steps : list dict) (w : World) :
  Forall2 dispatched steps (fst (dispatch_all steps w)).
Proof.
  revert w. induction steps as [| step steps IH]; intros w; cbn [dispatch_all].
  - constructor.
  - destruct (_execute_step step w) as [o w1] eqn:E. specialize (IH w1).
    destruct (dispatch_all steps w1) as [os w2]. cbn [fst] in *.
    constructor; [| exact IH].
    intros v ->. eapply execute_step_ok, E.
Qed.

(** C6. When the bound action, called with the step's [params] as named
    arguments, raises a [TypeError], [_execute_step] does not propagate it
    but returns the outcome [{error: True, message}]; the loop body of
    [execute_plan] then stores that outcome under the step's result key and
    increments both [steps_executed] and [steps_failed], and the loop goes on
    with the next step. *)
Theorem parameter_error_is_an_outcome (step : dict) (w w' : World) (msg : string) :
  step_in_registry step = true ->
  method_of (dict_get_or "tool" step VNone) (dict_get_or "action" step VNone)
            (dict_get_or "params" step (VDict [])) w
  = (Raise (TypeError msg), w') ->
  let outcome :=
    VDict [("error", VBool true); ("message", VStr ("Invalid parameters: " ++ msg))] in
  _execute_step step w = (Ok outcome, w')
  /\ forall (i : nat) (r : Report),
       let r' := mkReport (steps_executed r + 1) (steps_failed r + 1)
                          (dict_set (result_key_for i step (results r)) outcome (results r)) in
       step_body i step (r, w) = (Ok tt, (r', w'))
       /\ forall rest,
            run_steps i (VDict step :: rest) (r, w) = run_steps (S i) rest (r', w').
Proof.
  intros Hreg Hcall outcome.
  assert (E : _execute_step step w = (Ok outcome, w')).
  { rewrite execute_step_unfold. cbv zeta. rewrite Hreg.
    unfold try_except. rewrite Hcall. reflexivity. }
  split; [exact E |].
  intros i r r'.
  assert (B : step_body i step (r, w) = (Ok tt, (r', w'))).
  { rewrite step_body_absorb, E. reflexivity. }
  split; [exact B |].
  intros rest. cbn [run_steps]. unfold bind. rewrite B. reflexivity.
Qed.

(** *** Isolation of a failed step *)

Lemma agree_set_result (E k : string) (v : value) (r r2 : Report) :
  agree_except E r r2 -> agree_except E (set_result k v r) (set_result k v r2).
Proof.
  intros (He & Hf & Hg). repeat split; simpl; try assumption.
  intros k' Hk'. rewrite !dict_get_set, (Hg k' Hk'). reflexivity.
Qed.

Lemma agree_incr_executed (E : string) (r r2 : Report) :
  agree_except E r r2 -> agree_except E (incr_executed r) (incr_executed r2).
Proof.
  intros (He & Hf & Hg). repeat split; simpl; try assumption. lia.
Qed.

Lemma agree_incr_failed (E : string) (r r2 : Report) :
  agree_except E r r2 -> agree_except E (incr_failed r) (incr_failed r2).
Proof.
  intros (He & Hf & Hg). repeat split; simpl; try assumption. lia.
Qed.

Lemma agree_record_error (E : string) (i : nat) (e : exn) (step : dict) (r r2 : Report) :
  agree_except E r r2 ->
  agree_except E (record_error i e step r) (record_error i e step r2).
Proof.
  intros H. unfold record_error. apply agree_incr_failed, agree_set_result, H.
Qed.

Lemma absorb_agree (n i : nat) (step : dict) (o : exc value) (r r2 : Report) :
  dispatched step o ->
  agree_except (error_key n) r r2 ->
  agree_except (error_key n) (absorb i step o r) (absorb i step o r2).
Proof.
  intros Hd H. destruct o as [v | e]; cbn [absorb].
  - destruct (step_in_registry_facts step (Hd v eq_refl)) as (t & a & _ & _ & _ & Hin).
    assert (Hkey : result_key_for i step (results r) = result_key_for i step (results r2)).
    { unfold result_key_for, dict_mem. destruct H as (_ & _ & Hg).
      rewrite (Hg (short_key step)); [reflexivity |].
      apply short_not_error, Hin. }
    rewrite Hkey.
    destruct (outcome_failed v) as [[|] | e'].
    + apply agree_incr_failed, agree_incr_executed, agree_set_result, H.
    + apply agree_incr_executed, agree_set_result, H.
    + apply agree_record_error, agree_incr_executed, agree_set_result, H.
  - apply agree_record_error, H.
Qed.

Lemma absorb_all_agree (n : nat) (steps : list dict) (os : list (exc value))
    (i : nat) (r r2 : Report) :
  Forall2 dispatched steps os ->
  agree_except (error_key n) r r2 ->
  agree_except (error_key n) (absorb_all i steps os r) (absorb_all i steps os r2).
Proof.
  intros Hd. revert i r r2.
  induction Hd as [| step o steps os Hstep Hd IH]; intros i r r2 H; cbn [absorb_all].
  - exact H.
  - apply IH, absorb_agree; assumption.
Qed.

(** *** Keys that stay as they are *)

Lemma absorb_get_other (i : nat) (step : dict) (o : exc value) (r : Report) (k : string) :
  k <> error_key i ->
  (forall v, o = Ok v -> k <> result_key_for i step (results r)) ->
  dict_get k (results (absorb i step o r)) = dict_get k (results r).
Proof.
  intros He Hr. destruct o as [v | e]; cbn [absorb].
  - specialize (Hr v eq_refl).
    destruct (outcome_failed v) as [[|] | e']; simpl;
      rewrite ?(dict_get_set_other _ _ _ _ He); apply dict_get_set_other, Hr.
  - simpl. apply dict_get_set_other, He.
Qed.

Lemma absorb_get_result (i : nat) (step : dict) (v : value) (r : Report) :
  step_in_registry step = true ->
  dict_get (result_key_for i step (results r)) (results (absorb i step (Ok v) r)) = Some v.
Proof.
  intros Hreg. destruct (step_in_registry_facts step Hreg) as (t & a & _ & _ & _ & Hin).
  assert (Hne : result_key_for i step (results r) <> error_key i).
  { unfold result_key_for, error_key.
    destruct (dict_mem (short_key step) (results r)).
    - apply suffixed_not_error, Hin.
    - apply short_not_error, Hin. }
  cbn [absorb].
  destruct (outcome_failed v) as [[|] | e']; simpl;
    rewrite ?(dict_get_set_other _ _ _ _ Hne); apply dict_get_set_same.
Qed.

Lemma in_keys_get (k : string) (d : dict) :
  In k (keys d) <-> dict_get k d <> None.
Proof.
  split.
  - intros H E. apply dict_get_none in E. contradiction.
  - intros H. destruct (in_dec string_dec k (keys d)) as [Hin | Hin]; [exact Hin |].
    apply dict_get_none in Hin. contradiction.
Qed.

Lemma settled_not_written (i : nat) (step : dict) (d : dict) (k : string) :
  step_in_registry step = true ->
  settled i d k ->
  k <> error_key i /\ k <> result_key_for i step d.
Proof.
  intros Hreg Hs.
  destruct (step_in_registry_facts step Hreg) as (t & a & _ & _ & _ & Hin).
  unfold result_key_for.
  destruct Hs as [[Hk Hd] | [(K & n & HK & Hn & ->) | (n & Hn & ->)]].
  - split; [apply short_not_error, Hk |].
    destruct (dict_mem (short_key step) d) eqn:E.
    + intros ->. exact (suffixed_not_short _ _ _ Hin Hk eq_refl).
    + apply dict_mem_false in E. intros ->. contradiction.
  - split; [apply suffixed_not_error, HK |].
    destruct (dict_mem (short_key step) d).
    + intros E. apply suffixed_inj in E as [_ E]; try assumption.
      apply str_nat_inj in E. lia.
    + apply suffixed_not_short; assumption.
  - split.
    + intros E. apply error_key_inj in E. lia.
    + destruct (dict_mem (short_key step) d).
      * apply not_eq_sym, suffixed_not_error, Hin.
      * apply not_eq_sym, short_not_error, Hin.
Qed.

Lemma absorb_settled (i : nat) (step : dict) (o : exc value) (r : Report) (k : string) :
  dispatched step o ->
  settled i (results r) k ->
  dict_get k (results (absorb i step o r)) = dict_get k (results r)
  /\ settled (S i) (results (absorb i step o r)) k.
Proof.
  intros Hd Hs.
  assert (Hget : dict_get k (results (absorb i step o r)) = dict_get k (results r)).
  { apply absorb_get_other.
    - destruct Hs as [[Hk _] | [(K & n & HK & Hn & ->) | (n & Hn & ->)]].
      + apply short_not_error, Hk.
      + apply suffixed_not_error, HK.
      + intros E. apply error_key_inj in E. lia.
    - intros v ->. apply (settled_not_written i step (results r) k (Hd v eq_refl) Hs). }
  split; [exact Hget |].
  destruct Hs as [[Hk Hin] | [(K & n & HK & Hn & ->) | (n & Hn & ->)]].
  - left. split; [exact Hk |]. apply in_keys_get. rewrite Hget. apply in_keys_get, Hin.
  - right. left. exists K, n. repeat split; [exact HK | lia].
  - right. right. exists n. split; [lia | reflexivity].
Qed.

Lemma absorb_all_settled (steps : list dict) (os : list (exc value))
    (i : nat) (r : Report) (k : string) :
  Forall2 dispatched steps os ->
  settled i (results r) k ->
  dict_get k (results (absorb_all i steps os r)) = dict_get k (results r)
  /\ settled (i + List.length steps) (results (absorb_all i steps os r)) k.
Proof.
  intros Hd. revert i r.
  induction Hd as [| step o steps os Hstep Hd IH]; intros i r Hs;
    cbn [absorb_all List.length].
  - rewrite Nat.add_0_r. split; [reflexivity | exact Hs].
  - destruct (absorb_settled i step o r k Hstep Hs) as [Hget Hs'].
    destruct (IH (S i) _ Hs') as [Hget' Hs''].
    rewrite Nat.add_succ_r. split; [congruence | exact Hs''].
Qed.

Lemma dispatch_all_cons (step : dict) (steps : list dict) (w : World) :
  dispatch_all (step :: steps) w
  = (fst (_execute_step step w) :: fst (dispatch_all steps (snd (_execute_step step w))),
     snd (dispatch_all steps (snd (_execute_step step w)))).
Proof.
  cbn [dispatch_all]. destruct (_execute_step step w) as [o w1]. cbn [fst snd].
  destruct (dispatch_all steps w1) as [os w2]. reflexivity.
Qed.

Lemma agree_after_record_error (i : nat) (e : exn) (step : dict) (r : Report) :
  agree_except (error_key i) (record_error i e step r) r.
Proof.
  repeat split; simpl.
  intros k Hk. apply dict_get_set_other, Hk.
Qed.

(** C5. A step whose tool or action is not in the registry makes
    [_execute_step] raise, and [execute_plan] does not raise: the loop body
    leaves [steps_executed] alone, adds one to [steps_failed] and stores the
    record [{error: True, message, step}] under [error_step_<i>].  In the
    final report that record is still there, and everything else (the two
    counters up to that one failure, and every other key of [results], as
    well as the world) is what running the sibling steps alone, at their own
    indices, produces. *)
Theorem unknown_step_is_isolated (plan : dict) (pre post : list dict) (bad : dict)
    (w : World) :
  plan_steps plan (pre ++ bad :: post) ->
  step_in_registry bad = false ->
  let i := List.length pre in
  exists (e : exn) (r r_sib : Report) (w' : World),
    (forall w0, _execute_step bad w0 = (Raise e, w0))
    /\ (forall r0 w0,
          step_body i bad (r0, w0)
          = (Ok tt, (mkReport (steps_executed r0) (steps_failed r0 + 1)
                              (dict_set (error_key i) (error_record e bad) (results r0)),
                     w0)))
    /\ execute_plan plan w = (Ok r, w')
    /\ bind (run_steps 0 (map VDict pre)) (fun _ => run_steps (S i) (map VDict post))
            (empty_report, w)
       = (Ok tt, (r_sib, w'))
    /\ dict_get (error_key i) (results r)
       = Some (VDict [("error", VBool true); ("message", VStr (str_exn e));
                      ("step", VDict bad)])
    /\ steps_failed r = steps_failed r_sib + 1
    /\ steps_executed r = steps_executed r_sib
    /\ forall k, k <> error_key i -> dict_get k (results r) = dict_get k (results r_sib).
Proof.
  intros Hplan Hbad i.
  destruct (execute_step_unknown bad Hbad) as [e He].
  pose (w1 := snd (dispatch_all pre w)).
  pose (r1 := absorb_all 0 pre (fst (dispatch_all pre w)) empty_report).
  pose (os := fst (dispatch_all post w1)).
  exists e, (absorb_all (S i) post os (record_error i e bad r1)),
    (absorb_all (S i) post os r1), (snd (dispatch_all post w1)).
  assert (Hd : Forall2 dispatched post os) by apply dispatch_all_dispatched.
  split; [exact He |].
  split.
  { intros r0 w0. rewrite step_body_absorb, He. reflexivity. }
  split.
  { rewrite (execute_plan_absorb_all plan _ w Hplan).
    rewrite dispatch_all_app, dispatch_all_cons, He. cbn [fst snd].
    rewrite absorb_all_app by apply dispatch_all_length.
    reflexivity. }
  split.
  { unfold bind. rewrite run_steps_absorb_all, run_steps_absorb_all. reflexivity. }
  split.
  { destruct (absorb_all_settled post os (S i) (record_error i e bad r1) (error_key i) Hd)
      as [Hget _].
    - right. right. exists i. split; [lia | reflexivity].
    - rewrite Hget. apply dict_get_set_same. }
  destruct (absorb_all_agree i post os (S i) (record_error i e bad r1) r1 Hd
              (agree_after_record_error i e bad r1)) as (Hexec & Hfail & Hget).
  repeat split; assumption.
Qed.

(** *** Which keys a report holds *)

Lemma absorb_keys (i : nat) (step : dict) (o : exc value) (r : Report) (k : string) :
  In k (keys (results (absorb i step o r))) ->
  In k (keys (results r))
  \/ k = error_key i
  \/ (exists v, o = Ok v /\ k = result_key_for i step (results r)).
Proof.
  intros H.
  destruct (string_dec k (error_key i)) as [He | He]; [right; left; exact He |].
  destruct o as [v | e].
  - destruct (string_dec k (result_key_for i step (results r))) as [Hr | Hr].
    + right. right. exists v. split; [reflexivity | exact Hr].
    + left. apply in_keys_get. apply in_keys_get in H.
      rewrite absorb_get_other in H; [exact H | exact He |].
      intros v' _. exact Hr.
  - left. apply in_keys_get. apply in_keys_get in H.
    rewrite absorb_get_other in H; [exact H | exact He |].
    intros v' E. discriminate E.
Qed.

Lemma keys_from_S (P : string -> Prop) (i : nat) (k : string) :
  keys_from P i k -> keys_from P (S i) k.
Proof.
  intros [H | [(K & n & HK & Hn & ->) | (n & Hn & ->)]].
  - left. exact H.
  - right. left. exists K, n. repeat split; [exact HK | lia].
  - right. right. exists n. split; [lia | reflexivity].
Qed.

Lemma absorb_keys_from (P : string -> Prop) (i : nat) (step : dict) (o : exc value)
    (r : Report) :
  dispatched step o ->
  (step_in_registry step = true -> P (short_key step)) ->
  (forall k, In k (keys (results r)) -> keys_from P i k) ->
  forall k, In k (keys (results (absorb i step o r))) -> keys_from P (S i) k.
Proof.
  intros Hd HP Hr k Hk.
  apply absorb_keys in Hk as [Hk | [-> | (v & -> & ->)]].
  - apply keys_from_S, Hr, Hk.
  - right. right. exists i. split; [lia | reflexivity].
  - specialize (Hd v eq_refl).
    destruct (step_in_registry_facts step Hd) as (t & a & _ & _ & _ & Hin).
    unfold result_key_for. destruct (dict_mem (short_key step) (results r)).
    + right. left. exists (short_key step), i. repeat split; [exact Hin | lia].
    + left. split; [exact Hin | exact (HP Hd)].
Qed.

Lemma absorb_all_keys_from (P : string -> Prop) (steps : list dict) (os : list (exc value))
    (i : nat) (r : Report) :
  Forall2 dispatched steps os ->
  Forall (fun step => step_in_registry step = true -> P (short_key step)) steps ->
  (forall k, In k (keys (results r)) -> keys_from P i k) ->
  forall k, In k (keys (results (absorb_all i steps os r))) ->
            keys_from P (i + List.length steps) k.
Proof.
  intros Hd. revert i r.
  induction Hd as [| step o steps os Hstep Hd IH]; intros i r HP Hr k Hk;
    cbn [absorb_all List.length] in *.
  - rewrite Nat.add_0_r. apply Hr, Hk.
  - rewrite Nat.add_succ_r. inversion HP as [| ? ? HPstep HPsteps]; subst.
    apply (IH (S i) (absorb i step o r) HPsteps); [| exact Hk].
    apply absorb_keys_from; assumption.
Qed.

Lemma short_key_of (step : dict) (t a : string) :
  dict_get_or "tool" step VNone = VStr t ->
  dict_get_or "action" step VNone = VStr a ->
  short_key step = (t ++ "_" ++ a)%string.
Proof. unfold short_key. intros -> ->. reflexivity. Qed.

Lemma step_in_registry_pair (step : dict) :
  step_in_registry step = true ->
  exists t a,
    dict_get_or "tool" step VNone = VStr t /\ dict_get_or "action" step VNone = VStr a
    /\ In (t, a) registry_pairs /\ In (short_key step) registry_keys.
Proof.
  unfold step_in_registry. intros H.
  apply in_registry_strings in H as (t & a & acts & m & Ht & Ha & _ & _ & Hin & Hp).
  exists t, a. rewrite (short_key_of step t a Ht Ha). auto.
Qed.

Lemma nth_error_middle {A : Type} (l1 l2 : list A) (x : A) (n : nat) :
  List.length l1 = n -> nth_error (l1 ++ x :: l2)%list n = Some x.
Proof.
  intros <-. rewrite nth_error_app2 by lia. rewrite Nat.sub_diag. reflexivity.
Qed.

Lemma first_and_second_occurrence (pre mid post : list dict) (s1 s2 : dict)
    (t a : string) (os : list (exc value)) (v1 v2 : value) :
  Forall2 dispatched (pre ++ s1 :: mid ++ s2 :: post) os ->
  dict_get_or "tool" s1 VNone = VStr t -> dict_get_or "action" s1 VNone = VStr a ->
  dict_get_or "tool" s2 VNone = VStr t -> dict_get_or "action" s2 VNone = VStr a ->
  Forall (fun step => ~ (dict_get_or "tool" step VNone = VStr t
                         /\ dict_get_or "action" step VNone = VStr a)) pre ->
  nth_error os (List.length pre) = Some (Ok v1) ->
  nth_error os (List.length pre + 1 + List.length mid) = Some (Ok v2) ->
  let r := absorb_all 0 (pre ++ s1 :: mid ++ s2 :: post) os empty_report in
  dict_get (t ++ "_" ++ a)%string (results r) = Some v1
  /\ dict_get ((t ++ "_" ++ a) ++ "_"
                 ++ str_nat (List.length pre + 1 + List.length mid))%string (results r)
     = Some v2.
Proof.
  intros Hd Ht1 Ha1 Ht2 Ha2 Hpre Hn1 Hn2.
  apply Forall2_app_inv_l in Hd as (os_pre & os1 & Hd_pre & Hd1 & ->).
  inversion Hd1 as [| ? o1 ? os2 Hs1 Hd2]; subst.
  apply Forall2_app_inv_l in Hd2 as (os_mid & os3 & Hd_mid & Hd3 & ->).
  inversion Hd3 as [| ? o2 ? os_post Hs2 Hd_post]; subst.
  pose proof (Forall2_length Hd_pre) as Lpre.
  pose proof (Forall2_length Hd_mid) as Lmid.
  rewrite nth_error_middle in Hn1 by congruence. injection Hn1 as ->.
  replace (os_pre ++ Ok v1 :: os_mid ++ o2 :: os_post)%list
    with ((os_pre ++ Ok v1 :: os_mid) ++ o2 :: os_post)%list in Hn2
    by (rewrite <- app_assoc; reflexivity).
  rewrite nth_error_middle in Hn2
    by (rewrite length_app; cbn [List.length]; lia).
  injection Hn2 as ->.
  cbv zeta.
  rewrite absorb_all_app by congruence. cbn [absorb_all].
  rewrite absorb_all_app by congruence. cbn [absorb_all].
  cbn [Nat.add].
  set (i1 := List.length pre).
  replace (i1 + 1 + List.length mid)%nat with (S i1 + List.length mid)%nat by lia.
  set (i2 := (S i1 + List.length mid)%nat).
  set (r1 := absorb_all 0 pre os_pre empty_report).
  set (r1' := absorb i1 s1 (Ok v1) r1).
  set (rm := absorb_all (S i1) mid os_mid r1').
  set (r2 := absorb i2 s2 (Ok v2) rm).
  pose proof (Hs1 v1 eq_refl) as Hreg1.
  pose proof (Hs2 v2 eq_refl) as Hreg2.
  destruct (step_in_registry_pair s1 Hreg1) as (t' & a' & Et & Ea & Hpair & HK).
  rewrite Ht1 in Et. rewrite Ha1 in Ea. injection Et as <-. injection Ea as <-.
  pose proof (short_key_of s1 t a Ht1 Ha1) as K1.
  pose proof (short_key_of s2 t a Ht2 Ha2) as K2.
  rewrite K1 in HK.
  (* the short key is free when the first occurrence runs *)
  assert (Hfree : ~ In (t ++ "_" ++ a)%string (keys (results r1))).
  { intros Hin.
    apply (absorb_all_keys_from (fun k => k <> (t ++ "_" ++ a)%string)
             pre os_pre 0 empty_report Hd_pre) in Hin.
    - destruct Hin as [[_ Hne] | [(K & n & HKr & _ & E) | (n & _ & E)]].
      + apply Hne. reflexivity.
      + symmetry in E. exact (suffixed_not_short _ _ _ HKr HK E).
      + exact (short_not_error _ _ HK E).
    - apply Forall_forall. intros step Hstep Hreg E.
      rewrite Forall_forall in Hpre. apply (Hpre step Hstep).
      destruct (step_in_registry_pair step Hreg) as (t' & a' & Et & Ea & Hpair' & _).
      rewrite (short_key_of step t' a' Et Ea) in E.
      apply registry_pairs_inj in E as [-> ->]; auto.
    - intros k [].
  }
  assert (Hkey1 : result_key_for i1 s1 (results r1) = (t ++ "_" ++ a)%string).
  { unfold result_key_for. rewrite K1.
    apply dict_mem_false in Hfree. rewrite Hfree. reflexivity. }
  assert (G1 : dict_get (t ++ "_" ++ a)%string (results r1') = Some v1).
  { rewrite <- Hkey1. apply absorb_get_result, Hreg1. }
  assert (S1 : settled (S i1) (results r1') (t ++ "_" ++ a)%string).
  { left. split; [exact HK |]. apply in_keys_get. rewrite G1. discriminate. }
  destruct (absorb_all_settled mid os_mid (S i1) r1' _ Hd_mid S1) as [Gm Sm].
  fold rm in Gm, Sm. fold i2 in Sm. rewrite G1 in Gm.
  assert (Hkey2 : result_key_for i2 s2 (results rm)
                  = ((t ++ "_" ++ a) ++ "_" ++ str_nat i2)%string).
  { unfold result_key_for, dict_mem. rewrite K2, Gm. reflexivity. }
  assert (G2 : dict_get ((t ++ "_" ++ a) ++ "_" ++ str_nat i2)%string (results r2)
               = Some v2).
  { rewrite <- Hkey2. apply absorb_get_result, Hreg2. }
  destruct (absorb_settled i2 s2 (Ok v2) rm _ Hs2 Sm) as [G1' S1'].
  fold r2 in G1', S1'. rewrite Gm in G1'.
  assert (S2 : settled (S i2) (results r2) ((t ++ "_" ++ a) ++ "_" ++ str_nat i2)%string).
  { right. left. exists (t ++ "_" ++ a)%string, i2. repeat split; [exact HK | lia]. }
  destruct (absorb_all_settled post os_post (S i2) r2 _ Hd_post S1') as [F1 _].
  destruct (absorb_all_settled post os_post (S i2) r2 _ Hd_post S2) as [F2 _].
  change (dict_get (t ++ "_" ++ a)%string
            (results (absorb_all (S i2) post os_post r2)) = Some v1
          /\ dict_get ((t ++ "_" ++ a) ++ "_" ++ str_nat i2)%string
               (results (absorb_all (S i2) post os_post r2)) = Some v2).
  rewrite F1, F2, G1', G2. split; reflexivity.
Qed.

(** C7. When a tool/action pair occurs a second time in a plan, and both
    dispatches return, the outcome of the first occurrence is in the report
    under the short key ["<tool>_<action>"] and the outcome of the second
    under that key followed by ["_<i>"], [i] being the index of the second
    step.  The choice is made step by step from the keys already in the
    report: the suffix is added exactly when the short key is in use. *)
Theorem repeated_step_gets_suffixed_key (plan : dict) (pre mid post : list dict)
    (s1 s2 : dict) (t a : string) (v1 v2 : value) (w : World) :
  plan_steps plan (pre ++ s1 :: mid ++ s2 :: post) ->
  dict_get_or "tool" s1 VNone = VStr t -> dict_get_or "action" s1 VNone = VStr a ->
  dict_get_or "tool" s2 VNone = VStr t -> dict_get_or "action" s2 VNone = VStr a ->
  Forall (fun step => ~ (dict_get_or "tool" step VNone = VStr t
                         /\ dict_get_or "action" step VNone = VStr a)) pre ->
  let i1 := List.length pre in
  let i2 := (List.length pre + 1 + List.length mid)%nat in
  let outcomes := fst (dispatch_all (pre ++ s1 :: mid ++ s2 :: post) w) in
  nth_error outcomes i1 = Some (Ok v1) ->
  nth_error outcomes i2 = Some (Ok v2) ->
  (exists (r : Report) (w' : World),
     execute_plan plan w = (Ok r, w')
     /\ dict_get (t ++ "_" ++ a)%string (results r) = Some v1
     /\ dict_get ((t ++ "_" ++ a) ++ "_" ++ str_nat i2)%string (results r) = Some v2)
  /\ (forall (i : nat) (step : dict) (r0 : Report) (w0 w1 : World) (v : value),
        _execute_step step w0 = (Ok v, w1) ->
        exists r1,
          step_body i step (r0, w0) = (Ok tt, (r1, w1))
          /\ dict_get (if dict_mem (short_key step) (results r0)
                       then (short_key step ++ "_" ++ str_nat i)%string
                       else short_key step) (results r1) = Some v).
Proof.
  intros Hplan Ht1 Ha1 Ht2 Ha2 Hpre i1 i2 outcomes Hn1 Hn2. split.
  - eexists. eexists. split.
    + apply execute_plan_absorb_all, Hplan.
    + apply (first_and_second_occurrence pre mid post s1 s2 t a); try assumption.
      apply dispatch_all_dispatched.
  - intros i step r0 w0 w1 v E. eexists. split.
    + rewrite step_body_absorb, E. reflexivity.
    + cbn [fst]. apply (absorb_get_result i step v r0).
      eapply execute_step_ok, E.
Qed.

(** *** One entry per step *)

Lemma outcome_shape_failed (v : value) :
  outcome_shape v = true -> exists b, outcome_failed v = Ok b.
Proof.
  destruct v as [| | | | | xs | d]; simpl; try discriminate.
  - destruct xs as [| first xs]; [eexists; reflexivity |].
    simpl. destruct first; simpl; try discriminate. eexists; reflexivity.
  - eexists; reflexivity.
Qed.

Lemma method_of_assoc (t a : string) (acts : list (string * method)) (m : method) :
  assoc t action_map = Some acts -> assoc a acts = Some m ->
  method_of (VStr t) (VStr a) = m.
Proof.
  intros Ht Ha. unfold method_of, actions_of. rewrite Ht, Ha. reflexivity.
Qed.

Lemma execute_step_shape (step : dict) (w w' : World) (v : value) :
  tools_honour_contract ->
  _execute_step step w = (Ok v, w') -> outcome_shape v = true.
Proof.
  intros Hc H. pose proof (execute_step_ok _ _ _ _ H) as Hreg.
  rewrite execute_step_unfold in H. cbv zeta in H. rewrite Hreg in H.
  unfold step_in_registry in Hreg.
  apply in_registry_strings in Hreg as (t & a & acts & m & Ht & Ha & Hacts & Hm & _).
  rewrite Ht, Ha, (method_of_assoc t a acts m Hacts Hm) in H.
  unfold try_except in H.
  destruct (m (dict_get_or "params" step (VDict [])) w) as [[v0 | e] w0] eqn:Em.
  - injection H as <- <-. exact (Hc t a acts m Hacts Hm _ _ _ _ Em).
  - destruct e; unfold ret, raise in H; try discriminate H.
    injection H as <- <-. reflexivity.
Qed.

Lemma dispatch_all_well_shaped (steps : list dict) (w : World) :
  tools_honour_contract ->
  Forall2 well_shaped steps (fst (dispatch_all steps w)).
Proof.
  intros Hc. revert w. induction steps as [| step steps IH]; intros w.
  - constructor.
  - rewrite dispatch_all_cons. cbn [fst]. constructor; [| apply IH].
    destruct (_execute_step step w) as [[v | e] w1] eqn:E; cbn [fst]; [| exact I].
    split.
    + eapply execute_step_ok, E.
    + eapply outcome_shape_failed, execute_step_shape; eassumption.
Qed.

Lemma keys_app (d1 d2 : dict) : keys (d1 ++ d2) = (keys d1 ++ keys d2)%list.
Proof. apply map_app. Qed.

Lemma keys_ok_fresh_error (i : nat) (d : dict) :
  keys_ok i d -> ~ In (error_key i) (keys d).
Proof.
  intros [_ H] Hin.
  apply H in Hin as [[Hk _] | [(K & n & HK & _ & E) | (n & Hn & E)]].
  - exact (short_not_error _ _ Hk eq_refl).
  - symmetry in E. exact (suffixed_not_error _ _ _ HK E).
  - apply error_key_inj in E. lia.
Qed.

Lemma keys_ok_fresh_suffixed (i : nat) (d : dict) (K : string) :
  keys_ok i d -> In K registry_keys ->
  ~ In (K ++ "_" ++ str_nat i)%string (keys d).
Proof.
  intros [_ H] HK Hin.
  apply H in Hin as [[Hk _] | [(K' & n & HK' & Hn & E) | (n & Hn & E)]].
  - exact (suffixed_not_short _ _ _ HK Hk eq_refl).
  - apply suffixed_inj in E as [_ E]; try assumption.
    apply str_nat_inj in E. lia.
  - exact (suffixed_not_error _ _ _ HK E).
Qed.

Lemma keys_ok_snoc (i : nat) (d : dict) (k : string) (v : value) :
  keys_ok i d -> ~ In k (keys d) -> keys_from (fun _ => True) (S i) k ->
  keys_ok (S i) (d ++ [(k, v)]).
Proof.
  intros [Hnd H] Hfresh Hk. unfold keys_ok. rewrite keys_app. cbn [keys map fst].
  split.
  - apply NoDup_app; [exact Hnd | repeat constructor; intros [] |].
    intros k' Hin [<- | []]. exact (Hfresh Hin).
  - intros k' Hin. apply in_app_or in Hin as [Hin | [<- | []]].
    + apply keys_from_S, H, Hin.
    + exact Hk.
Qed.

Lemma absorb_entry (i : nat) (step : dict) (o : exc value) (r : Report) :
  well_shaped step o ->
  keys_ok i (results r) ->
  exists entry,
    results (absorb i step o r) = (results r ++ [entry])%list
    /\ entry_of_step i step o (keys (results r)) entry
    /\ keys_ok (S i) (results r ++ [entry])
    /\ steps_executed (absorb i step o r) + Z.of_nat (count_error_entries [entry])
       = steps_executed r + 1.
Proof.
  intros Hw Hok. destruct o as [v | e]; cbn [absorb].
  - destruct Hw as [Hreg [b Hb]]. rewrite Hb.
    destruct (step_in_registry_facts step Hreg) as (t & a & _ & _ & _ & Hin).
    exists (result_key_for i step (results r), v).
    assert (Hfresh : ~ In (result_key_for i step (results r)) (keys (results r))).
    { unfold result_key_for.
      destruct (dict_mem (short_key step) (results r)) eqn:E.
      - apply keys_ok_fresh_suffixed; assumption.
      - apply dict_mem_false, E. }
    assert (Hrule : keyed_by_rule i step (keys (results r))
                      (result_key_for i step (results r))
                    /\ result_key_for i step (results r) <> error_key i
                    /\ keys_from (fun _ => True) (S i) (result_key_for i step (results r))
                    /\ startswith "error_step_" (result_key_for i step (results r)) = false).
    { unfold result_key_for.
      destruct (dict_mem (short_key step) (results r)) eqn:E.
      - apply dict_mem_true in E. repeat split.
        + right. right. split; [reflexivity | exact E].
        + apply suffixed_not_error, Hin.
        + right. left. exists (short_key step), i. repeat split; [exact Hin | lia].
        + apply suffixed_key_prefix, Hin.
      - apply dict_mem_false in E. repeat split.
        + right. left. split; [reflexivity | exact E].
        + apply short_not_error, Hin.
        + left. split; [exact Hin | exact I].
        + apply short_key_prefix, Hin. }
    destruct Hrule as (Hrule & Hne & Hfrom & Hprefix).
    assert (Hres : results (if b
                            then incr_failed
                                   (incr_executed
                                      (set_result (result_key_for i step (results r)) v r))
                            else incr_executed
                                   (set_result (result_key_for i step (results r)) v r))
                   = (results r ++ [(result_key_for i step (results r), v)])%list).
    { destruct b; simpl; apply dict_set_new, Hfresh. }
    split; [exact Hres |].
    split; [split; [exact Hrule | split; [exact Hne | reflexivity]] |].
    split; [apply keys_ok_snoc; assumption |].
    unfold count_error_entries. cbn [filter fst]. rewrite Hprefix.
    destruct b; simpl; lia.
  - exists (error_key i, error_record e step).
    pose proof (keys_ok_fresh_error i (results r) Hok) as Hfresh.
    split; [simpl; apply dict_set_new, Hfresh |].
    split; [split; [left; reflexivity | reflexivity] |].
    split.
    + apply keys_ok_snoc; [exact Hok | exact Hfresh |].
      right. right. exists i. split; [lia | reflexivity].
    + unfold count_error_entries. cbn [filter fst]. rewrite error_key_prefix.
      simpl. lia.
Qed.

Lemma count_error_entries_app (d1 d2 : dict) :
  count_error_entries (d1 ++ d2)
  = (count_error_entries d1 + count_error_entries d2)%nat.
Proof.
  unfold count_error_entries. rewrite filter_app, length_app. reflexivity.
Qed.

Lemma absorb_all_entries (steps : list dict) (os : list (exc value)) (i : nat) (r : Report) :
  Forall2 well_shaped steps os ->
  keys_ok i (results r) ->
  exists news,
    results (absorb_all i steps os r) = (results r ++ news)%list
    /\ entries_of i steps os (keys (results r)) news
    /\ keys_ok (i + List.length steps) (results r ++ news)
    /\ steps_executed (absorb_all i steps os r) + Z.of_nat (count_error_entries news)
       = steps_executed r + Z.of_nat (List.length steps).
Proof.
  intros Hw. revert i r.
  induction Hw as [| step o steps os Hstep Hw IH]; intros i r Hok;
    cbn [absorb_all List.length].
  - exists []. rewrite app_nil_r, Nat.add_0_r.
    split; [reflexivity |]. split; [constructor |]. split; [exact Hok |].
    simpl. lia.
  - destruct (absorb_entry i step o r Hstep Hok) as (entry & Hres & Hentry & Hok' & Hcount).
    rewrite <- Hres in Hok'.
    destruct (IH (S i) (absorb i step o r) Hok') as (news & Hres' & Hentries & Hok'' & Hcount').
    exists (entry :: news).
    rewrite Hres in Hres', Hok'', Hentries. rewrite <- app_assoc in Hres', Hok''.
    rewrite keys_app in Hentries.
    split; [exact Hres' |].
    split; [constructor; assumption |].
    split; [rewrite Nat.add_succ_r; exact Hok'' |].
    change (entry :: news) with ([entry] ++ news)%list.
    rewrite count_error_entries_app. lia.
Qed.

Lemma entries_of_nth (i : nat) (steps : list dict) (os : list (exc value))
    (used : list string) (news : dict) :
  entries_of i steps os used news ->
  List.length news = List.length steps
  /\ forall j step o,
       nth_error steps j = Some step -> nth_error os j = Some o ->
       exists entry,
         nth_error news j = Some entry
         /\ entry_of_step (i + j) step o (used ++ firstn j (keys news))%list entry.
Proof.
  induction 1 as [i used | i step steps o os used entry rest Hentry Hrest [IHlen IH]].
  - split; [reflexivity |]. intros [| j] step o H; discriminate H.
  - split; [cbn [List.length]; congruence |].
    intros [| j] step' o' Hs Ho.
    + injection Hs as <-. injection Ho as <-. exists entry.
      split; [reflexivity |].
      cbn [firstn]. rewrite app_nil_r, Nat.add_0_r. exact Hentry.
    + destruct (IH j step' o' Hs Ho) as (entry' & Hnth & H').
      exists entry'. split; [exact Hnth |].
      cbn [keys map firstn]. rewrite <- app_assoc in H'.
      rewrite Nat.add_succ_r. exact H'.
Qed.

(** C1. Under the tool contract (an action returns a mapping or a sequence
    of mappings), [execute_plan] returns a report for every plan, and in it
    [steps_executed] plus the number of [error_step_*] entries is at most the
    number of steps, [results] has exactly one entry per step, with distinct
    keys, and the entry at position [i] is the entry of step [i]: keyed
    [error_step_<i>] with the error record when the dispatch raised, and
    otherwise holding the outcome under the short key, or under the short key
    followed by ["_<i>"] when the short key was already in use. *)
Theorem report_aggregate_invariant (plan : dict) (steps : list dict) (w : World) :
  tools_honour_contract ->
  plan_steps plan steps ->
  exists (r : Report) (w' : World),
    execute_plan plan w = (Ok r, w')
    /\ steps_executed r + Z.of_nat (count_error_entries (results r))
       <= Z.of_nat (List.length steps)
    /\ List.length (results r) = List.length steps
    /\ NoDup (keys (results r))
    /\ forall i step o,
         nth_error steps i = Some step ->
         nth_error (fst (dispatch_all steps w)) i = Some o ->
         exists entry,
           nth_error (results r) i = Some entry
           /\ entry_of_step i step o (firstn i (keys (results r))) entry.
Proof.
  intros Hc Hplan.
  destruct (absorb_all_entries steps (fst (dispatch_all steps w)) 0 empty_report
              (dispatch_all_well_shaped steps w Hc))
    as (news & Hres & Hentries & [Hnd _] & Hcount).
  { split; [constructor | intros k []]. }
  cbn [results empty_report app] in Hres, Hentries, Hnd.
  cbn [steps_executed empty_report] in Hcount.
  destruct (entries_of_nth _ _ _ _ _ Hentries) as [Hlen Hnth].
  eexists. eexists. split; [apply execute_plan_absorb_all, Hplan |].
  rewrite Hres. split; [lia |].
  split; [exact Hlen |].
  split; [exact Hnd |].
  intros i step o Hs Ho. exact (Hnth i step o Hs Ho).
Qed.

(** The forecast stub honours the contract by itself, so the contract only
    constrains the three HTTP-backed methods. *)
Lemma get_weather_forecast_shape (params : value) (w w' : World) (v : value) :
  get_weather_forecast params w = (Ok v, w') -> outcome_shape v = true.
Proof.
  unfold get_weather_forecast, raise, ret.
  destruct params as [| | | | | | kw]; try discriminate.
  destruct (find _ (keys kw)); [discriminate |].
  destruct (dict_get "city" kw); [| discriminate].
  intros H. injection H as <- _. reflexivity.
Qed.

Lemma tools_honour_contract_intro :
  (forall params w v w', search_repos params w = (Ok v, w') -> outcome_shape v = true) ->
  (forall params w v w', get_repo_info params w = (Ok v, w') -> outcome_shape v = true) ->
  (forall params w v w', get_weather params w = (Ok v, w') -> outcome_shape v = true) ->
  tools_honour_contract.
Proof.
  intros H1 H2 H3 t a acts m Ht Ha.
  unfold action_map in Ht. cbn -[String.eqb] in Ht.
  destruct (String.eqb_spec "github" t) as [_ | _].
  - injection Ht as <-. cbn -[String.eqb] in Ha.
    destruct (String.eqb_spec "search_repos" a) as [_ | _];
      [injection Ha as <-; exact H1 |].
    destruct (String.eqb_spec "get_repo_info" a) as [_ | _];
      [injection Ha as <-; exact H2 | discriminate Ha].
  - destruct (String.eqb_spec "weather" t) as [_ | _]; [| discriminate Ht].
    injection Ht as <-. cbn -[String.eqb] in Ha.
    destruct (String.eqb_spec "get_weather" a) as [_ | _];
      [injection Ha as <-; exact H3 |].
    destruct (String.eqb_spec "get_forecast" a) as [_ | _];
      [injection Ha as <- | discriminate Ha].
    intros params w v w'. apply get_weather_forecast_shape.
Qed.

(** ** Further properties of the verifier *)

Lemma check_entry_status_step (v : Verdict) (entry : string * value) :
  status (check_entry v entry) = status v
  \/ (status v = "success" /\ status (check_entry v entry) = "partial").
Proof.
  destruct (check_entry_cases v entry) as [-> | [msg ->]]; [left; reflexivity |].
  unfold flag; simpl.
  destruct (String.eqb_spec (status v) "success") as [E | _].
  - right. split; [exact E | reflexivity].
  - left. reflexivity.
Qed.

Lemma fold_check_entry_status_step (l : dict) (v : Verdict) :
  status (fold_left check_entry l v) = status v
  \/ (status v = "success" /\ status (fold_left check_entry l v) = "partial").
Proof.
  revert v. induction l as [| entry l IH]; intros v; simpl.
  - left. reflexivity.
  - destruct (IH (check_entry v entry)) as [E | [E1 E2]];
      destruct (check_entry_status_step v entry) as [F | [F1 F2]].
    + left. congruence.
    + right. split; [exact F1 | congruence].
    + right. split; congruence.
    + rewrite F2 in E1. discriminate E1.
Qed.

Lemma basic_validation_nothing_executed (r : Report) :
  steps_executed r = 0 -> status (_basic_validation r) = "failed".
Proof.
  intros H0. unfold _basic_validation. cbv zeta.
  match goal with
  | |- context [fold_left check_entry (results r) ?v0] =>
      destruct (fold_check_entry_status_step (results r) v0) as [E | [E1 E2]]
  end.
  - rewrite E, H0. simpl. destruct (steps_failed r >? 0); reflexivity.
  - rewrite H0 in E1. simpl in E1. destruct (steps_failed r >? 0); discriminate E1.
Qed.

(** X1. The status of basic validation is one of the three status words, and it
    is [failed] exactly when no step was executed: a failure found later
    never turns [failed] into [partial], nor anything into [failed]. *)
Theorem basic_validation_status (r : Report) :
  (status (_basic_validation r) = "success"
   \/ status (_basic_validation r) = "partial"
   \/ status (_basic_validation r) = "failed")
  /\ (status (_basic_validation r) = "failed" <-> steps_executed r = 0).
Proof.
  unfold _basic_validation. cbv zeta.
  match goal with
  | |- context [fold_left check_entry (results r) ?v0] =>
      destruct (fold_check_entry_status_step (results r) v0) as [E | [E1 E2]];
      [rewrite E | rewrite E2]
  end.
  - destruct (Z.eqb_spec (steps_executed r) 0) as [H0 | H0];
      destruct (steps_failed r >? 0); simpl; split; auto;
      split; intros H; try discriminate H; try reflexivity; try contradiction; auto.
  - split; [auto |]. split; [discriminate |].
    intros H0. rewrite H0 in E1. simpl in E1.
    destruct (steps_failed r >? 0); discriminate E1.
Qed.

Lemma check_entry_errors_nonempty (v : Verdict) (entry : string * value) :
  (errors v = [] -> status v = "success") ->
  errors (check_entry v entry) = [] -> status (check_entry v entry) = "success".
Proof.
  intros H. destruct (check_entry_cases v entry) as [-> | [msg ->]]; [exact H |].
  simpl. intros E. destruct (errors v); discriminate E.
Qed.

Lemma fold_check_entry_errors_nonempty (l : dict) (v : Verdict) :
  (errors v = [] -> status v = "success") ->
  errors (fold_left check_entry l v) = [] ->
  status (fold_left check_entry l v) = "success".
Proof.
  revert v. induction l as [| entry l IH]; intros v H; simpl.
  - exact H.
  - apply IH, check_entry_errors_nonempty, H.
Qed.

(** X2. Basic validation reports [success] exactly when it records no error:
    every downgrade of the status comes with an error string, and every
    error string with a downgrade. *)
Theorem basic_validation_success_iff_no_errors (r : Report) :
  status (_basic_validation r) = "success" <-> errors (_basic_validation r) = [].
Proof.
  split; [apply basic_validation_clean |].
  unfold _basic_validation. apply fold_check_entry_errors_nonempty.
  destruct (steps_executed r =? 0); destruct (steps_failed r >? 0); simpl;
    intros H; try discriminate H; reflexivity.
Qed.

Lemma ensure_field_dict (key : string) (default : value) (d : dict) :
  exists d',
    ensure_field key default (VDict d) = Ok (VDict d')
    /\ dict_get key d' = Some (dict_get_or key d default)
    /\ forall k, k <> key -> dict_get k d' = dict_get k d.
Proof.
  unfold ensure_field, dict_mem, dict_get_or.
  destruct (dict_get key d) as [v |] eqn:E.
  - exists d. repeat split; assumption.
  - exists (dict_set key default d). repeat split.
    + apply dict_get_set_same.
    + intros k Hk. apply dict_get_set_other, Hk.
Qed.

(** X3. When the LLM answers with a JSON object, [_llm_verification] returns that
    object with [status] and [results] present: a missing [status] becomes
    ["partial"], a missing [results] becomes the empty mapping, what the
    object already had is kept. *)
Theorem llm_verification_backfills (r : Report) (req : string) (w w' : World) (d : dict) :
  generate_json (verification_prompt r req) VERIFIER_SYSTEM_PROMPT w = (Ok (VDict d), w') ->
  exists d',
    _llm_verification r req w = (Ok (VDict d'), w')
    /\ dict_get "status" d' = Some (dict_get_or "status" d (VStr "partial"))
    /\ dict_get "results" d' = Some (dict_get_or "results" d (VDict []))
    /\ forall k, k <> "status" -> k <> "results" -> dict_get k d' = dict_get k d.
Proof.
  intros H.
  destruct (ensure_field_dict "status" (VStr "partial") d) as (d1 & E1 & G1 & O1).
  destruct (ensure_field_dict "results" (VDict []) d1) as (d2 & E2 & G2 & O2).
  exists d2. split.
  - unfold _llm_verification, try_except, bind, lift_exc, ret.
    rewrite H, E1, E2. reflexivity.
  - split; [| split].
    + rewrite O2 by discriminate. exact G1.
    + rewrite G2. unfold dict_get_or. rewrite O1 by discriminate. reflexivity.
    + intros k Hs Hr. rewrite O2 by exact Hr. apply O1, Hs.
Qed.

Lemma llm_verification_ok_dict (r : Report) (req : string) (w : World) (d : dict) :
  fst (_llm_verification r req w) = Ok (VDict d) ->
  dict_mem "status" d = true /\ dict_mem "results" d = true.
Proof.
  unfold _llm_verification, try_except, bind, lift_exc, ret, raise.
  destruct (generate_json _ _ w) as [[v | e] w1]; simpl; [| discriminate].
  destruct v as [| | | | s | xs | d0]; simpl; try discriminate.
  - destruct (contains "status" s); simpl; [| discriminate].
    destruct (contains "results" s); simpl; discriminate.
  - destruct (existsb (eq_str "status") xs); simpl; [| discriminate].
    destruct (existsb (eq_str "results") xs); simpl; discriminate.
  - destruct (ensure_field_dict "status" (VStr "partial") d0) as (d1 & E1 & G1 & O1).
    destruct (ensure_field_dict "results" (VDict []) d1) as (d2 & E2 & G2 & O2).
    change (if dict_mem "status" d0 then VDict d0
            else VDict (dict_set "status" (VStr "partial") d0))
      with (match ensure_field "status" (VStr "partial") (VDict d0) with
            | Ok v => v | Raise _ => VNone end) in *.
    rewrite E1. rewrite E2. simpl. intros H. injection H as <-.
    unfold dict_mem. rewrite G2. rewrite O2 by discriminate. rewrite G1. auto.
Qed.

(** X4. [verify_and_format] never raises: what it returns is the deterministic
    format of the basic-validation verdict, or else the value the LLM
    verification returned. *)
Theorem verify_and_format_never_raises (r : Report) (req : string) (w : World) :
  exists v,
    fst (verify_and_format r req w) = Ok v
    /\ (v = _format_results r (_basic_validation r)
        \/ (status (_basic_validation r) <> "success"
            /\ fst (_llm_verification r req w) = Ok v)).
Proof.
  unfold verify_and_format.
  destruct (String.eqb_spec (status (_basic_validation r)) "success") as [E | E].
  - eexists. split; [reflexivity | left; reflexivity].
  - unfold try_except.
    destruct (_llm_verification r req w) as [[v | e] w1]; simpl.
    + exists v. split; [reflexivity | right; split; [exact E | reflexivity]].
    + eexists. split; [reflexivity | left; reflexivity].
Qed.

Lemma spec_results_entries (l : dict) (k : string) (x : value) :
  In (k, x) (spec_results l) ->
  (k = "github_repos" /\ exists repo repos, x = VList (repo :: repos))
  \/ (k = "weather" /\ exists kv d, x = VDict (kv :: d)).
Proof.
  unfold spec_results. intros H. apply in_app_or in H as [H | H].
  - destruct (spec_github_repos l) as [| repo repos]; [destruct H |].
    destruct H as [H | []]. injection H as <- <-. left. eauto.
  - destruct (last (spec_weather_candidates l) []) as [| kv d]; [destruct H |].
    destruct H as [H | []]. injection H as <- <-. right. eauto.
Qed.

Lemma spec_github_repos_filter (l : dict) :
  spec_github_repos (filter (fun kv => category_key (fst kv)) l) = spec_github_repos l.
Proof.
  unfold spec_github_repos, category_key.
  induction l as [| [key val] l IH]; [reflexivity |].
  cbn [filter flat_map fst snd].
  destruct (contains "github" key) eqn:G; cbn [orb].
  - cbn [flat_map fst snd]. rewrite G, IH. reflexivity.
  - destruct (contains "weather" key); [cbn [flat_map fst snd]; rewrite G |];
      cbn [app]; exact IH.
Qed.

Lemma spec_weather_candidates_filter (l : dict) :
  spec_weather_candidates (filter (fun kv => category_key (fst kv)) l)
  = spec_weather_candidates l.
Proof.
  unfold spec_weather_candidates, category_key.
  induction l as [| [key val] l IH]; [reflexivity |].
  cbn [filter flat_map fst snd].
  destruct (contains "github" key) eqn:G; cbn [orb negb andb].
  - cbn [flat_map fst snd]. rewrite G, IH. reflexivity.
  - destruct (contains "weather" key) eqn:W.
    + cbn [flat_map fst snd]. rewrite G, W, IH. reflexivity.
    + cbn [app]. exact IH.
Qed.

Lemma spec_github_repos_source (l : dict) (repo : value) :
  In repo (spec_github_repos l) ->
  exists key val,
    In (key, val) l /\ contains "github" key = true
    /\ ((val = repo /\ exists d, repo = VDict d) \/ exists xs, val = VList xs /\ In repo xs).
Proof.
  unfold spec_github_repos. intros H. apply in_flat_map in H as ([key val] & Hin & H).
  cbn [fst snd] in H. exists key, val. split; [exact Hin |].
  destruct (contains "github" key); [| destruct H]. split; [reflexivity |].
  destruct val as [| | | | | xs | d]; try (destruct H; fail).
  - right. exists xs. split; [reflexivity | exact H].
  - destruct H as [<- | []]. left. split; [reflexivity | eexists; reflexivity].
Qed.

Lemma last_in {A : Type} (l : list A) (d x : A) : last l d = x -> x <> d -> In x l.
Proof.
  induction l as [| a l IH]; intros H Hne.
  - simpl in H. congruence.
  - destruct l as [| b l]; [left; exact H | right; apply IH; assumption].
Qed.

Lemma spec_weather_source (l : dict) (kv : string * value) (d : dict) :
  last (spec_weather_candidates l) [] = kv :: d ->
  exists key,
    In (key, VDict (kv :: d)) l
    /\ contains "weather" key = true /\ contains "github" key = false.
Proof.
  intros H. apply last_in in H; [| discriminate].
  unfold spec_weather_candidates in H. apply in_flat_map in H as ([key val] & Hin & H).
  cbn [fst snd] in H. exists key.
  destruct (contains "github" key); [destruct H |].
  destruct (contains "weather" key); [| destruct H]. cbn [negb andb] in H.
  destruct val as [| | | | | xs | d0]; try (destruct H; fail).
  destruct H as [H | []]. subst d0. auto.
Qed.

Lemma list_ascii_of_string_app (a b : string) :
  list_ascii_of_string (a ++ b)
  = (list_ascii_of_string a ++ list_ascii_of_string b)%list.
Proof.
  induction a as [| ch a IH]; simpl; [reflexivity | rewrite IH; reflexivity].
Qed.

Lemma contains_absent_char (c : ascii) (needle hay : string) :
  ~ In c (list_ascii_of_string hay) -> contains (String c needle) hay = false.
Proof.
  induction hay as [| h hay IH]; intros H.
  - reflexivity.
  - cbn [contains String.prefix].
    destruct (ascii_dec c h) as [-> | _]; [exfalso; apply H; left; reflexivity |].
    apply IH. intros Hin. apply H. right. exact Hin.
Qed.

Lemma string_of_uint_digits (d : Decimal.uint) (c : ascii) :
  In c (list_ascii_of_string (NilEmpty.string_of_uint d)) ->
  (48 <= nat_of_ascii c <= 57)%nat.
Proof.
  induction d as [| d IH | d IH | d IH | d IH | d IH | d IH | d IH | d IH | d IH | d IH];
    cbn [NilEmpty.string_of_uint list_ascii_of_string In];
    try (intros [<- | H]; [vm_compute; lia | exact (IH H)]).
  intros [].
Qed.

Lemma category_key_error_key (i : nat) : category_key (error_key i) = false.
Proof.
  assert (H : forall c, (57 < nat_of_ascii c)%nat ->
                        ~ In c (list_ascii_of_string "error_step_") ->
                        ~ In c (list_ascii_of_string (error_key i))).
  { intros c Hc Hlit Hin. unfold error_key in Hin.
    rewrite list_ascii_of_string_app in Hin. apply in_app_or in Hin as [Hin | Hin].
    - exact (Hlit Hin).
    - apply string_of_uint_digits in Hin. lia. }
  unfold category_key.
  rewrite !contains_absent_char; [reflexivity | |];
    (apply H; [vm_compute; lia |]);
    cbn [list_ascii_of_string In]; intros Hin;
    repeat (destruct Hin as [Hin | Hin]; [discriminate Hin |]); exact Hin.
Qed.

(** X5. What [_format_results] reads and what it writes.  Its [results] hold
    at most the categories [github_repos], a non-empty list, and [weather], a
    non-empty mapping.  Every element of [github_repos] is a mapping stored,
    or an element of a list stored, under a key of the report that contains
    ["github"]; [weather] is a mapping stored under a key that contains
    ["weather"] and not ["github"].  Entries under any other key never reach
    the output: removing them from the report leaves the output as it is,
    and the [error_step_*] keys are among them. *)
Theorem format_results_categories (r r' : Report) (v : Verdict) :
  (exists fr res,
     _format_results r v = VDict fr
     /\ dict_get "results" fr = Some (VDict res)
     /\ forall k x, In (k, x) res ->
          (k = "github_repos"
           /\ exists repo repos,
                x = VList (repo :: repos)
                /\ forall item, In item (repo :: repos) ->
                     exists key val,
                       In (key, val) (results r) /\ contains "github" key = true
                       /\ ((val = item /\ exists d, item = VDict d)
                           \/ exists xs, val = VList xs /\ In item xs))
          \/ (k = "weather"
              /\ exists kv d,
                   x = VDict (kv :: d)
                   /\ exists key,
                        In (key, VDict (kv :: d)) (results r)
                        /\ contains "weather" key = true
                        /\ contains "github" key = false))
  /\ (results r' = filter (fun kv => category_key (fst kv)) (results r) ->
      _format_results r' v = _format_results r v)
  /\ (forall i, category_key (error_key i) = false).
Proof.
  split; [| split].
  - rewrite format_results_spec. eexists. exists (spec_results (results r)).
    split; [reflexivity |]. split; [reflexivity |].
    intros k x H. unfold spec_results in H. apply in_app_or in H as [H | H].
    + destruct (spec_github_repos (results r)) as [| repo repos] eqn:E; [destruct H |].
      destruct H as [H | []]. injection H as <- <-. left. split; [reflexivity |].
      exists repo, repos. split; [reflexivity |].
      intros item Hin. apply spec_github_repos_source. rewrite E. exact Hin.
    + destruct (last (spec_weather_candidates (results r)) []) as [| kv d] eqn:E;
        [destruct H |].
      destruct H as [H | []]. injection H as <- <-. right. split; [reflexivity |].
      exists kv, d. split; [reflexivity |]. apply spec_weather_source, E.
  - intros Hr. rewrite !format_results_spec. unfold spec_results.
    rewrite Hr, spec_github_repos_filter, spec_weather_candidates_filter. reflexivity.
  - apply category_key_error_key.
Qed.

(** ** Further properties of the executor *)

Lemma run_steps_ok_dicts (steps : list value) (i : nat) (r : Report) (w : World) :
  fst (run_steps i steps (r, w)) = Ok tt -> exists ds, steps = map VDict ds.
Proof.
  revert i r w. induction steps as [| step steps IH]; intros i r w H.
  - exists []. reflexivity.
  - destruct step as [| | | | | | s]; try discriminate H.
    cbn [run_steps] in H. unfold bind in H. rewrite step_body_absorb in H.
    apply IH in H as [ds ->]. exists (s :: ds). reflexivity.
Qed.

Lemma execute_plan_ok_plan_steps (plan : dict) (w w' : World) (r : Report) :
  execute_plan plan w = (Ok r, w') -> exists steps, plan_steps plan steps.
Proof.
  intros H. unfold execute_plan in H. unfold plan_steps.
  destruct (py_iter (dict_get_or "steps" plan (VList []))) as [xs | e];
    [| discriminate H].
  destruct (run_steps 0 xs (empty_report, w)) as [[[] | e] [r1 w1]] eqn:E;
    [| discriminate H].
  destruct (run_steps_ok_dicts xs 0 empty_report w) as [ds ->].
  - rewrite E. reflexivity.
  - exists ds. reflexivity.
Qed.

(** X6. [execute_plan] returns a report exactly when the [steps] of the plan are
    a sequence of mappings.  Whatever the tools do and whatever the steps
    name, nothing else makes it raise; a step that is not a mapping does,
    at the log line that precedes the [try]. *)
Theorem execute_plan_returns_iff (plan : dict) (w : World) :
  (exists r w', execute_plan plan w = (Ok r, w'))
  <-> exists steps, plan_steps plan steps.
Proof.
  split.
  - intros (r & w' & H). apply (execute_plan_ok_plan_steps plan w w' r H).
  - intros [steps H]. eexists. eexists. apply execute_plan_absorb_all, H.
Qed.

Lemma absorb_counters (i : nat) (step : dict) (o : exc value) (r : Report) :
  steps_executed (absorb i step o r)
  = steps_executed r + match o with Ok _ => 1 | Raise _ => 0 end
  /\ steps_failed r <= steps_failed (absorb i step o r) <= steps_failed r + 1
  /\ (forall e, o = Raise e -> steps_failed (absorb i step o r) = steps_failed r + 1).
Proof.
  destruct o as [v | e]; cbn [absorb].
  - destruct (outcome_failed v) as [[|] | e']; simpl; repeat split; try lia;
      intros e0 H; discriminate H.
  - simpl. repeat split; try lia.
Qed.

Lemma absorb_all_counters (steps : list dict) (os : list (exc value)) (i : nat) (r : Report) :
  List.length os = List.length steps ->
  let r' := absorb_all i steps os r in
  steps_executed r' = steps_executed r + Z.of_nat (count_returned os)
  /\ steps_failed r + Z.of_nat (List.length steps) - Z.of_nat (count_returned os)
     <= steps_failed r'
     <= steps_failed r + Z.of_nat (List.length steps).
Proof.
  revert os i r. induction steps as [| step steps IH]; intros [| o os] i r H;
    try discriminate H; cbn [absorb_all].
  - simpl. lia.
  - cbn zeta. injection H as H.
    specialize (IH os (S i) (absorb i step o r) H). cbv zeta in IH.
    destruct (absorb_counters i step o r) as (He & Hf & Hr).
    destruct IH as [IHe IHf].
    unfold count_returned in *. cbn [filter List.length].
    destruct o as [v | e]; cbn [List.length] in *.
    + split; [rewrite IHe, He; lia | lia].
    + specialize (Hr e eq_refl). split; [rewrite IHe, He; lia | lia].
Qed.

(** X7. Whatever the tools do, the counters of a report stay within the plan:
    [steps_executed] is the number of steps whose dispatch returned, and
    [steps_failed] lies between the number of steps whose dispatch raised and
    the number of steps. *)
Theorem report_counters_within_plan (plan : dict) (steps : list dict) (w w' : World)
    (r : Report) :
  plan_steps plan steps ->
  execute_plan plan w = (Ok r, w') ->
  let n := Z.of_nat (List.length steps) in
  let returned := Z.of_nat (count_returned (fst (dispatch_all steps w))) in
  steps_executed r = returned
  /\ 0 <= returned <= n
  /\ n - returned <= steps_failed r <= n.
Proof.
  intros Hplan H n returned.
  rewrite (execute_plan_absorb_all plan steps w Hplan) in H. injection H as <- _.
  destruct (absorb_all_counters steps (fst (dispatch_all steps w)) 0 empty_report
              (dispatch_all_length steps w)) as [He Hf].
  simpl in He, Hf.
  assert (Hle : (count_returned (fst (dispatch_all steps w)) <= List.length steps)%nat).
  { unfold count_returned. rewrite <- (dispatch_all_length steps w).
    apply filter_length_le. }
  subst n returned. repeat split; lia.
Qed.

(** X8. The keys of a report come from a closed set: the short keys of the
    registry, a short key followed by the index of a step of the plan, or
    [error_step_] followed by such an index. *)
Theorem report_keys_closed (plan : dict) (steps : list dict) (w w' : World) (r : Report)
    (k : string) :
  plan_steps plan steps ->
  execute_plan plan w = (Ok r, w') ->
  In k (keys (results r)) ->
  In k ["github_search_repos"; "github_get_repo_info";
        "weather_get_weather"; "weather_get_forecast"]
  \/ (exists K i,
        In K ["github_search_repos"; "github_get_repo_info";
              "weather_get_weather"; "weather_get_forecast"]
        /\ (i < List.length steps)%nat /\ k = (K ++ "_" ++ str_nat i)%string)
  \/ (exists i, (i < List.length steps)%nat /\ k = ("error_step_" ++ str_nat i)%string).
Proof.
  intros Hplan H Hk.
  rewrite (execute_plan_absorb_all plan steps w Hplan) in H. injection H as <- _.
  apply (absorb_all_keys_from (fun _ => True) steps _ 0 empty_report
           (dispatch_all_dispatched steps w)) in Hk.
  - rewrite <- registry_keys_eq.
    destruct Hk as [[Hk _] | [Hk | Hk]]; [left; exact Hk | right; left | right; right];
      exact Hk.
  - apply Forall_forall. intros step _ _. exact I.
  - intros k' [].
Qed.

(** X9. A [get_forecast] step is executed and failed whatever its parameters:
    the stub answers with a non-empty [error] string, and parameters it does
    not accept become the [Invalid parameters] outcome.  No request is made. *)
Theorem forecast_step_always_fails (step : dict) (i : nat) (r : Report) (w : World) :
  dict_get_or "tool" step VNone = VStr "weather" ->
  dict_get_or "action" step VNone = VStr "get_forecast" ->
  exists v,
    _execute_step step w = (Ok v, w)
    /\ outcome_failed v = Ok true
    /\ step_body i step (r, w)
       = (Ok tt, (mkReport (steps_executed r + 1) (steps_failed r + 1)
                           (dict_set (result_key_for i step (results r)) v (results r)),
                  w)).
Proof.
  intros Ht Ha.
  assert (Hreg : step_in_registry step = true).
  { unfold step_in_registry. rewrite Ht, Ha. reflexivity. }
  assert (E : exists v, _execute_step step w = (Ok v, w) /\ outcome_failed v = Ok true).
  { rewrite execute_step_unfold. cbv zeta. rewrite Hreg, Ht, Ha.
    change (method_of (VStr "weather") (VStr "get_forecast")) with get_weather_forecast.
    unfold try_except, get_weather_forecast, raise, ret.
    destruct (dict_get_or "params" step (VDict [])) as [| | | | | | kw];
      try (eexists; split; reflexivity).
    destruct (find _ (keys kw)); [eexists; split; reflexivity |].
    destruct (dict_get "city" kw); eexists; split; reflexivity. }
  destruct E as (v & E & Hfail). exists v.
  split; [exact E |]. split; [exact Hfail |].
  rewrite step_body_absorb, E. cbn [fst snd absorb]. rewrite Hfail. reflexivity.
Qed.

(** X10. [execute_single_step] and the plan made of that one step: what the
    direct call raises, the plan records under [error_step_0]; what the
    direct call returns, the plan stores under the short key of the step. *)
Theorem single_step_plan (tool action params : value) (w w' : World) (o : exc value) :
  let step := [("tool", tool); ("action", action); ("params", params)] in
  execute_single_step tool action params w = (o, w') ->
  exists r,
    execute_plan [("steps", VList [VDict step])] w = (Ok r, w')
    /\ (forall e, o = Raise e ->
          r = mkReport 0 1 [("error_step_0", error_record e step)])
    /\ (forall v b, o = Ok v -> outcome_failed v = Ok b ->
          r = mkReport 1 (if b then 1 else 0)
                [((py_str tool ++ "_" ++ py_str action)%string, v)]).
Proof.
  intros step H. unfold execute_single_step in H. fold step in H.
  exists (absorb 0 step o empty_report). split.
  - assert (Hplan : plan_steps [("steps", VList [VDict step])] [step]) by reflexivity.
    rewrite (execute_plan_absorb_all _ [step] w Hplan).
    cbn [dispatch_all]. rewrite H. reflexivity.
  - split.
    + intros e ->. reflexivity.
    + intros v b -> Hb. cbn [absorb]. rewrite Hb. destruct b; reflexivity.
Qed.

Lemma validate_step_true (x : value) :
  validate_step x = true ->
  exists s, x = VDict s /\ key_in (dict_get_or "tool" s VNone) action_map = Ok true.
Proof.
  destruct x as [| | | | | | s]; try discriminate. intros H. exists s.
  split; [reflexivity |].
  unfold validate_step in H. apply andb_true_iff in H as [_ H].
  cbn [existsb] in H.
  destruct (dict_get_or "tool" s VNone) as [| | | | t | |]; try discriminate H.
  cbn [eq_str] in H. rewrite orb_false_r in H.
  apply orb_true_iff in H as [H | H]; apply String.eqb_eq in H; subst t; reflexivity.
Qed.

Lemma validate_steps_true (xs : list value) :
  forallb validate_step xs = true ->
  exists ds,
    xs = map VDict ds
    /\ Forall (fun s => key_in (dict_get_or "tool" s VNone) action_map = Ok true) ds.
Proof.
  induction xs as [| x xs IH]; intros H.
  - exists []. split; [reflexivity | constructor].
  - cbn [forallb] in H. apply andb_true_iff in H as [Hx Hxs].
    destruct (validate_step_true x Hx) as (s & -> & Hs).
    destruct (IH Hxs) as (ds & -> & Hds).
    exists (s :: ds). split; [reflexivity | constructor; assumption].
Qed.

(** X11. A plan that passes [_validate_plan] always executes to a report, and
    none of its steps fails the tool lookup of the executor: the tools the
    planner allows are tools of the registry.  (The action is not validated
    by the planner; a step can still fail the action lookup.) *)
Theorem validated_plan_executes (plan : dict) (w : World) :
  _validate_plan (VDict plan) = true ->
  exists steps,
    plan_steps plan steps
    /\ Forall (fun s => key_in (dict_get_or "tool" s VNone) action_map = Ok true) steps
    /\ exists r w', execute_plan plan w = (Ok r, w').
Proof.
  unfold _validate_plan. intros H.
  destruct (dict_get "steps" plan) as [[| | | | | xs |] |] eqn:E; try discriminate H.
  destruct (validate_steps_true xs H) as (ds & -> & Hds).
  assert (Hplan : plan_steps plan ds).
  { unfold plan_steps, dict_get_or. rewrite E. reflexivity. }
  exists ds. split; [exact Hplan |]. split; [exact Hds |].
  eexists. eexists. apply execute_plan_absorb_all, Hplan.
Qed.

(** ** From the executor to the verifier *)

Lemma outcome_failed_false_unflagged (v : value) :
  outcome_failed v = Ok false -> entry_flagged v = false.
Proof.
  destruct v as [| | | | | xs | d]; simpl; try reflexivity.
  - destruct xs as [| first xs]; [reflexivity |].
    destruct first; simpl; try discriminate. intros H. injection H as H. exact H.
  - intros H. injection H as H. exact H.
Qed.

Lemma dict_set_Forall (P : string * value -> Prop) (k : string) (v : value) (d : dict) :
  P (k, v) -> Forall P d -> Forall P (dict_set k v d).
Proof.
  intros Hv. induction 1 as [| [k0 v0] d H0 Hd IH]; simpl.
  - repeat constructor. exact Hv.
  - destruct (k0 =? k)%string; constructor; assumption.
Qed.

Lemma absorb_coherent (i : nat) (step : dict) (o : exc value) (r : Report) :
  coherent r -> coherent (absorb i step o r).
Proof.
  intros (He & Hf & Hu). destruct o as [v | e]; cbn [absorb].
  - destruct (outcome_failed v) as [[|] | e'] eqn:E; unfold coherent; simpl.
    + repeat split; lia.
    + repeat split; try lia. intros H.
      apply dict_set_Forall; [apply outcome_failed_false_unflagged, E | apply Hu, H].
    + repeat split; lia.
  - unfold coherent; simpl. repeat split; lia.
Qed.

Lemma absorb_all_coherent (steps : list dict) (os : list (exc value)) (i : nat) (r : Report) :
  coherent r -> coherent (absorb_all i steps os r).
Proof.
  revert os i r. induction steps as [| step steps IH]; intros [| o os] i r H;
    cbn [absorb_all]; try exact H.
  apply IH, absorb_coherent, H.
Qed.

Lemma check_entry_unflagged (v : Verdict) (key : string) (val : value) :
  entry_flagged val = false -> check_entry v (key, val) = v.
Proof.
  unfold check_entry, entry_flagged.
  destruct val as [| | | | | [| [] ?] |]; try reflexivity; intros ->; reflexivity.
Qed.

Lemma fold_check_entry_unflagged (l : dict) (v : Verdict) :
  Forall (fun kv => entry_flagged (snd kv) = false) l ->
  fold_left check_entry l v = v.
Proof.
  intros H. revert v. induction H as [| [key val] l H Hl IH]; intros v; cbn [fold_left].
  - reflexivity.
  - rewrite (check_entry_unflagged v key val H). apply IH.
Qed.

(** X12. On a report that [execute_plan] produced, basic validation says
    [success] exactly when no step failed and at least one was executed:
    the executor has already counted every stored value that the verifier
    takes for a failure. *)
Theorem executor_report_success_iff (plan : dict) (w w' : World) (r : Report) :
  execute_plan plan w = (Ok r, w') ->
  status (_basic_validation r) = "success"
  <-> steps_failed r = 0 /\ steps_executed r <> 0.
Proof.
  intros H.
  assert (Hc : coherent r).
  { destruct (execute_plan_ok_plan_steps plan w w' r H) as [steps Hplan].
    rewrite (execute_plan_absorb_all plan steps w Hplan) in H. injection H as <- _.
    apply absorb_all_coherent. unfold coherent; simpl. repeat split; try lia.
    intros _. constructor. }
  destruct Hc as (He & Hf & Hu). split.
  - intros Hs. split.
    + destruct (Z.gtb_spec (steps_failed r) 0) as [Hpos | Hnon]; [| lia].
      exfalso. revert Hs. unfold _basic_validation. cbv zeta.
      match goal with
      | |- context [fold_left check_entry (results r) ?v0] =>
          destruct (fold_check_entry_status_step (results r) v0) as [E | [E1 E2]];
          [rewrite E | rewrite E2; discriminate]
      end.
      destruct (Z.gtb_spec (steps_failed r) 0) as [_ | Hle]; [| lia].
      destruct (steps_executed r =? 0); simpl; discriminate.
    + intros H0. apply basic_validation_nothing_executed in H0.
      rewrite Hs in H0. discriminate H0.
  - intros [H0 Hne]. unfold _basic_validation.
    rewrite fold_check_entry_unflagged by (apply Hu, H0).
    rewrite H0. simpl.
    destruct (Z.eqb_spec (steps_executed r) 0) as [E | _]; [contradiction | reflexivity].
Qed.

(** ** The planner and the request entry point *)

Lemma validate_plan_steps_count (plan : value) :
  _validate_plan plan = true -> exists n, steps_count plan = Ok n.
Proof.
  unfold _validate_plan, steps_count, dict_get_or.
  destruct plan as [| | | | | | p]; try discriminate.
  destruct (dict_get "steps" p) as [[| | | | | xs |] |]; try discriminate.
  intros _. eexists. reflexivity.
Qed.

Lemma create_plan_cases (user_input : string) (w : World) :
  create_plan user_input w
  = match generate_json ("User request: " ++ user_input) PLANNER_SYSTEM_PROMPT w with
    | (Ok plan, w') =>
        if _validate_plan plan then (Ok plan, w')
        else (Raise (ValueError "Invalid plan structure generated"), w')
    | (Raise e, w') => (Raise e, w')
    end.
Proof.
  unfold create_plan, try_except, bind, lift_exc, raise, ret.
  destruct (generate_json _ _ w) as [[plan | e] w']; [| reflexivity].
  destruct (_validate_plan plan) eqn:E; simpl; [| reflexivity].
  destruct (validate_plan_steps_count plan E) as [n ->]. reflexivity.
Qed.

(** X13. [create_plan] returns a plan exactly when the LLM answer parses to a
    value that passes [_validate_plan], and then it returns that value; an
    answer that fails validation is a [ValueError], never a plan. *)
Theorem create_plan_returns_validated_plans (user_input : string) (w : World) (plan : value) :
  (fst (create_plan user_input w) = Ok plan
   <-> fst (generate_json ("User request: " ++ user_input) PLANNER_SYSTEM_PROMPT w) = Ok plan
       /\ _validate_plan plan = true)
  /\ (fst (generate_json ("User request: " ++ user_input) PLANNER_SYSTEM_PROMPT w) = Ok plan ->
      _validate_plan plan = false ->
      fst (create_plan user_input w)
      = Raise (ValueError "Invalid plan structure generated")).
Proof.
  rewrite create_plan_cases.
  destruct (generate_json _ _ w) as [[p | e] w']; simpl.
  - split.
    + split.
      * destruct (_validate_plan p) eqn:E; simpl; intros H; [| discriminate H].
        injection H as <-. auto.
      * intros [H E]. injection H as ->. rewrite E. reflexivity.
    + intros H E. injection H as ->. rewrite E. reflexivity.
  - split; [split; [discriminate | intros [H _]; discriminate H] | discriminate].
Qed.

Lemma format_results_has_keys (r : Report) (v : Verdict) :
  exists fr,
    _format_results r v = VDict fr
    /\ dict_mem "status" fr = true /\ dict_mem "results" fr = true.
Proof.
  destruct (format_results_fields r v) as [res ->].
  eexists. split; [reflexivity |]. split; reflexivity.
Qed.

Lemma getitem_ok_dict (key : string) (v x : value) :
  getitem key v = Ok x -> exists d, v = VDict d.
Proof.
  destruct v; simpl; try discriminate. intros _. eexists. reflexivity.
Qed.

(** X14. [process_request] never raises and always returns a mapping that has a
    [status] and a [results] field: the deterministic format and the failure
    result have both, an LLM verdict that is a mapping gets them backfilled,
    and an LLM verdict that is no mapping fails the last log line, which
    turns the request into the failure result. *)
Theorem process_request_returns_final_result (user_input : string) (w : World) :
  exists d,
    fst (process_request user_input w) = Ok (VDict d)
    /\ dict_mem "status" d = true /\ dict_mem "results" d = true.
Proof.
  unfold process_request, try_except, bind, lift_exc, ret.
  destruct (create_plan user_input w) as [[plan | e] w1];
    [| eexists; split; [reflexivity | split; reflexivity]].
  destruct (execute_plan_value plan w1) as [[r | e] w2];
    [| eexists; split; [reflexivity | split; reflexivity]].
  destruct (format_results_has_keys r (_basic_validation r)) as (fr & Efr & Hs & Hr).
  assert (Gfr : exists x, getitem "status" (VDict fr) = Ok x).
  { unfold getitem, dict_getitem. pose proof Hs as Hs'. unfold dict_mem in Hs'.
    destruct (dict_get "status" fr); [eauto | discriminate Hs']. }
  destruct Gfr as [x Gfr].
  unfold verify_and_format. cbv zeta.
  destruct (status (_basic_validation r) =? "success")%string.
  { unfold ret. rewrite Efr, Gfr. exists fr. split; [reflexivity | auto]. }
  unfold try_except.
  destruct (_llm_verification r user_input w2) as [[v | e] w3] eqn:L.
  2:{ unfold ret. rewrite Efr, Gfr. exists fr. split; [reflexivity | auto]. }
  destruct (getitem "status" v) as [y | e] eqn:G;
    [| eexists; split; [reflexivity | split; reflexivity]].
  destruct (getitem_ok_dict _ _ _ G) as [d ->].
  exists d. split; [reflexivity |].
  apply (llm_verification_ok_dict r user_input w2 d). rewrite L. reflexivity.
Qed.

(** X15. When planning fails, [process_request] stops there: it returns the
    failure result carrying the text of the exception, and the world is the
    one the planner left, no tool and no verification having run. *)
Theorem process_request_planning_failure (user_input : string) (w w' : World) (e : exn) :
  create_plan user_input w = (Raise e, w') ->
  process_request user_input w
  = (Ok (VDict [("status", VStr "failed");
                ("results", VDict []);
                ("errors", VList [VStr (str_exn e)]);
                ("missing_fields", VList [])]),
     w').
Proof.
  intros H. unfold process_request, try_except, bind. rewrite H. reflexivity.
Qed.

(** ** Cleaning the LLM answer *)

Lemma append_assoc (a b c : string) : ((a ++ b) ++ c = a ++ (b ++ c))%string.
Proof.
  induction a as [| ch a IH]; simpl; [reflexivity | rewrite IH; reflexivity].
Qed.

Lemma string_of_list_ascii_app (l1 l2 : list ascii) :
  string_of_list_ascii (l1 ++ l2)
  = (string_of_list_ascii l1 ++ string_of_list_ascii l2)%string.
Proof.
  induction l1 as [| ch l1 IH]; simpl; [reflexivity | rewrite IH; reflexivity].
Qed.

Lemma string_rev_app (a b : string) :
  string_rev (a ++ b) = (string_rev b ++ string_rev a)%string.
Proof.
  unfold string_rev.
  rewrite list_ascii_of_string_app, rev_app_distr, string_of_list_ascii_app.
  reflexivity.
Qed.

Lemma string_rev_involutive (s : string) : string_rev (string_rev s) = s.
Proof.
  unfold string_rev.
  rewrite list_ascii_of_string_of_list_ascii, rev_involutive.
  apply string_of_list_ascii_of_string.
Qed.

Lemma string_rev_cons (c : ascii) (s : string) :
  string_rev (String c s) = (string_rev s ++ String c "")%string.
Proof.
  change (String c s) with (String c "" ++ s)%string. rewrite string_rev_app.
  reflexivity.
Qed.

Lemma isspace_low (c : ascii) : isspace c = true -> (nat_of_ascii c <= 32)%nat.
Proof.
  unfold isspace. cbv zeta. intros H.
  apply orb_true_iff in H as [H | H]; apply andb_true_iff in H as [_ H];
    apply Nat.leb_le in H; lia.
Qed.

Lemma isspace2_bytes (c1 c2 : ascii) :
  isspace2 c1 c2 = true -> nat_of_ascii c1 = 194%nat /\ (128 <= nat_of_ascii c2)%nat.
Proof.
  unfold isspace2. cbv zeta. intros H.
  apply andb_true_iff in H as [H1 H2]. apply Nat.eqb_eq in H1.
  apply orb_true_iff in H2 as [H2 | H2]; apply Nat.eqb_eq in H2; lia.
Qed.

Lemma isspace3_bytes (c1 c2 c3 : ascii) :
  isspace3 c1 c2 c3 = true ->
  (225 <= nat_of_ascii c1)%nat /\ (128 <= nat_of_ascii c2 <= 154)%nat
  /\ (128 <= nat_of_ascii c3)%nat.
Proof.
  unfold isspace3. cbv zeta. intros H.
  repeat match type of H with
         | (_ || _) = true => apply orb_true_iff in H as [H | H]
         end;
    repeat match goal with
           | H : (_ && _) = true |- _ => apply andb_true_iff in H as [? ?]
           | H : (_ || _) = true |- _ => apply orb_true_iff in H as [? | ?]
           | H : (_ =? _)%nat = true |- _ => apply Nat.eqb_eq in H
           | H : (_ <=? _)%nat = true |- _ => apply Nat.leb_le in H
           end; lia.
Qed.

Lemma isspace2_last (c1 c2 : ascii) : isspace2 c1 c2 = true -> isspace c2 = false.
Proof.
  intros H. apply isspace2_bytes in H as [_ H].
  destruct (isspace c2) eqn:E; [apply isspace_low in E; lia | reflexivity].
Qed.

Lemma isspace3_last (c1 c2 c3 : ascii) :
  isspace3 c1 c2 c3 = true -> isspace c3 = false /\ isspace2 c2 c3 = false.
Proof.
  intros H. apply isspace3_bytes in H as (_ & H2 & H3). split.
  - destruct (isspace c3) eqn:E; [apply isspace_low in E; lia | reflexivity].
  - destruct (isspace2 c2 c3) eqn:E; [apply isspace2_bytes in E; lia | reflexivity].
Qed.

(** How [lstrip] consumes a string of whitespace: one character at a time,
    of one, two or three bytes. *)
Lemma all_space_cases (s : string) :
  all_space s = true ->
  s = ""%string
  \/ (exists c1 t, s = String c1 t /\ isspace c1 = true /\ all_space t = true)
  \/ (exists c1 c2 t,
        s = String c1 (String c2 t) /\ isspace c1 = false /\ isspace2 c1 c2 = true
        /\ all_space t = true)
  \/ (exists c1 c2 c3 t,
        s = String c1 (String c2 (String c3 t)) /\ isspace c1 = false
        /\ isspace2 c1 c2 = false /\ isspace3 c1 c2 c3 = true /\ all_space t = true).
Proof.
  unfold all_space. destruct s as [| c1 t1]; [left; reflexivity |].
  cbn [lstrip]. destruct (isspace c1) eqn:E1.
  { intros H. right. left. exists c1, t1. auto. }
  destruct t1 as [| c2 t2]; [discriminate |].
  destruct (isspace2 c1 c2) eqn:E2.
  { intros H. right. right. left. exists c1, c2, t2. auto. }
  destruct t2 as [| c3 t3]; [discriminate |].
  destruct (isspace3 c1 c2 c3) eqn:E3; [| discriminate].
  intros H. right. right. right. exists c1, c2, c3, t3. auto.
Qed.

Lemma lstrip_all_space_bounded (n : nat) (lead x : string) :
  (String.length lead <= n)%nat ->
  all_space lead = true -> lstrip (lead ++ x) = lstrip x.
Proof.
  revert lead. induction n as [| n IH]; intros lead Hn H.
  - destruct lead; [reflexivity | simpl in Hn; lia].
  - destruct (all_space_cases lead H)
      as [-> | [(c1 & t & -> & E1 & Ht)
             | [(c1 & c2 & t & -> & E1 & E2 & Ht)
               | (c1 & c2 & c3 & t & -> & E1 & E2 & E3 & Ht)]]];
      [reflexivity | | |]; simpl in Hn; cbn [append lstrip].
    + rewrite E1. apply IH; [lia | exact Ht].
    + rewrite E1, E2. apply IH; [lia | exact Ht].
    + rewrite E1, E2, E3. apply IH; [lia | exact Ht].
Qed.

Lemma lstrip_all_space (lead x : string) :
  all_space lead = true -> lstrip (lead ++ x) = lstrip x.
Proof.
  apply (lstrip_all_space_bounded (String.length lead)). apply Nat.le_refl.
Qed.

Lemma lstrip_reversed_all_space_bounded (n : nat) (trail y : string) :
  (String.length trail <= n)%nat ->
  all_space trail = true ->
  lstrip_reversed (string_rev trail ++ y) = lstrip_reversed y.
Proof.
  revert trail y. induction n as [| n IH]; intros trail y Hn H.
  - destruct trail; [reflexivity | simpl in Hn; lia].
  - destruct (all_space_cases trail H)
      as [-> | [(c1 & t & -> & E1 & Ht)
             | [(c1 & c2 & t & -> & E1 & E2 & Ht)
               | (c1 & c2 & c3 & t & -> & E1 & E2 & E3 & Ht)]]];
      [reflexivity | | |]; simpl in Hn.
    + rewrite string_rev_cons, append_assoc. cbn [append].
      rewrite IH by (lia || exact Ht).
      cbn [lstrip_reversed]. rewrite E1. reflexivity.
    + rewrite !string_rev_cons, !append_assoc. cbn [append].
      rewrite IH by (lia || exact Ht).
      cbn [lstrip_reversed]. rewrite (isspace2_last c1 c2 E2), E2. reflexivity.
    + rewrite !string_rev_cons, !append_assoc. cbn [append].
      rewrite IH by (lia || exact Ht).
      destruct (isspace3_last c1 c2 c3 E3) as [F1 F2].
      cbn [lstrip_reversed]. rewrite F1, F2, E3. reflexivity.
Qed.

Lemma lstrip_reversed_all_space (trail y : string) :
  all_space trail = true ->
  lstrip_reversed (string_rev trail ++ y) = lstrip_reversed y.
Proof.
  apply (lstrip_reversed_all_space_bounded (String.length trail)). apply Nat.le_refl.
Qed.

Lemma prefix_app (p s : string) : String.prefix p (p ++ s) = true.
Proof.
  induction p as [| ch p IH]; simpl.
  - destruct s; reflexivity.
  - destruct (ascii_dec ch ch) as [_ | H]; [exact IH | contradiction].
Qed.

Lemma strip_fenced (lead trail open_fence body : string) :
  all_space lead = true -> all_space trail = true ->
  strip (lead ++ ("```" ++ open_fence ++ body ++ "```") ++ trail)
  = ("```" ++ open_fence ++ body ++ "```")%string.
Proof.
  intros Hlead Htrail. unfold strip, rstrip.
  rewrite (lstrip_all_space lead _ Hlead).
  change (lstrip (("```" ++ open_fence ++ body ++ "```") ++ trail))
    with (("```" ++ open_fence ++ body ++ "```") ++ trail)%string.
  rewrite string_rev_app, (lstrip_reversed_all_space trail _ Htrail).
  change ("```" ++ open_fence ++ body ++ "```")%string
    with ("```" ++ (open_fence ++ body ++ "```"))%string at 1.
  rewrite <- (append_assoc open_fence body "```"), <- append_assoc.
  rewrite (string_rev_app _ "```").
  change (lstrip_reversed (string_rev "```" ++ string_rev ("```" ++ open_fence ++ body)))
    with (string_rev "```" ++ string_rev ("```" ++ open_fence ++ body))%string.
  rewrite <- string_rev_app, string_rev_involutive, !append_assoc. reflexivity.
Qed.

Lemma unfence_tail (body : string) :
  endswith "```" (body ++ "```") = true
  /\ drop_last 3 (body ++ "```") = body.
Proof.
  unfold endswith, drop_last. rewrite string_rev_app.
  change (string_rev "```") with "```".
  split; [apply prefix_app |].
  change (drop 3 ("```" ++ string_rev body)) with (string_rev body).
  apply string_rev_involutive.
Qed.

Lemma clean_response_fenced_grouped (lead trail body : string) :
  all_space lead = true -> all_space trail = true ->
  clean_response (lead ++ ("```" ++ "json" ++ body ++ "```") ++ trail) = strip body
  /\ (startswith "json" body = false ->
      clean_response (lead ++ ("```" ++ "" ++ body ++ "```") ++ trail) = strip body).
Proof.
  intros Hlead Htrail. destruct (unfence_tail body) as [Hend Hdrop]. split.
  - unfold clean_response. rewrite (strip_fenced lead trail "json" body Hlead Htrail).
    change (startswith "```json" ("```" ++ "json" ++ body ++ "```")) with
      (String.prefix "" (body ++ "```")).
    replace (String.prefix "" (body ++ "```")) with true
      by (destruct (body ++ "```")%string; reflexivity).
    change (drop 7 ("```" ++ "json" ++ body ++ "```")) with (body ++ "```")%string.
    rewrite Hend, Hdrop. reflexivity.
  - intros Hjson. unfold clean_response.
    rewrite (strip_fenced lead trail "" body Hlead Htrail).
    assert (E : startswith "```json" ("```" ++ "" ++ body ++ "```") = false).
    { change (startswith "```json" ("```" ++ "" ++ body ++ "```"))
        with (String.prefix "json" (body ++ "```")).
      unfold startswith in Hjson. revert Hjson. clear.
      destruct body as [| c1 body]; [reflexivity |]. cbn [String.prefix append].
      destruct (ascii_dec "j" c1); [| reflexivity].
      destruct body as [| c2 body]; [reflexivity |]. cbn [String.prefix append].
      destruct (ascii_dec "s" c2); [| reflexivity].
      destruct body as [| c3 body]; [reflexivity |]. cbn [String.prefix append].
      destruct (ascii_dec "o" c3); [| reflexivity].
      destruct body as [| c4 body]; [reflexivity |]. cbn [String.prefix append].
      destruct (ascii_dec "n" c4); [| reflexivity].
      destruct body; intros H; discriminate H. }
    rewrite E.
    change (startswith "```" ("```" ++ "" ++ body ++ "```")) with
      (String.prefix "" (body ++ "```")).
    replace (String.prefix "" (body ++ "```")) with true
      by (destruct (body ++ "```")%string; reflexivity).
    change (drop 3 ("```" ++ "" ++ body ++ "```")) with (body ++ "```")%string.
    rewrite Hend, Hdrop. reflexivity.
Qed.

(** X16. An answer wrapped in a code fence, with or without the [json] tag and
    with whitespace around the fence, is cleaned to the text inside the
    fence, stripped.  Whitespace is what [str.strip()] removes, the
    characters beyond ASCII included. *)
Theorem clean_response_fenced (lead trail body : string) :
  all_space lead = true -> all_space trail = true ->
  clean_response (lead ++ "```json" ++ body ++ "```" ++ trail) = strip body
  /\ (startswith "json" body = false ->
      clean_response (lead ++ "```" ++ body ++ "```" ++ trail) = strip body).
Proof.
  intros Hlead Htrail.
  destruct (clean_response_fenced_grouped lead trail body Hlead Htrail) as [H1 H2].
  rewrite <- (append_assoc body "```" trail). split.
  - exact H1.
  - exact H2.
Qed.

(** ** The HTTP-backed tools *)

Lemma bind_arguments_raises (fname : string) (required : list string)
    (optional : list (string * value)) (params : value) (e : exn) :
  bind_arguments fname required optional params = Raise e ->
  exists msg, e = TypeError msg.
Proof.
  unfold bind_arguments.
  destruct params as [| | | | | | kw];
    try (intros H; injection H as <-; eexists; reflexivity).
  destruct (find _ (keys kw)) as [k |].
  - destruct (k =? "self")%string; intros H; injection H as <-; eexists; reflexivity.
  - destruct (filter _ required); [discriminate |].
    intros H; injection H as <-; eexists; reflexivity.
Qed.

Lemma py_index_raises (v : value) (e : exn) :
  py_index v = Raise e -> exists msg, e = TypeError msg.
Proof.
  destruct v; simpl; try discriminate; intros H; injection H as <-; eexists; reflexivity.
Qed.

Lemma min_100_raises (v : value) (e : exn) :
  min_100 v = Raise e -> exists msg, e = TypeError msg.
Proof.
  destruct v; simpl; try discriminate; intros H; injection H as <-; eexists; reflexivity.
Qed.

Ltac step_exc :=
  match goal with
  | |- context [match ?x with Ok _ => _ | Raise _ => _ end] =>
      destruct x; try discriminate
  end.

Lemma weather_data_of_ok (data units v : value) :
  weather_data_of data units = Ok v ->
  exists d,
    v = VDict d
    /\ keys d = ["city"; "country"; "temperature"; "feels_like"; "condition";
                 "description"; "humidity"; "pressure"; "wind_speed"; "units"].
Proof.
  unfold weather_data_of, exc_bind. repeat step_exc.
  intros H. injection H as <-. eexists. split; reflexivity.
Qed.

Lemma weather_attempts_spec (remaining : nat) (attempt retry_count : Z)
    (city units : value) (key : string) (w : World) :
  Z.of_nat remaining = Z.max 0 (retry_count - attempt) ->
  exists v k w',
    weather_attempts remaining attempt retry_count city units key w = (Ok v, w')
    /\ weather_result v
    /\ (k <= remaining)%nat
    /\ ((0 < remaining)%nat -> (1 <= k)%nat)
    /\ after_requests WEATHER_BASE_URL []
         [("q", city); ("appid", VStr key); ("units", units)] k w w'.
Proof.
  revert attempt w. induction remaining as [| remaining IH]; intros attempt w Hrem.
  - exists (WeatherTool_fallback_response "Max retries exceeded"), 0%nat, w.
    repeat split; try lia; [left; eexists; reflexivity | constructor].
  - cbn [weather_attempts].
    destruct (requests_get WEATHER_BASE_URL []
                [("q", city); ("appid", VStr key); ("units", units)] w) as [o w1] eqn:Hreq.
    assert (Hnow : forall v, weather_result v ->
              exists v' k w',
                (Ok v, w1) = (Ok v', w')
                /\ weather_result v'
                /\ (k <= S remaining)%nat
                /\ ((0 < S remaining)%nat -> (1 <= k)%nat)
                /\ after_requests WEATHER_BASE_URL []
                     [("q", city); ("appid", VStr key); ("units", units)] k w w').
    { intros v Hv. exists v, 1%nat, w1.
      repeat split; try lia; [exact Hv | econstructor; exact Hreq]. }
    assert (Hagain : forall error_msg,
              exists v k w',
                (if attempt <? retry_count - 1
                 then fun w0 =>
                        weather_attempts remaining (attempt + 1) retry_count city units key
                          (sleep 1 w0)
                 else ret (WeatherTool_fallback_response error_msg)) w1 = (Ok v, w')
                /\ weather_result v
                /\ (k <= S remaining)%nat
                /\ ((0 < S remaining)%nat -> (1 <= k)%nat)
                /\ after_requests WEATHER_BASE_URL []
                     [("q", city); ("appid", VStr key); ("units", units)] k w w').
    { intros error_msg. destruct (Z.ltb_spec attempt (retry_count - 1)) as [Hlt | Hge].
      - destruct (IH (attempt + 1) (sleep 1 w1)) as (v & k & w' & E & Hv & Hk & Hpos & Hreqs);
          [lia |].
        assert (1 <= k)%nat by (apply Hpos; lia).
        destruct k as [| k]; [lia |].
        exists v, (S (S k)), w'. repeat split; try lia; try assumption.
        econstructor; eassumption.
      - apply Hnow. left. eexists. reflexivity. }
    destruct o as [response | msg | e].
    + destruct (status_code response =? 200).
      * destruct (exc_bind (json response) (fun data => weather_data_of data units))
          as [weather_data | e] eqn:E.
        -- apply Hnow. right.
           unfold exc_bind in E. destruct (json response); [| discriminate E].
           apply weather_data_of_ok in E. exact E.
        -- apply Hagain.
      * destruct (status_code response =? 404);
          [apply Hnow; left; eexists; reflexivity |].
        destruct (status_code response =? 401);
          [apply Hnow; left; eexists; reflexivity | apply Hagain].
    + apply Hagain.
    + apply Hagain.
Qed.

Lemma weather_result_failed (v : value) :
  weather_result v ->
  outcome_shape v = true
  /\ ((exists msg, v = WeatherTool_fallback_response msg) -> outcome_failed v = Ok true)
  /\ ((forall msg, v <> WeatherTool_fallback_response msg) -> outcome_failed v = Ok false).
Proof.
  intros [[msg ->] | (d & -> & Hkeys)].
  - split; [reflexivity |]. split; [reflexivity |].
    intros H. exfalso. exact (H msg eq_refl).
  - split; [reflexivity |].
    assert (Hnone : dict_get "error" d = None).
    { apply dict_get_none. rewrite Hkeys. simpl.
      intros H. repeat (destruct H as [H | H]; [discriminate H |]). exact H. }
    split.
    + intros [msg E]. injection E as ->. discriminate Hnone.
    + intros _. unfold outcome_failed, dict_get_or. rewrite Hnone. reflexivity.
Qed.

(** X17. [get_weather] never raises anything but the [TypeError] of a call it
    cannot bind; what it returns is either a fallback response, which the
    executor counts as failed, or the ten-field weather mapping, which has
    no [error] field and is never counted as failed. *)
Theorem get_weather_outcomes (params : value) (w w' : World) (o : exc value) :
  WeatherTool_get_weather params w = (o, w') ->
  (exists msg, o = Raise (TypeError msg))
  \/ (exists msg,
        o = Ok (WeatherTool_fallback_response msg)
        /\ outcome_failed (WeatherTool_fallback_response msg) = Ok true)
  \/ (exists d,
        o = Ok (VDict d)
        /\ keys d = ["city"; "country"; "temperature"; "feels_like"; "condition";
                     "description"; "humidity"; "pressure"; "wind_speed"; "units"]
        /\ outcome_failed (VDict d) = Ok false).
Proof.
  unfold WeatherTool_get_weather, bind, lift_exc, ret.
  destruct (bind_arguments _ _ _ params) as [args | e] eqn:Hb.
  2:{ intros H. injection H as <- _. left.
      destruct (bind_arguments_raises _ _ _ _ _ Hb) as [msg ->]. eexists. reflexivity. }
  assert (Hfb : forall msg, (Ok (WeatherTool_fallback_response msg), w) = (o, w') ->
            (exists msg, o = Raise (TypeError msg))
            \/ (exists msg,
                  o = Ok (WeatherTool_fallback_response msg)
                  /\ outcome_failed (WeatherTool_fallback_response msg) = Ok true)
            \/ (exists d,
                  o = Ok (VDict d)
                  /\ keys d = ["city"; "country"; "temperature"; "feels_like"; "condition";
                               "description"; "humidity"; "pressure"; "wind_speed"; "units"]
                  /\ outcome_failed (VDict d) = Ok false)).
  { intros msg H. injection H as <- _. right. left. exists msg. split; reflexivity. }
  destruct weather_api_key as [key |]; [| apply Hfb].
  destruct (configured (Some key)); [| apply Hfb].
  destruct (py_index (dict_get_or "retry_count" args VNone)) as [n | e] eqn:Hn.
  2:{ intros H. injection H as <- _. left.
      destruct (py_index_raises _ _ Hn) as [msg ->]. eexists. reflexivity. }
  destruct (weather_attempts_spec (Z.to_nat n) 0 n (dict_get_or "city" args VNone)
              (dict_get_or "units" args VNone) key w)
    as (v & k & w1 & E & Hv & _); [lia |].
  rewrite E. intros H. injection H as <- _.
  destruct (weather_result_failed v Hv) as (_ & Hfail & Hok).
  destruct Hv as [[msg ->] | (d & -> & Hkeys)].
  - right. left. exists msg. split; [reflexivity | apply Hfail; eauto].
  - right. right. exists d. repeat split; try assumption.
    apply Hok. intros msg E'. injection E' as ->. discriminate Hkeys.
Qed.

(** X18. With an API key, [get_weather] makes at most [retry_count] requests, all
    to the same endpoint with the same parameters, and at least one when
    [retry_count] is positive; without a key it makes none. *)
Theorem get_weather_request_bound (params : value) (args : dict) (w : World) :
  bind_arguments "WeatherTool.get_weather" ["city"]
    [("units", VStr "metric"); ("retry_count", VInt 3)] params = Ok args ->
  (configured weather_api_key = false ->
   WeatherTool_get_weather params w
   = (Ok (WeatherTool_fallback_response "API key not configured"), w))
  /\ (forall key n,
        weather_api_key = Some key -> configured weather_api_key = true ->
        py_index (dict_get_or "retry_count" args VNone) = Ok n ->
        exists v k w',
          WeatherTool_get_weather params w = (Ok v, w')
          /\ (Z.of_nat k <= Z.max 0 n)
          /\ (0 < n -> (1 <= k)%nat)
          /\ after_requests WEATHER_BASE_URL []
               [("q", dict_get_or "city" args VNone); ("appid", VStr key);
                ("units", dict_get_or "units" args VNone)] k w w').
Proof.
  intros Hb. unfold WeatherTool_get_weather, bind, lift_exc, ret. rewrite Hb. split.
  - intros Hc. destruct weather_api_key as [key |]; [rewrite Hc |]; reflexivity.
  - intros key n -> Hc Hn. rewrite Hc, Hn.
    destruct (weather_attempts_spec (Z.to_nat n) 0 n (dict_get_or "city" args VNone)
                (dict_get_or "units" args VNone) key w)
      as (v & k & w1 & E & _ & Hk & Hpos & Hreqs); [lia |].
    exists v, k, w1. repeat split; try assumption; [lia |].
    intros Hn0. apply Hpos. lia.
Qed.

Lemma repo_of_item_ok (item v : value) :
  repo_of_item item = Ok v ->
  exists d,
    v = VDict d
    /\ keys d = ["name"; "stars"; "description"; "url"; "language"; "forks"].
Proof.
  unfold repo_of_item, exc_bind. repeat step_exc.
  intros H. injection H as <-. eexists. split; reflexivity.
Qed.

Lemma map_exc_ok {A B : Type} (f : A -> exc B) (xs : list A) (ys : list B) :
  map_exc f xs = Ok ys -> Forall2 (fun x y => f x = Ok y) xs ys.
Proof.
  revert ys. induction xs as [| x xs IH]; intros ys; cbn [map_exc]; unfold exc_bind.
  - intros H. injection H as <-. constructor.
  - destruct (f x) as [y | e] eqn:E; [| discriminate].
    destruct (map_exc f xs) as [ys' | e]; [| discriminate].
    intros H. injection H as <-. constructor; [exact E | apply IH; reflexivity].
Qed.

Lemma take_length {A : Type} (n : Z) (xs : list A) :
  0 <= n -> Z.of_nat (List.length (take n xs)) <= n.
Proof.
  intros Hn. unfold take. destruct (Z.ltb_spec n 0) as [H | _]; [lia |].
  pose proof (firstn_le_length (Z.to_nat n) xs) as H. lia.
Qed.

Lemma slice_items_length (v : value) (n : Z) (xs : list value) :
  slice_items v (VInt n) = Ok xs -> 0 <= n -> Z.of_nat (List.length xs) <= n.
Proof.
  destruct v as [| | | | s | l | d]; simpl; try discriminate;
    intros H Hn; injection H as <-; apply take_length, Hn.
Qed.

Lemma repos_of_data_ok (data limit v : value) :
  repos_of_data data limit = Ok v -> search_result limit v.
Proof.
  unfold repos_of_data, exc_bind.
  destruct (attr_get data "items" (VList [])) as [items | e]; [| discriminate].
  destruct (slice_items items limit) as [sliced | e] eqn:Hs; [| discriminate].
  destruct (map_exc repo_of_item sliced) as [repos | e] eqn:Hm; [| discriminate].
  intros H. injection H as <-. right. exists repos.
  apply map_exc_ok in Hm. split; [reflexivity |]. split.
  - clear Hs. induction Hm as [| item repo sliced repos Hr Hm IH]; constructor.
    + apply repo_of_item_ok in Hr. exact Hr.
    + exact IH.
  - intros n -> Hn. rewrite <- (Forall2_length Hm).
    eapply slice_items_length; eassumption.
Qed.

Lemma search_attempts_spec (remaining : nat) (attempt retry_count : Z)
    (limit : value) (params : dict) (w : World) :
  Z.of_nat remaining = Z.max 0 (retry_count - attempt) ->
  exists v k w',
    search_attempts remaining attempt retry_count limit params w = (Ok v, w')
    /\ search_result limit v
    /\ (k <= remaining)%nat
    /\ ((0 < remaining)%nat -> (1 <= k)%nat)
    /\ after_requests (GITHUB_BASE_URL ++ "/search/repositories") github_headers params
         k w w'.
Proof.
  revert attempt w. induction remaining as [| remaining IH]; intros attempt w Hrem.
  - exists (GitHubTool_fallback_response "Max retries exceeded"), 0%nat, w.
    repeat split; try lia; [left; eexists; reflexivity | constructor].
  - cbn [search_attempts].
    destruct (requests_get (GITHUB_BASE_URL ++ "/search/repositories") github_headers
                params w) as [o w1] eqn:Hreq.
    assert (Hnow : forall v, search_result limit v ->
              exists v' k w',
                (Ok v, w1) = (Ok v', w')
                /\ search_result limit v'
                /\ (k <= S remaining)%nat
                /\ ((0 < S remaining)%nat -> (1 <= k)%nat)
                /\ after_requests (GITHUB_BASE_URL ++ "/search/repositories")
                     github_headers params k w w').
    { intros v Hv. exists v, 1%nat, w1.
      repeat split; try lia; [exact Hv | econstructor; exact Hreq]. }
    assert (Hagain : forall pause error_msg,
              exists v k w',
                (if attempt <? retry_count - 1
                 then fun w0 =>
                        search_attempts remaining (attempt + 1) retry_count limit params
                          (sleep pause w0)
                 else ret (GitHubTool_fallback_response error_msg)) w1 = (Ok v, w')
                /\ search_result limit v
                /\ (k <= S remaining)%nat
                /\ ((0 < S remaining)%nat -> (1 <= k)%nat)
                /\ after_requests (GITHUB_BASE_URL ++ "/search/repositories")
                     github_headers params k w w').
    { intros pause error_msg.
      destruct (Z.ltb_spec attempt (retry_count - 1)) as [Hlt | Hge].
      - destruct (IH (attempt + 1) (sleep pause w1))
          as (v & k & w' & E & Hv & Hk & Hpos & Hreqs); [lia |].
        assert (1 <= k)%nat by (apply Hpos; lia).
        destruct k as [| k]; [lia |].
        exists v, (S (S k)), w'. repeat split; try lia; try assumption.
        econstructor; eassumption.
      - apply Hnow. left. eexists. reflexivity. }
    destruct o as [response | msg | e].
    + destruct (status_code response =? 200).
      * destruct (exc_bind (json response) (fun data => repos_of_data data limit))
          as [repos | e] eqn:E.
        -- apply Hnow.
           unfold exc_bind in E. destruct (json response); [| discriminate E].
           apply repos_of_data_ok in E. exact E.
        -- apply Hagain.
      * destruct (status_code response =? 403); apply Hagain.
    + apply Hagain.
    + apply Hagain.
Qed.

Lemma search_result_failed (limit v : value) :
  search_result limit v ->
  outcome_shape v = true
  /\ ((exists msg, v = GitHubTool_fallback_response msg) -> outcome_failed v = Ok true)
  /\ ((forall msg, v <> GitHubTool_fallback_response msg) -> outcome_failed v = Ok false).
Proof.
  intros [[msg ->] | (repos & -> & Hrepos & _)].
  - split; [reflexivity |]. split; [reflexivity |].
    intros H. exfalso. exact (H msg eq_refl).
  - assert (Hshape : outcome_shape (VList repos) = true).
    { simpl. apply forallb_forall. intros repo Hin.
      rewrite Forall_forall in Hrepos. destruct (Hrepos repo Hin) as (d & -> & _).
      reflexivity. }
    assert (Hok : outcome_failed (VList repos) = Ok false).
    { destruct Hrepos as [| repo repos (d & -> & Hkeys) _]; [reflexivity |].
      simpl. unfold dict_get_or.
      assert (Hnone : dict_get "error" d = None).
      { apply dict_get_none. rewrite Hkeys. simpl.
        intros H. repeat (destruct H as [H | H]; [discriminate H |]). exact H. }
      rewrite Hnone. reflexivity. }
    split; [exact Hshape |]. split; [| intros _; exact Hok].
    intros [msg E]. injection E as ->. inversion Hrepos as [| ? ? (d & Ed & Hkeys) _].
    injection Ed as <-. discriminate Hkeys.
Qed.

(** X19. [search_repos] never raises anything but a [TypeError] (a call it cannot
    bind, a [limit] that does not compare with 100, a [retry_count] that is
    no integer).  What it returns is either the fallback response, which the
    executor counts as failed, or a list of six-field repository mappings,
    never counted as failed and no longer than a non-negative [limit]. *)
Theorem search_repos_outcomes (params : value) (w w' : World) (o : exc value) :
  GitHubTool_search_repos params w = (o, w') ->
  (exists msg, o = Raise (TypeError msg))
  \/ (exists msg,
        o = Ok (GitHubTool_fallback_response msg)
        /\ outcome_failed (GitHubTool_fallback_response msg) = Ok true)
  \/ (exists repos,
        o = Ok (VList repos)
        /\ Forall (fun repo =>
                     exists d,
                       repo = VDict d
                       /\ keys d = ["name"; "stars"; "description"; "url";
                                    "language"; "forks"]) repos
        /\ outcome_failed (VList repos) = Ok false
        /\ forall args n,
             bind_arguments "GitHubTool.search_repos" ["query"]
               [("limit", VInt 5); ("sort", VStr "stars");
                ("order", VStr "desc"); ("retry_count", VInt 3)] params = Ok args ->
             dict_get_or "limit" args VNone = VInt n -> 0 <= n ->
             Z.of_nat (List.length repos) <= n).
Proof.
  unfold GitHubTool_search_repos, bind, lift_exc.
  destruct (bind_arguments _ _ _ params) as [args | e] eqn:Hb.
  2:{ intros H. injection H as <- _. left.
      destruct (bind_arguments_raises _ _ _ _ _ Hb) as [msg ->]. eexists. reflexivity. }
  destruct (min_100 (dict_get_or "limit" args VNone)) as [per_page | e] eqn:Hmin.
  2:{ intros H. injection H as <- _. left.
      destruct (min_100_raises _ _ Hmin) as [msg ->]. eexists. reflexivity. }
  destruct (py_index (dict_get_or "retry_count" args VNone)) as [n | e] eqn:Hn.
  2:{ intros H. injection H as <- _. left.
      destruct (py_index_raises _ _ Hn) as [msg ->]. eexists. reflexivity. }
  match goal with
  | |- search_attempts ?rem ?a ?rc ?lim ?ps w = _ -> _ =>
      destruct (search_attempts_spec rem a rc lim ps w)
        as (v & k & w1 & E & Hv & _); [lia |]
  end.
  rewrite E. intros H. injection H as <- _.
  destruct (search_result_failed _ v Hv) as (_ & Hfail & Hok).
  destruct Hv as [[msg ->] | (repos & -> & Hrepos & Hlen)].
  - right. left. exists msg. split; [reflexivity | apply Hfail; eauto].
  - right. right. exists repos. split; [reflexivity |]. split; [exact Hrepos |]. split.
    + apply Hok. intros msg E'. injection E' as ->.
      inversion Hrepos as [| ? ? (d & Ed & Hkeys) _].
      injection Ed as <-. discriminate Hkeys.
    + intros args' n' Hb' Hl Hn'. injection Hb' as <-. apply Hlen; assumption.
Qed.

(** X20. [search_repos] makes at most [retry_count] requests, all to the search
    endpoint with the same headers and parameters, and at least one when
    [retry_count] is positive. *)
Theorem search_repos_request_bound (params : value) (args : dict) (w : World)
    (per_page : value) (n : Z) :
  bind_arguments "GitHubTool.search_repos" ["query"]
    [("limit", VInt 5); ("sort", VStr "stars");
     ("order", VStr "desc"); ("retry_count", VInt 3)] params = Ok args ->
  min_100 (dict_get_or "limit" args VNone) = Ok per_page ->
  py_index (dict_get_or "retry_count" args VNone) = Ok n ->
  exists v k w',
    GitHubTool_search_repos params w = (Ok v, w')
    /\ Z.of_nat k <= Z.max 0 n
    /\ (0 < n -> (1 <= k)%nat)
    /\ after_requests (GITHUB_BASE_URL ++ "/search/repositories") github_headers
         [("q", dict_get_or "query" args VNone);
          ("sort", dict_get_or "sort" args VNone);
          ("order", dict_get_or "order" args VNone);
          ("per_page", per_page)] k w w'.
Proof.
  intros Hb Hmin Hn. unfold GitHubTool_search_repos, bind, lift_exc.
  rewrite Hb, Hmin, Hn.
  match goal with
  | |- exists v k w', search_attempts ?rem ?a ?rc ?lim ?ps w = _ /\ _ =>
      destruct (search_attempts_spec rem a rc lim ps w)
        as (v & k & w1 & E & _ & Hk & Hpos & Hreqs); [lia |]
  end.
  exists v, k, w1. repeat split; try assumption; [lia |].
  intros Hn0. apply Hpos. lia.
Qed.

Lemma repo_info_of_ok (data v : value) :
  repo_info_of data = Ok v ->
  exists d,
    v = VDict d
    /\ keys d = ["name"; "stars"; "description"; "url"; "language"; "forks";
                 "open_issues"; "created_at"; "updated_at"].
Proof.
  unfold repo_info_of, exc_bind. repeat step_exc.
  intros H. injection H as <-. eexists. split; reflexivity.
Qed.

(** X21. [get_repo_info] never raises anything but the [TypeError] of a call it
    cannot bind, in which case it makes no request; otherwise it makes
    exactly one.  It returns the nine-field repository mapping, never counted
    as failed, or a mapping [{error: text}], which the executor counts as
    failed exactly when the text is not empty. *)
Theorem get_repo_info_outcomes (params : value) (w w' : World) (o : exc value) :
  GitHubTool_get_repo_info params w = (o, w') ->
  (exists msg, o = Raise (TypeError msg) /\ w' = w)
  \/ (exists url,
        after_requests url github_headers [] 1 w w'
        /\ ((exists msg,
               o = Ok (VDict [("error", VStr msg)])
               /\ outcome_failed (VDict [("error", VStr msg)])
                  = Ok (negb (msg =? "")%string))
            \/ (exists d,
                  o = Ok (VDict d)
                  /\ keys d = ["name"; "stars"; "description"; "url"; "language";
                               "forks"; "open_issues"; "created_at"; "updated_at"]
                  /\ outcome_failed (VDict d) = Ok false))).
Proof.
  unfold GitHubTool_get_repo_info, bind, lift_exc.
  destruct (bind_arguments _ _ _ params) as [args | e] eqn:Hb.
  2:{ intros H. injection H as <- <-. left.
      destruct (bind_arguments_raises _ _ _ _ _ Hb) as [msg ->].
      eexists. split; reflexivity. }
  match goal with
  | |- match requests_get ?url ?h ?ps w with _ => _ end = _ -> _ => set (u := url)
  end.
  destruct (requests_get u github_headers [] w) as [ho w1] eqn:Hreq.
  intros H. right. exists u.
  assert (Herr : forall msg, (Ok (VDict [("error", VStr msg)]), w1) = (o, w') ->
            after_requests u github_headers [] 1 w w'
            /\ ((exists msg,
                   o = Ok (VDict [("error", VStr msg)])
                   /\ outcome_failed (VDict [("error", VStr msg)])
                      = Ok (negb (msg =? "")%string))
                \/ (exists d,
                      o = Ok (VDict d)
                      /\ keys d = ["name"; "stars"; "description"; "url"; "language";
                                   "forks"; "open_issues"; "created_at"; "updated_at"]
                      /\ outcome_failed (VDict d) = Ok false))).
  { intros msg E. injection E as <- <-. split; [econstructor; exact Hreq |].
    left. exists msg. split; reflexivity. }
  destruct ho as [response | msg | e]; try (eapply Herr; exact H).
  destruct (status_code response =? 200); [| eapply Herr; exact H].
  destruct (exc_bind (json response) (fun data => repo_info_of data)) as [info | e] eqn:E;
    [| eapply Herr; exact H].
  injection H as <- <-. split; [econstructor; exact Hreq |]. right.
  unfold exc_bind in E. destruct (json response); [| discriminate E].
  apply repo_info_of_ok in E as (d & -> & Hkeys).
  exists d. split; [reflexivity |]. split; [exact Hkeys |].
  assert (Hnone : dict_get "error" d = None).
  { apply dict_get_none. rewrite Hkeys. simpl.
    intros H. repeat (destruct H as [H | H]; [discriminate H |]). exact H. }
  unfold outcome_failed, dict_get_or. rewrite Hnone. reflexivity.
Qed.

Lemma get_weather_contract (params : value) (w w' : World) (o : exc value) :
  WeatherTool_get_weather params w = (o, w') ->
  match o with
  | Ok v => outcome_shape v = true
  | Raise e => exists msg, e = TypeError msg
  end.
Proof.
  unfold WeatherTool_get_weather, bind, lift_exc, ret.
  destruct (bind_arguments _ _ _ params) as [args | e] eqn:Hb.
  2:{ intros H. injection H as <- _. eapply bind_arguments_raises, Hb. }
  destruct weather_api_key as [key |];
    [| intros H; injection H as <- _; reflexivity].
  destruct (configured (Some key));
    [| intros H; injection H as <- _; reflexivity].
  destruct (py_index (dict_get_or "retry_count" args VNone)) as [n | e] eqn:Hn.
  2:{ intros H. injection H as <- _. eapply py_index_raises, Hn. }
  destruct (weather_attempts_spec (Z.to_nat n) 0 n (dict_get_or "city" args VNone)
              (dict_get_or "units" args VNone) key w)
    as (v & k & w1 & E & Hv & _); [lia |].
  rewrite E. intros H. injection H as <- _.
  apply (weather_result_failed v Hv).
Qed.

Lemma search_repos_contract (params : value) (w w' : World) (o : exc value) :
  GitHubTool_search_repos params w = (o, w') ->
  match o with
  | Ok v => outcome_shape v = true
  | Raise e => exists msg, e = TypeError msg
  end.
Proof.
  unfold GitHubTool_search_repos, bind, lift_exc.
  destruct (bind_arguments _ _ _ params) as [args | e] eqn:Hb.
  2:{ intros H. injection H as <- _. eapply bind_arguments_raises, Hb. }
  destruct (min_100 (dict_get_or "limit" args VNone)) as [per_page | e] eqn:Hmin.
  2:{ intros H. injection H as <- _. eapply min_100_raises, Hmin. }
  destruct (py_index (dict_get_or "retry_count" args VNone)) as [n | e] eqn:Hn.
  2:{ intros H. injection H as <- _. eapply py_index_raises, Hn. }
  match goal with
  | |- search_attempts ?rem ?a ?rc ?lim ?ps w = _ -> _ =>
      destruct (search_attempts_spec rem a rc lim ps w)
        as (v & k & w1 & E & Hv & _); [lia |]
  end.
  rewrite E. intros H. injection H as <- _.
  apply (search_result_failed _ v Hv).
Qed.

Lemma get_repo_info_contract (params : value) (w w' : World) (o : exc value) :
  GitHubTool_get_repo_info params w = (o, w') ->
  match o with
  | Ok v => outcome_shape v = true
  | Raise e => exists msg, e = TypeError msg
  end.
Proof.
  unfold GitHubTool_get_repo_info, bind, lift_exc.
  destruct (bind_arguments _ _ _ params) as [args | e] eqn:Hb.
  2:{ intros H. injection H as <- _. eapply bind_arguments_raises, Hb. }
  match goal with
  | |- match ?x with _ => _ end = _ -> _ => destruct x as [ho w1]
  end.
  destruct ho as [response | msg | e];
    try (intros H; injection H as <- _; reflexivity).
  destruct (status_code response =? 200);
    [| intros H; injection H as <- _; reflexivity].
  destruct (exc_bind (json response) (fun data => repo_info_of data)) as [info | e] eqn:E;
    [| intros H; injection H as <- _; reflexivity].
  intros H. injection H as <- _.
  unfold exc_bind in E. destruct (json response); [| discriminate E].
  apply repo_info_of_ok in E as (d & -> & _). reflexivity.
Qed.

Lemma get_weather_forecast_raises (params : value) (w w' : World) (e : exn) :
  get_weather_forecast params w = (Raise e, w') -> exists msg, e = TypeError msg.
Proof.
  unfold get_weather_forecast, raise, ret.
  destruct params as [| | | | | | kw];
    try (intros H; injection H as <- _; eexists; reflexivity).
  destruct (find _ (keys kw)); [intros H; injection H as <- _; eexists; reflexivity |].
  destruct (dict_get "city" kw); [discriminate |].
  intros H; injection H as <- _; eexists; reflexivity.
Qed.

Lemma tools_raise_type_errors_only_intro :
  (forall params w e w', search_repos params w = (Raise e, w') ->
                         exists msg, e = TypeError msg) ->
  (forall params w e w', get_repo_info params w = (Raise e, w') ->
                         exists msg, e = TypeError msg) ->
  (forall params w e w', get_weather params w = (Raise e, w') ->
                         exists msg, e = TypeError msg) ->
  tools_raise_type_errors_only.
Proof.
  intros H1 H2 H3 t a acts m Ht Ha.
  unfold action_map in Ht. cbn -[String.eqb] in Ht.
  destruct (String.eqb_spec "github" t) as [_ | _].
  - injection Ht as <-. cbn -[String.eqb] in Ha.
    destruct (String.eqb_spec "search_repos" a) as [_ | _];
      [injection Ha as <-; exact H1 |].
    destruct (String.eqb_spec "get_repo_info" a) as [_ | _];
      [injection Ha as <-; exact H2 | discriminate Ha].
  - destruct (String.eqb_spec "weather" t) as [_ | _]; [| discriminate Ht].
    injection Ht as <-. cbn -[String.eqb] in Ha.
    destruct (String.eqb_spec "get_weather" a) as [_ | _];
      [injection Ha as <-; exact H3 |].
    destruct (String.eqb_spec "get_forecast" a) as [_ | _];
      [injection Ha as <- | discriminate Ha].
    intros params w e w'. apply get_weather_forecast_raises.
Qed.

Lemma execute_step_returns (step : dict) (w : World) :
  tools_raise_type_errors_only ->
  step_in_registry step = true ->
  exists v w', _execute_step step w = (Ok v, w').
Proof.
  intros Hr Hreg. rewrite execute_step_unfold. cbv zeta. rewrite Hreg.
  unfold step_in_registry in Hreg.
  apply in_registry_strings in Hreg as (t & a & acts & m & Ht & Ha & Hacts & Hm & _).
  rewrite Ht, Ha, (method_of_assoc t a acts m Hacts Hm).
  unfold try_except.
  destruct (m (dict_get_or "params" step (VDict [])) w) as [[v | e] w1] eqn:Em.
  - eexists. eexists. reflexivity.
  - destruct (Hr t a acts m Hacts Hm _ _ _ _ Em) as [msg ->].
    eexists. eexists. reflexivity.
Qed.

Lemma dispatch_all_returned (steps : list dict) (w : World) :
  tools_raise_type_errors_only ->
  count_returned (fst (dispatch_all steps w))
  = List.length (filter step_in_registry steps).
Proof.
  intros Hr. revert w. induction steps as [| step steps IH]; intros w.
  - reflexivity.
  - rewrite dispatch_all_cons. cbn [fst filter]. unfold count_returned in *.
    cbn [filter]. destruct (step_in_registry step) eqn:Hreg.
    + destruct (execute_step_returns step w Hr Hreg) as (v & w1 & E).
      rewrite E. cbn [fst snd List.length]. rewrite IH. reflexivity.
    + destruct (execute_step_unknown step Hreg) as [e He].
      rewrite He. cbn [fst snd]. apply IH.
Qed.

Lemma plan_report_by_registry (plan : dict) (steps : list dict) (w w' : World) (r : Report) :
  tools_honour_contract ->
  tools_raise_type_errors_only ->
  plan_steps plan steps ->
  execute_plan plan w = (Ok r, w') ->
  steps_executed r = Z.of_nat (List.length (filter step_in_registry steps))
  /\ count_error_entries (results r)
     = List.length (filter (fun step => negb (step_in_registry step)) steps)
  /\ List.length (results r) = List.length steps
  /\ NoDup (keys (results r)).
Proof.
  intros Hc Hr Hplan H.
  rewrite (execute_plan_absorb_all plan steps w Hplan) in H. injection H as <- _.
  destruct (absorb_all_entries steps (fst (dispatch_all steps w)) 0 empty_report
              (dispatch_all_well_shaped steps w Hc))
    as (news & Hres & Hentries & [Hnd _] & Hcount).
  { split; [constructor | intros k []]. }
  cbn [results empty_report app] in Hres, Hnd.
  cbn [steps_executed empty_report] in Hcount.
  destruct (absorb_all_counters steps (fst (dispatch_all steps w)) 0 empty_report
              (dispatch_all_length steps w)) as [He _].
  cbn [steps_executed empty_report] in He.
  rewrite (dispatch_all_returned steps w Hr) in He.
  pose proof (filter_length step_in_registry steps) as Hsplit.
  destruct (entries_of_nth _ _ _ _ _ Hentries) as [Hlen _].
  rewrite Hres. repeat split; try assumption; lia.
Qed.

Lemma fold_check_entry_flags_list (l : dict) (v : Verdict) (key : string) (d0 : dict)
    (rest : list value) :
  In (key, VList (VDict d0 :: rest)) l ->
  truthy (dict_get_or "error" d0 VNone) = true ->
  let msg := (key ++ ": "
                ++ py_str (dict_get_or "description" d0 (VStr "Unknown error")))%string in
  status (fold_left check_entry l v) <> "success"
  /\ In msg (errors (fold_left check_entry l v)).
Proof.
  intros Hin Htruthy msg. revert v.
  induction l as [| entry l IH]; intros v; simpl.
  - destruct Hin.
  - destruct Hin as [-> | Hin].
    + apply fold_check_entry_keeps.
      * simpl. rewrite Htruthy. apply flag_not_success.
      * simpl. rewrite Htruthy. simpl. apply in_or_app. right. left. reflexivity.
    + apply IH, Hin.
Qed.

(** X22. What basic validation says about the failure responses of the tools: a
    search fallback is reported with its reason, while a weather fallback
    and the [{error: text}] of [get_repo_info] are reported as
    ["Unknown error"], their reason not being under [message]. *)
Theorem tool_failures_in_errors (r : Report) (key msg : string) :
  (In (key, GitHubTool_fallback_response msg) (results r) ->
   In (key ++ ": Failed to fetch data: " ++ msg)%string (errors (_basic_validation r)))
  /\ (In (key, WeatherTool_fallback_response msg) (results r) ->
      In (key ++ ": Unknown error")%string (errors (_basic_validation r)))
  /\ (In (key, VDict [("error", VStr msg)]) (results r) -> msg <> "" ->
      In (key ++ ": Unknown error")%string (errors (_basic_validation r))).
Proof.
  unfold _basic_validation. split; [| split].
  - intros Hin.
    match goal with
    | |- In _ (errors (fold_left check_entry _ ?v0)) =>
        apply (fold_check_entry_flags_list (results r) v0 key _ _ Hin)
    end.
    reflexivity.
  - intros Hin.
    match goal with
    | |- In _ (errors (fold_left check_entry _ ?v0)) =>
        apply (fold_check_entry_flags (results r) v0 key _ Hin)
    end.
    reflexivity.
  - intros Hin Hne.
    match goal with
    | |- In _ (errors (fold_left check_entry _ ?v0)) =>
        apply (fold_check_entry_flags (results r) v0 key _ Hin)
    end.
    simpl. destruct (String.eqb_spec msg "") as [E | _]; [contradiction | reflexivity].
Qed.

(** X23. [retry_failed_steps] hands back what [verify_and_format] returned, as it
    is and without any effect, whenever that is a mapping: the deterministic
    format always is one and has its [status], and an LLM verdict that is a
    mapping had its [status] backfilled. *)
Theorem retry_failed_steps_keeps_verdict (r : Report) (req : string) (w w' w2 : World)
    (v : value) :
  verify_and_format r req w = (Ok v, w') ->
  (exists d, v = VDict d) ->
  retry_failed_steps v w2 = (Ok v, w2).
Proof.
  intros H [d ->].
  assert (Hs : dict_mem "status" d = true).
  { revert H. unfold verify_and_format. cbv zeta.
    destruct (format_results_has_keys r (_basic_validation r)) as (fr & Efr & Hs & _).
    destruct (status (_basic_validation r) =? "success")%string.
    - unfold ret. rewrite Efr. intros H. injection H as <- _. exact Hs.
    - unfold try_except.
      destruct (_llm_verification r req w) as [[v | e] w3] eqn:L.
      + intros H. injection H as -> _.
        apply (llm_verification_ok_dict r req w d). rewrite L. reflexivity.
      + unfold ret. rewrite Efr. intros H. injection H as <- _. exact Hs. }
  unfold retry_failed_steps, bind, lift_exc, ret, getitem, dict_getitem.
  unfold dict_mem in Hs.
  destruct (dict_get "status" d) as [x |]; [| discriminate Hs].
  destruct (eq_str "success" x); reflexivity.
Qed.

End Pipeline.

(** ** The executor with the tools of the repository

    [ExecutorAgent.__init__] builds a [GitHubTool] and a [WeatherTool] and
    registers their methods; here the methods of the registry are the models
    of those tools. *)

Lemma repository_tools_contract (World : Type) (str_nonstring : value -> string)
    (requests_get : string -> dict -> dict -> World -> http_outcome * World)
    (sleep : Z -> World -> World) (weather_api_key github_token : option string) :
  let search := GitHubTool_search_repos World requests_get sleep github_token in
  let info := GitHubTool_get_repo_info World str_nonstring requests_get github_token in
  let weather :=
    WeatherTool_get_weather World str_nonstring requests_get sleep weather_api_key in
  tools_honour_contract World search info weather
  /\ tools_raise_type_errors_only World search info weather.
Proof.
  intros search info weather. split.
  - apply tools_honour_contract_intro; intros params w v w' H.
    + exact (search_repos_contract World requests_get sleep github_token
               params w w' (Ok v) H).
    + exact (get_repo_info_contract World str_nonstring requests_get github_token
               params w w' (Ok v) H).
    + exact (get_weather_contract World str_nonstring requests_get sleep weather_api_key
               params w w' (Ok v) H).
  - apply tools_raise_type_errors_only_intro; intros params w e w' H.
    + exact (search_repos_contract World requests_get sleep github_token
               params w w' (Raise e) H).
    + exact (get_repo_info_contract World str_nonstring requests_get github_token
               params w w' (Raise e) H).
    + exact (get_weather_contract World str_nonstring requests_get sleep weather_api_key
               params w w' (Raise e) H).
Qed.

(** X24. With the tools of the repository behind the registry, whatever the
    network answers: a plan whose steps are mappings gets a report with one
    entry per step under distinct keys, [steps_executed] is the number of
    steps that name a registered tool and action, and the [error_step_*]
    entries are as many as the other steps.  A step that names a registered
    action always counts as executed, bad parameters included. *)
Theorem repository_plan_report (World : Type) (str_nonstring : value -> string)
    (requests_get : string -> dict -> dict -> World -> http_outcome * World)
    (sleep : Z -> World -> World) (weather_api_key github_token : option string)
    (plan : dict) (steps : list dict) (w : World) :
  plan_steps plan steps ->
  let search := GitHubTool_search_repos World requests_get sleep github_token in
  let info := GitHubTool_get_repo_info World str_nonstring requests_get github_token in
  let weather :=
    WeatherTool_get_weather World str_nonstring requests_get sleep weather_api_key in
  exists r w',
    execute_plan World str_nonstring search info weather plan w = (Ok r, w')
    /\ steps_executed r
       = Z.of_nat (List.length
                     (filter (step_in_registry World search info weather) steps))
    /\ count_error_entries (results r)
       = List.length
           (filter (fun step => negb (step_in_registry World search info weather step))
                   steps)
    /\ List.length (results r) = List.length steps
    /\ NoDup (keys (results r)).
Proof.
  intros Hplan search info weather.
  destruct (repository_tools_contract World str_nonstring requests_get sleep
              weather_api_key github_token) as [Hc Hr].
  fold search info weather in Hc, Hr.
  destruct (execute_plan World str_nonstring search info weather plan w)
    as [[r | e] w'] eqn:E.
  - exists r, w'. split; [reflexivity |].
    exact (plan_report_by_registry World str_nonstring search info weather
             plan steps w w' r Hc Hr Hplan E).
  - rewrite (execute_plan_absorb_all World str_nonstring search info weather
               plan steps w Hplan) in E.
    discriminate E.
Qed.

(** ** The pipeline on the concrete collaborators *)

Lemma demo_tools_honour_contract :
  tools_honour_contract demo_world demo_search_repos demo_get_repo_info demo_get_weather.
Proof.
  apply tools_honour_contract_intro.
  - intros params w v w' H. injection H as <- _. reflexivity.
  - intros params w v w' H. injection H as <- _. reflexivity.
  - intros params w v w'. unfold demo_get_weather.
    destruct params as [| | | | | | kw]; try discriminate.
    destruct (dict_get "city" kw); [| discriminate].
    intros H. injection H as <- _. reflexivity.
Qed.

Notation demo_execute_plan :=
  (execute_plan demo_world demo_str demo_search_repos demo_get_repo_info demo_get_weather).
Notation demo_execute_step :=
  (_execute_step demo_world demo_str demo_search_repos demo_get_repo_info demo_get_weather).
Notation demo_in_registry :=
  (step_in_registry demo_world demo_search_repos demo_get_repo_info demo_get_weather).
Notation demo_verify generate :=
  (verify_and_format demo_world demo_str generate demo_json_loads demo_system_prompt).
Notation demo_refine generate :=
  (refine_plan demo_world demo_str generate demo_json_loads demo_system_prompt).

(** The report of the four-step plan: the search and the first forecast
    under their short keys, the unregistered step under [error_step_2], the
    second forecast under the suffixed key.  Both forecasts count as failed,
    their [error] field being a non-empty string. *)
Example demo_plan_report :
  demo_execute_plan demo_plan 0%nat
  = (Ok (mkReport 3 3
           [("github_search_repos",
             VList [demo_repo "psf/requests" 50000;
                    demo_repo "pallets/flask" 60000;
                    demo_repo "django/django" 70000]);
            ("weather_get_forecast", demo_forecast "Paris");
            ("error_step_2",
             VDict [("error", VBool true);
                    ("message", VStr "Unknown tool: translate");
                    ("step", VDict demo_unknown_step)]);
            ("weather_get_forecast_3", demo_forecast "Rome")]),
     1%nat).
Proof. reflexivity. Qed.

Lemma report_aggregate_invariant_witness :
  tools_honour_contract demo_world demo_search_repos demo_get_repo_info demo_get_weather
  /\ plan_steps demo_plan demo_plan_steps
  /\ exists (r : Report) (w' : demo_world),
       demo_execute_plan demo_plan 0%nat = (Ok r, w')
       /\ steps_executed r + Z.of_nat (count_error_entries (results r)) <= 4
       /\ List.length (results r) = 4%nat
       /\ NoDup (keys (results r)).
Proof.
  split; [exact demo_tools_honour_contract |].
  split; [reflexivity |].
  destruct (report_aggregate_invariant demo_world demo_str demo_search_repos
              demo_get_repo_info demo_get_weather demo_plan demo_plan_steps 0%nat
              demo_tools_honour_contract eq_refl)
    as (r & w' & H1 & H2 & H3 & H4 & _).
  exists r, w'. repeat split; assumption.
Defined.

Lemma verify_and_format_fallback_witness :
  llm_path_fails demo_world demo_str demo_generate_down demo_json_loads
    demo_system_prompt demo_failed_search_report "top python repositories" 0%nat
  /\ fst (demo_verify demo_generate_down demo_failed_search_report
            "top python repositories" 0%nat)
     = Ok (_format_results demo_failed_search_report
             (_basic_validation demo_str demo_failed_search_report)).
Proof.
  assert (H : llm_path_fails demo_world demo_str demo_generate_down demo_json_loads
                demo_system_prompt demo_failed_search_report
                "top python repositories" 0%nat).
  { right. left. eexists. reflexivity. }
  split; [exact H |].
  exact (verify_and_format_fallback demo_world demo_str demo_generate_down
           demo_json_loads demo_system_prompt demo_failed_search_report
           "top python repositories" 0%nat H).
Defined.

(** The forecast stub returns a mapping whose [error] field is a non-empty
    string, and basic validation classifies it as a failure: the executor
    counts the step as failed, and the entry alone turns the verdict to
    [partial] and contributes to [errors]. *)
Lemma forecast_stub_error_is_flagged :
  demo_execute_plan [("steps", VList [VDict (demo_forecast_step "Paris")])] 0%nat
  = (Ok (mkReport 1 1 [("weather_get_forecast", demo_forecast "Paris")]), 0%nat)
  /\ dict_get "error" [("city", VStr "Paris"); ("forecast", VList []);
                       ("error", VStr "Forecast not implemented")]
     = Some (VStr "Forecast not implemented")
  /\ truthy (VStr "Forecast not implemented") = true
  /\ _basic_validation demo_str
       (mkReport 1 1 [("weather_get_forecast", demo_forecast "Paris")])
     = mkVerdict "partial" []
         ["1 step(s) failed"; "weather_get_forecast: Unknown error"]
  /\ _basic_validation demo_str
       (mkReport 1 0 [("weather_get_forecast", demo_forecast "Paris")])
     = mkVerdict "partial" [] ["weather_get_forecast: Unknown error"].
Proof. repeat split; reflexivity. Qed.

Lemma truthy_error_entry_is_flagged_witness :
  let d := [("city", VStr "Paris"); ("forecast", VList []);
            ("error", VStr "Forecast not implemented")] in
  let r := mkReport 1 0 [("weather_get_forecast", VDict d)] in
  In ("weather_get_forecast", VDict d) (results r)
  /\ dict_get "error" d = Some (VStr "Forecast not implemented")
  /\ truthy (VStr "Forecast not implemented") = true
  /\ status (_basic_validation demo_str r) <> "success"
  /\ In "weather_get_forecast: Unknown error" (errors (_basic_validation demo_str r)).
Proof.
  intros d r.
  assert (Hin : In ("weather_get_forecast", VDict d) (results r)) by (left; reflexivity).
  split; [exact Hin |].
  split; [reflexivity |].
  split; [reflexivity |].
  exact (truthy_error_entry_is_flagged demo_str r "weather_get_forecast" d
           (VStr "Forecast not implemented") Hin eq_refl eq_refl).
Defined.

(** On the empty plan the executor returns the empty report, and an LLM that
    answers with a [success] verdict makes [verify_and_format] return that
    verdict: the status is not [failed]. *)
Lemma empty_plan_verdict_follows_llm :
  demo_execute_plan [("steps", VList [])] 0%nat = (Ok (mkReport 0 0 []), 0%nat)
  /\ demo_verify demo_generate_verdict (mkReport 0 0 []) "anything to report?" 0%nat
     = (Ok (VDict [("status", VStr "success"); ("results", VDict [])]), 1%nat).
Proof. split; reflexivity. Qed.

Lemma empty_plan_report_and_verdict_witness :
  py_iter (dict_get_or "steps" [("steps", VList [])] (VList [])) = Ok []
  /\ demo_execute_plan [("steps", VList [])] 0%nat = (Ok (mkReport 0 0 []), 0%nat)
  /\ fst (demo_verify demo_generate_verdict (mkReport 0 0 []) "anything to report?" 0%nat)
     = Ok (VDict [("status", VStr "success"); ("results", VDict [])])
  /\ fst (demo_verify demo_generate_down (mkReport 0 0 []) "anything to report?" 0%nat)
     = Ok (VDict [("status", VStr "failed");
                  ("results", VDict []);
                  ("missing_fields", VList []);
                  ("errors", VList [VStr "No steps executed successfully"])]).
Proof.
  split; [reflexivity |].
  split.
  - exact (proj1 (empty_plan_report_and_verdict demo_world demo_str demo_search_repos
                    demo_get_repo_info demo_get_weather demo_generate_down
                    demo_json_loads demo_system_prompt
                    [("steps", VList [])] 0%nat eq_refl)).
  - split.
    + refine (proj1 (proj2 (proj2 (empty_plan_report_and_verdict demo_world demo_str
                demo_search_repos demo_get_repo_info demo_get_weather
                demo_generate_verdict demo_json_loads demo_system_prompt
                [("steps", VList [])] 0%nat eq_refl))
                "anything to report?" 0%nat) _ _).
      reflexivity.
    + refine (proj2 (proj2 (proj2 (empty_plan_report_and_verdict demo_world demo_str
                demo_search_repos demo_get_repo_info demo_get_weather
                demo_generate_down demo_json_loads demo_system_prompt
                [("steps", VList [])] 0%nat eq_refl))
                "anything to report?" 0%nat) _).
      right. left. eexists. reflexivity.
Defined.

Lemma unknown_step_is_isolated_witness :
  plan_steps demo_plan
    ([demo_search_step; demo_forecast_step "Paris"]
       ++ demo_unknown_step :: [demo_forecast_step "Rome"])
  /\ demo_in_registry demo_unknown_step = false
  /\ exists (e : exn) (r r_sib : Report) (w' : demo_world),
       demo_execute_plan demo_plan 0%nat = (Ok r, w')
       /\ dict_get "error_step_2" (results r)
          = Some (VDict [("error", VBool true); ("message", VStr (str_exn e));
                         ("step", VDict demo_unknown_step)])
       /\ steps_failed r = steps_failed r_sib + 1
       /\ steps_executed r = steps_executed r_sib
       /\ forall k, k <> "error_step_2" ->
                    dict_get k (results r) = dict_get k (results r_sib).
Proof.
  split; [reflexivity |].
  split; [reflexivity |].
  destruct (unknown_step_is_isolated demo_world demo_str demo_search_repos
              demo_get_repo_info demo_get_weather demo_plan
              [demo_search_step; demo_forecast_step "Paris"]
              [demo_forecast_step "Rome"] demo_unknown_step 0%nat eq_refl eq_refl)
    as (e & r & r_sib & w' & _ & _ & H1 & _ & H2 & H3 & H4 & H5).
  exists e, r, r_sib, w'. repeat split; assumption.
Defined.

Lemma parameter_error_is_an_outcome_witness :
  let msg := "WeatherTool.get_weather_forecast() got an unexpected keyword argument 'town'" in
  demo_in_registry demo_bad_params_step = true
  /\ method_of demo_world demo_str demo_search_repos demo_get_repo_info demo_get_weather
       (dict_get_or "tool" demo_bad_params_step VNone)
       (dict_get_or "action" demo_bad_params_step VNone)
       (dict_get_or "params" demo_bad_params_step (VDict [])) 0%nat
     = (Raise (TypeError msg), 0%nat)
  /\ demo_execute_step demo_bad_params_step 0%nat
     = (Ok (VDict [("error", VBool true);
                   ("message", VStr ("Invalid parameters: " ++ msg))]), 0%nat).
Proof.
  intros msg.
  split; [reflexivity |].
  split; [reflexivity |].
  exact (proj1 (parameter_error_is_an_outcome demo_world demo_str demo_search_repos
                  demo_get_repo_info demo_get_weather demo_bad_params_step
                  0%nat 0%nat msg eq_refl eq_refl)).
Defined.

Lemma repeated_step_gets_suffixed_key_witness :
  plan_steps demo_plan
    ([demo_search_step]
       ++ demo_forecast_step "Paris" :: [demo_unknown_step]
       ++ demo_forecast_step "Rome" :: [])
  /\ Forall (fun step => ~ (dict_get_or "tool" step VNone = VStr "weather"
                            /\ dict_get_or "action" step VNone = VStr "get_forecast"))
            [demo_search_step]
  /\ exists (r : Report) (w' : demo_world),
       demo_execute_plan demo_plan 0%nat = (Ok r, w')
       /\ dict_get "weather_get_forecast" (results r) = Some (demo_forecast "Paris")
       /\ dict_get "weather_get_forecast_3" (results r) = Some (demo_forecast "Rome").
Proof.
  assert (Hpre : Forall (fun step => ~ (dict_get_or "tool" step VNone = VStr "weather"
                                        /\ dict_get_or "action" step VNone
                                           = VStr "get_forecast"))
                        [demo_search_step]).
  { constructor; [| constructor]. intros [H _]. discriminate H. }
  split; [reflexivity |].
  split; [exact Hpre |].
  exact (proj1 (repeated_step_gets_suffixed_key demo_world demo_str demo_search_repos
                  demo_get_repo_info demo_get_weather demo_plan
                  [demo_search_step] [demo_unknown_step] []
                  (demo_forecast_step "Paris") (demo_forecast_step "Rome")
                  "weather" "get_forecast" (demo_forecast "Paris") (demo_forecast "Rome")
                  0%nat eq_refl eq_refl eq_refl eq_refl eq_refl Hpre eq_refl eq_refl)).
Defined.

(** Two identical steps that name an action the registry does not have.
    The plan passes [_validate_plan], which checks the tool only; both
    dispatches raise, and the report keeps the steps under [error_step_0]
    and [error_step_1]: no entry is keyed ["github_star_repo"], with or
    without a suffix. *)
Lemma repeated_unregistered_step_gets_error_keys :
  _validate_plan
    (VDict [("steps", VList [VDict demo_unregistered_action_step;
                             VDict demo_unregistered_action_step])]) = true
  /\ demo_execute_plan
       [("steps", VList [VDict demo_unregistered_action_step;
                         VDict demo_unregistered_action_step])] 0%nat
     = (Ok (mkReport 0 2
              [("error_step_0",
                VDict [("error", VBool true);
                       ("message",
                        VStr "Unknown action 'star_repo' for tool 'github'");
                       ("step", VDict demo_unregistered_action_step)]);
               ("error_step_1",
                VDict [("error", VBool true);
                       ("message",
                        VStr "Unknown action 'star_repo' for tool 'github'");
                       ("step", VDict demo_unregistered_action_step)])]),
        0%nat).
Proof. split; reflexivity. Qed.

(** Two reports on which basic validation says [success] and whose weather
    entry does not reach the output: the last dict-valued weather entry is an
    empty mapping, and the key of the only weather entry also contains
    ["github"]. *)
Lemma weather_entry_can_be_dropped :
  (let r := mkReport 2 0 [("weather_get_weather", VDict [("city", VStr "Paris")]);
                          ("weather_get_weather_1", VDict [])] in
   status (_basic_validation demo_str r) = "success"
   /\ demo_verify demo_generate_verdict r "weather in Paris" 0%nat
      = (Ok (VDict [("status", VStr "success"); ("results", VDict []);
                    ("missing_fields", VList []); ("errors", VList [])]), 0%nat))
  /\ (let r := mkReport 1 0 [("github_weather", VDict [("city", VStr "Paris")])] in
      status (_basic_validation demo_str r) = "success"
      /\ demo_verify demo_generate_verdict r "weather in Paris" 0%nat
         = (Ok (VDict [("status", VStr "success");
                       ("results",
                        VDict [("github_repos", VList [VDict [("city", VStr "Paris")]])]);
                       ("missing_fields", VList []); ("errors", VList [])]), 0%nat)).
Proof. repeat split; reflexivity. Qed.

Lemma verify_and_format_happy_path_witness :
  status (_basic_validation demo_str demo_search_report) = "success"
  /\ demo_verify demo_generate_verdict demo_search_report "top python repositories" 0%nat
     = (Ok (VDict [("status", VStr "success");
                   ("results",
                    VDict [("github_repos",
                            VList [demo_repo "psf/requests" 50000;
                                   demo_repo "pallets/flask" 60000;
                                   demo_repo "django/django" 70000])]);
                   ("missing_fields", VList []);
                   ("errors", VList [])]), 0%nat).
Proof.
  split; [reflexivity |].
  exact (verify_and_format_happy_path demo_world demo_str demo_generate_verdict
           demo_json_loads demo_system_prompt demo_search_report
           "top python repositories" 0%nat eq_refl).
Defined.

Lemma refine_plan_keeps_original_witness :
  refinement_rejected demo_world demo_str demo_generate_bad_plan demo_json_loads
    demo_system_prompt (VDict demo_plan) "step 3 failed: Unknown tool" 0%nat
  /\ fst (demo_refine demo_generate_bad_plan (VDict demo_plan)
            "step 3 failed: Unknown tool" 0%nat)
     = Ok (VDict demo_plan).
Proof.
  assert (H : refinement_rejected demo_world demo_str demo_generate_bad_plan
                demo_json_loads demo_system_prompt (VDict demo_plan)
                "step 3 failed: Unknown tool" 0%nat).
  { right. right. exists demo_bad_plan_json, (VDict [("steps", VStr "none")]).
    repeat split; reflexivity. }
  split; [exact H |].
  exact (refine_plan_keeps_original demo_world demo_str demo_generate_bad_plan
           demo_json_loads demo_system_prompt (VDict demo_plan)
           "step 3 failed: Unknown tool" 0%nat H).
Defined.

Lemma deterministic_result_missing_fields_empty_witness :
  (exists e, fst (_llm_verification demo_world demo_str demo_generate_down demo_json_loads
                    demo_system_prompt demo_failed_search_report
                    "top python repositories" 0%nat) = Raise e)
  /\ exists fr,
       fst (demo_verify demo_generate_down demo_failed_search_report
              "top python repositories" 0%nat) = Ok (VDict fr)
       /\ dict_get "missing_fields" fr = Some (VList []).
Proof.
  assert (H : exists e,
             fst (_llm_verification demo_world demo_str demo_generate_down demo_json_loads
                    demo_system_prompt demo_failed_search_report
                    "top python repositories" 0%nat) = Raise e).
  { eexists. reflexivity. }
  split; [exact H |].
  exact (proj2 (proj2 (deterministic_result_missing_fields_empty demo_world demo_str
                         demo_generate_down demo_json_loads demo_system_prompt
                         demo_failed_search_report))
           "top python repositories" 0%nat (or_intror H)).
Defined.

(** Outside the tool contract the loop body can store two entries for one
    step: the failure test calls [.get] on the first element of a returned
    list and raises after the outcome has been stored and counted. *)
Example outcome_outside_contract :
  execute_plan demo_world demo_str demo_search_numbers demo_get_repo_info demo_get_weather
    [("steps", VList [VDict demo_search_step])] 0%nat
  = (Ok (mkReport 1 1
           [("github_search_repos", VList [VInt 1; VInt 2]);
            ("error_step_0",
             VDict [("error", VBool true);
                    ("message", VStr "'int' object has no attribute 'get'");
                    ("step", VDict demo_search_step)])]),
     1%nat).
Proof. reflexivity. Qed.

(** *** The further properties on the concrete collaborators *)

Notation demo_weather_tool :=
  (WeatherTool_get_weather demo_world demo_str demo_requests_get demo_sleep (Some "key")).
Notation demo_search_tool :=
  (GitHubTool_search_repos demo_world demo_requests_get demo_sleep None).
Notation demo_info_tool :=
  (GitHubTool_get_repo_info demo_world demo_str demo_requests_get None).

Lemma llm_verification_backfills_witness :
  exists d',
    _llm_verification demo_world demo_str demo_generate_summary demo_json_loads_summary
      demo_system_prompt demo_failed_search_report "top python repositories" 0%nat
    = (Ok (VDict d'), 1%nat)
    /\ dict_get "status" d' = Some (VStr "partial")
    /\ dict_get "results" d' = Some (VDict [])
    /\ dict_get "summary" d' = Some (VStr "done").
Proof.
  destruct (llm_verification_backfills demo_world demo_str demo_generate_summary
              demo_json_loads_summary demo_system_prompt demo_failed_search_report
              "top python repositories" 0%nat 1%nat [("summary", VStr "done")] eq_refl)
    as (d' & H & Hs & Hr & Ho).
  exists d'. split; [exact H |]. split; [exact Hs |]. split; [exact Hr |].
  rewrite Ho; [reflexivity | discriminate | discriminate].
Defined.

Lemma report_counters_within_plan_witness :
  plan_steps demo_plan demo_plan_steps
  /\ demo_execute_plan demo_plan 0%nat = (Ok demo_plan_result, 1%nat)
  /\ steps_executed demo_plan_result = 3
  /\ 0 <= 3 <= 4
  /\ 4 - 3 <= steps_failed demo_plan_result <= 4.
Proof.
  split; [reflexivity |]. split; [reflexivity |].
  exact (report_counters_within_plan demo_world demo_str demo_search_repos
           demo_get_repo_info demo_get_weather demo_plan demo_plan_steps 0%nat 1%nat
           demo_plan_result eq_refl eq_refl).
Defined.

Lemma report_keys_closed_witness :
  In "weather_get_forecast_3" (keys (results demo_plan_result))
  /\ (In "weather_get_forecast_3"
        ["github_search_repos"; "github_get_repo_info";
         "weather_get_weather"; "weather_get_forecast"]
      \/ (exists K i,
            In K ["github_search_repos"; "github_get_repo_info";
                  "weather_get_weather"; "weather_get_forecast"]
            /\ (i < 4)%nat /\ "weather_get_forecast_3" = (K ++ "_" ++ str_nat i)%string)
      \/ (exists i, (i < 4)%nat
                    /\ "weather_get_forecast_3" = ("error_step_" ++ str_nat i)%string)).
Proof.
  assert (Hin : In "weather_get_forecast_3" (keys (results demo_plan_result))).
  { right. right. right. left. reflexivity. }
  split; [exact Hin |].
  exact (report_keys_closed demo_world demo_str demo_search_repos demo_get_repo_info
           demo_get_weather demo_plan demo_plan_steps 0%nat 1%nat demo_plan_result
           "weather_get_forecast_3" eq_refl eq_refl Hin).
Defined.

Lemma forecast_step_always_fails_witness :
  exists v,
    demo_execute_step (demo_forecast_step "Paris") 0%nat = (Ok v, 0%nat)
    /\ outcome_failed v = Ok true
    /\ step_body demo_world demo_str demo_search_repos demo_get_repo_info demo_get_weather
         0 (demo_forecast_step "Paris") (empty_report, 0%nat)
       = (Ok tt, (mkReport 1 1 [("weather_get_forecast", v)], 0%nat)).
Proof.
  destruct (forecast_step_always_fails demo_world demo_str demo_search_repos
              demo_get_repo_info demo_get_weather (demo_forecast_step "Paris") 0
              empty_report 0%nat eq_refl eq_refl) as (v & H1 & H2 & H3).
  exists v. split; [exact H1 |]. split; [exact H2 |]. exact H3.
Defined.

Lemma single_step_plan_witness :
  exists r,
    demo_execute_plan
      [("steps", VList [VDict [("tool", VStr "github"); ("action", VStr "get_repo_info");
                               ("params", VDict [])]])] 0%nat
    = (Ok r, 1%nat)
    /\ r = mkReport 1 1
             [("github_get_repo_info", VDict [("error", VStr "API error: 404")])].
Proof.
  destruct (single_step_plan demo_world demo_str demo_search_repos demo_get_repo_info
              demo_get_weather (VStr "github") (VStr "get_repo_info") (VDict [])
              0%nat 1%nat (Ok (VDict [("error", VStr "API error: 404")])) eq_refl)
    as (r & H & _ & Hok).
  exists r. split; [exact H |].
  exact (Hok (VDict [("error", VStr "API error: 404")]) true eq_refl eq_refl).
Defined.

Lemma validated_plan_executes_witness :
  _validate_plan (VDict demo_valid_plan) = true
  /\ exists steps,
       plan_steps demo_valid_plan steps
       /\ Forall (fun s =>
                    key_in (dict_get_or "tool" s VNone)
                      (action_map demo_world demo_search_repos demo_get_repo_info
                         demo_get_weather) = Ok true) steps
       /\ exists r w', demo_execute_plan demo_valid_plan 0%nat = (Ok r, w').
Proof.
  split; [reflexivity |].
  exact (validated_plan_executes demo_world demo_str demo_search_repos demo_get_repo_info
           demo_get_weather demo_valid_plan 0%nat eq_refl).
Defined.

Lemma executor_report_success_iff_witness :
  demo_execute_plan [("steps", VList [VDict demo_search_step])] 0%nat
  = (Ok demo_search_report, 1%nat)
  /\ (status (_basic_validation demo_str demo_search_report) = "success"
      <-> steps_failed demo_search_report = 0 /\ steps_executed demo_search_report <> 0).
Proof.
  split; [reflexivity |].
  exact (executor_report_success_iff demo_world demo_str demo_search_repos
           demo_get_repo_info demo_get_weather
           [("steps", VList [VDict demo_search_step])] 0%nat 1%nat demo_search_report
           eq_refl).
Defined.

Lemma process_request_planning_failure_witness :
  create_plan demo_world demo_generate_bad_plan demo_json_loads demo_system_prompt
    "weather in Paris" 0%nat
  = (Raise (ValueError "Invalid plan structure generated"), 1%nat)
  /\ process_request demo_world demo_str demo_search_repos demo_get_repo_info
       demo_get_weather demo_generate_bad_plan demo_json_loads demo_system_prompt
       demo_system_prompt "weather in Paris" 0%nat
     = (Ok (VDict [("status", VStr "failed");
                   ("results", VDict []);
                   ("errors", VList [VStr "Invalid plan structure generated"]);
                   ("missing_fields", VList [])]),
        1%nat).
Proof.
  split; [reflexivity |].
  exact (process_request_planning_failure demo_world demo_str demo_search_repos
           demo_get_repo_info demo_get_weather demo_generate_bad_plan demo_json_loads
           demo_system_prompt demo_system_prompt "weather in Paris" 0%nat 1%nat
           (ValueError "Invalid plan structure generated") eq_refl).
Defined.

Lemma clean_response_fenced_witness :
  let lead := (" " ++ demo_nbsp)%string in
  let trail := (demo_em_space ++ " ")%string in
  let body := (demo_nbsp ++ demo_verdict_json ++ " ")%string in
  all_space lead = true /\ all_space trail = true
  /\ clean_response (lead ++ "```json" ++ body ++ "```" ++ trail) = demo_verdict_json
  /\ clean_response (lead ++ "```" ++ body ++ "```" ++ trail) = demo_verdict_json.
Proof.
  intros lead trail body.
  destruct (clean_response_fenced lead trail body eq_refl eq_refl) as [H1 H2].
  split; [reflexivity |]. split; [reflexivity |].
  split; [exact H1 | exact (H2 eq_refl)].
Defined.

Lemma get_weather_outcomes_witness :
  exists d,
    demo_weather_tool (VDict [("city", VStr "Paris")]) 0%nat = (Ok (VDict d), 3%nat)
    /\ dict_get "city" d = Some (VStr "Paris")
    /\ dict_get "temperature" d = Some (VInt 21)
    /\ outcome_failed (VDict d) = Ok false.
Proof.
  destruct (get_weather_outcomes demo_world demo_str demo_requests_get demo_sleep
              (Some "key") (VDict [("city", VStr "Paris")]) 0%nat 3%nat
              (fst (demo_weather_tool (VDict [("city", VStr "Paris")]) 0%nat)) eq_refl)
    as [[msg H] | [[msg [H _]] | (d & H & _ & Hf)]];
    [discriminate H | discriminate H |].
  exists d. injection H as <-.
  split; [reflexivity |]. split; [reflexivity |]. split; [reflexivity | exact Hf].
Defined.

Lemma get_weather_request_bound_witness :
  exists v k w',
    demo_weather_tool (VDict [("city", VStr "Paris")]) 0%nat = (Ok v, w')
    /\ Z.of_nat k <= 3
    /\ (1 <= k)%nat
    /\ after_requests demo_world demo_requests_get demo_sleep
         "https://api.openweathermap.org/data/2.5/weather" []
         [("q", VStr "Paris"); ("appid", VStr "key"); ("units", VStr "metric")]
         k 0%nat w'.
Proof.
  destruct (proj2 (get_weather_request_bound demo_world demo_str demo_requests_get
                     demo_sleep (Some "key") (VDict [("city", VStr "Paris")])
                     [("city", VStr "Paris"); ("units", VStr "metric");
                      ("retry_count", VInt 3)] 0%nat eq_refl)
              "key" 3 eq_refl eq_refl eq_refl)
    as (v & k & w' & H & Hk & Hpos & Hreq).
  exists v, k, w'. split; [exact H |]. split; [exact Hk |].
  split; [apply Hpos; reflexivity | exact Hreq].
Defined.

Lemma search_repos_outcomes_witness :
  exists repos,
    demo_search_tool (VDict [("query", VStr "python"); ("limit", VInt 2)]) 0%nat
    = (Ok (VList repos), 3%nat)
    /\ outcome_failed (VList repos) = Ok false
    /\ Z.of_nat (List.length repos) <= 2.
Proof.
  destruct (search_repos_outcomes demo_world demo_requests_get demo_sleep None
              (VDict [("query", VStr "python"); ("limit", VInt 2)]) 0%nat 3%nat
              (fst (demo_search_tool (VDict [("query", VStr "python"); ("limit", VInt 2)])
                      0%nat)) eq_refl)
    as [[msg H] | [[msg [H _]] | (repos & H & _ & Hf & Hlen)]];
    [discriminate H | discriminate H |].
  exists repos. injection H as <-.
  split; [reflexivity |]. split; [exact Hf |].
  apply (Hlen [("query", VStr "python"); ("limit", VInt 2); ("sort", VStr "stars");
               ("order", VStr "desc"); ("retry_count", VInt 3)] 2);
    [reflexivity | reflexivity | discriminate].
Defined.

Lemma search_repos_request_bound_witness :
  exists v k w',
    demo_search_tool (VDict [("query", VStr "python"); ("retry_count", VInt 2)]) 0%nat
    = (Ok v, w')
    /\ Z.of_nat k <= 2
    /\ (1 <= k)%nat
    /\ after_requests demo_world demo_requests_get demo_sleep
         "https://api.github.com/search/repositories" (github_headers None)
         [("q", VStr "python"); ("sort", VStr "stars"); ("order", VStr "desc");
          ("per_page", VInt 5)] k 0%nat w'.
Proof.
  destruct (search_repos_request_bound demo_world demo_requests_get demo_sleep None
              (VDict [("query", VStr "python"); ("retry_count", VInt 2)])
              [("query", VStr "python"); ("limit", VInt 5); ("sort", VStr "stars");
               ("order", VStr "desc"); ("retry_count", VInt 2)] 0%nat (VInt 5) 2
              eq_refl eq_refl eq_refl)
    as (v & k & w' & H & Hk & Hpos & Hreq).
  exists v, k, w'. split; [exact H |]. split; [exact Hk |].
  split; [apply Hpos; reflexivity | exact Hreq].
Defined.

Lemma get_repo_info_outcomes_witness :
  demo_info_tool (VDict [("owner", VStr "psf"); ("repo", VStr "requests")]) 0%nat
  = (Ok (VDict [("error", VStr "Read timed out.")]), 1%nat)
  /\ ((exists msg, Ok (VDict [("error", VStr "Read timed out.")]) = Raise (TypeError msg)
                   /\ 1%nat = 0%nat)
      \/ (exists url,
            after_requests demo_world demo_requests_get demo_sleep url (github_headers None)
              [] 1 0%nat 1%nat
            /\ ((exists msg,
                   Ok (VDict [("error", VStr "Read timed out.")])
                   = Ok (VDict [("error", VStr msg)])
                   /\ outcome_failed (VDict [("error", VStr msg)])
                      = Ok (negb (msg =? "")%string))
                \/ (exists d,
                      Ok (VDict [("error", VStr "Read timed out.")]) = Ok (VDict d)
                      /\ keys d = ["name"; "stars"; "description"; "url"; "language";
                                   "forks"; "open_issues"; "created_at"; "updated_at"]
                      /\ outcome_failed (VDict d) = Ok false)))).
Proof.
  split; [reflexivity |].
  exact (get_repo_info_outcomes demo_world demo_str demo_requests_get demo_sleep None
           (VDict [("owner", VStr "psf"); ("repo", VStr "requests")]) 0%nat 1%nat
           (Ok (VDict [("error", VStr "Read timed out.")])) eq_refl).
Defined.

Lemma repository_plan_report_witness :
  plan_steps demo_plan demo_plan_steps
  /\ exists r w',
       execute_plan demo_world demo_str demo_search_tool demo_info_tool demo_weather_tool
         demo_plan 0%nat = (Ok r, w')
       /\ steps_executed r = 3
       /\ count_error_entries (results r) = 1%nat
       /\ List.length (results r) = 4%nat
       /\ NoDup (keys (results r)).
Proof.
  split; [reflexivity |].
  destruct (repository_plan_report demo_world demo_str demo_requests_get demo_sleep
              (Some "key") None demo_plan demo_plan_steps 0%nat eq_refl)
    as (r & w' & H & He & Hc & Hl & Hn).
  exists r, w'. split; [exact H |]. split; [exact He |]. split; [exact Hc |].
  split; [exact Hl | exact Hn].
Defined.

Lemma retry_failed_steps_keeps_verdict_witness :
  let v := _format_results demo_search_report
             (_basic_validation demo_str demo_search_report) in
  demo_verify demo_generate_down demo_search_report "top python repositories" 0%nat
  = (Ok v, 0%nat)
  /\ retry_failed_steps demo_world v 7%nat = (Ok v, 7%nat).
Proof.
  intros v. split; [reflexivity |].
  exact (retry_failed_steps_keeps_verdict demo_world demo_str demo_generate_down
           demo_json_loads demo_system_prompt demo_search_report
           "top python repositories" 0%nat 0%nat 7%nat v eq_refl
           (ex_intro _ _ eq_refl)).
Defined.

Lemma tool_failures_in_errors_witness :
  In ("github_search_repos", GitHubTool_fallback_response "Request timeout")
     (results demo_failed_search_report)
  /\ In "github_search_repos: Failed to fetch data: Request timeout"
        (errors (_basic_validation demo_str demo_failed_search_report)).
Proof.
  assert (Hin : In ("github_search_repos", GitHubTool_fallback_response "Request timeout")
                   (results demo_failed_search_report)) by (left; reflexivity).
  split; [exact Hin |].
  exact (proj1 (tool_failures_in_errors demo_str demo_failed_search_report
                  "github_search_repos" "Request timeout") Hin).
Defined.

Lemma create_plan_returns_validated_plans_witness :
  fst (generate_json demo_world demo_generate_bad_plan demo_json_loads
         ("User request: " ++ "weather in Paris") demo_system_prompt 0%nat)
  = Ok (VDict [("steps", VStr "none")])
  /\ _validate_plan (VDict [("steps", VStr "none")]) = false
  /\ fst (create_plan demo_world demo_generate_bad_plan demo_json_loads demo_system_prompt
            "weather in Paris" 0%nat)
     = Raise (ValueError "Invalid plan structure generated").
Proof.
  split; [reflexivity |]. split; [reflexivity |].
  exact (proj2 (create_plan_returns_validated_plans demo_world demo_generate_bad_plan
                  demo_json_loads demo_system_prompt "weather in Paris" 0%nat
                  (VDict [("steps", VStr "none")])) eq_refl eq_refl).
Defined.

Lemma format_results_categories_witness :
  results demo_plan_result_categories
  = filter (fun kv => category_key (fst kv)) (results demo_plan_result)
  /\ _format_results demo_plan_result_categories
       (_basic_validation demo_str demo_plan_result)
     = _format_results demo_plan_result (_basic_validation demo_str demo_plan_result)
  /\ category_key "error_step_2" = false.
Proof.
  split; [reflexivity |].
  destruct (format_results_categories demo_plan_result demo_plan_result_categories
              (_basic_validation demo_str demo_plan_result)) as (_ & H & He).
  split; [exact (H eq_refl) | exact (He 2%nat)].
Defined.
